(** * ESOP management: ingestion, Monte Carlo projection and strategy synthesis

    A shallow embedding of the JavaScript services

    - [services/csvService.js]                  ([parseDate], [parseAndSaveEsopCSV]),
    - [services/successProbabilityService.js]   ([runSimulation], [generateSuccessProbabilities]),
    - [services/strategyService.js]             (the five strategy functions),
    - [middleware/dataTransformer.js]           ([transformEsopData]),

    together with the fragments of the ECMAScript runtime they call
    ([parseInt], [parseFloat], [ToNumber], the [Date] constructor,
    property lookup through [Object.prototype], [Math.round], [toFixed]).

    Conventions.
    - A JavaScript Number is a [number]: [NaN], the two infinities, or a finite
      value kept as a rational.  A decimal written with fraction digits (a
      literal of the source such as [0.2], the text of a cell such as
      ["12.5"]) is kept as that decimal and stands for the binary64 value
      nearest to it.  Whole numbers read from text are rounded to binary64
      ([Num.double]), with overflow to an infinity.  The quantities of
      [strategyService.js] that are handed to [Math.round] and [toFixed]
      (the savings rate, the drawdown, the funding amounts) are computed in
      binary64 ([Num.fsub], [Num.fmul], [Num.fdiv]), and [toFixed] prints
      the binary64 value of its argument.  The other sums and products (the
      Monte Carlo projector, the years to retirement, the amounts quoted in
      advice text) are exact.  The sign of zero is not represented.
    - A string is a [string] of bytes; only the ASCII white space characters
      are recognised as white space.
    - [undefined] is [None] where a property may be missing. *)

From Stdlib Require Import ZArith QArith Qround Qabs Qpower Lia Lqa Ascii String.
From stdpp Require Import base option list strings gmap.

Local Open Scope string_scope.
Local Open Scope Z_scope.

(** ** JavaScript numbers *)

Inductive number : Type :=
| NaN
| PInf
| NInf
| Fin (q : Q).

Module Num.

Definition of_Z (z : Z) : number := Fin (inject_Z z).

Definition Qsign (q : Q) : Z := Z.sgn (Qnum q).

Definition neg (a : number) : number :=
  match a with
  | NaN => NaN
  | PInf => NInf
  | NInf => PInf
  | Fin q => Fin (Qopp q)
  end.

Definition add (a b : number) : number :=
  match a, b with
  | NaN, _ | _, NaN => NaN
  | PInf, NInf | NInf, PInf => NaN
  | PInf, _ | _, PInf => PInf
  | NInf, _ | _, NInf => NInf
  | Fin x, Fin y => Fin (Qplus x y)
  end.

Definition sub (a b : number) : number := add a (neg b).

(** The infinity carrying the sign [s] (a product with zero is [NaN]). *)
Definition inf_of_sign (s : Z) : number :=
  match s with
  | Z0 => NaN
  | Zpos _ => PInf
  | Zneg _ => NInf
  end.

Definition sign (a : number) : Z :=
  match a with
  | NaN => 0
  | PInf => 1
  | NInf => -1
  | Fin q => Qsign q
  end.

Definition mul (a b : number) : number :=
  match a, b with
  | NaN, _ | _, NaN => NaN
  | Fin x, Fin y => Fin (Qmult x y)
  | _, _ => inf_of_sign (sign a * sign b)
  end.

(** Division; a zero divisor is taken as [+0]. *)
Definition div (a b : number) : number :=
  match a, b with
  | NaN, _ | _, NaN => NaN
  | Fin x, Fin y =>
      if Qeq_bool y 0 then inf_of_sign (Qsign x) else Fin (Qdiv x y)
  | Fin _, _ => Fin 0
  | _, Fin y => inf_of_sign (sign a * (if Qeq_bool y 0 then 1 else Qsign y))
  | _, _ => NaN
  end.

(** [a < b], [a > b], [a >= b]: every comparison with [NaN] is false. *)
Definition ltb (a b : number) : bool :=
  match a, b with
  | NaN, _ | _, NaN => false
  | _, NInf => false
  | NInf, _ => true
  | PInf, _ => false
  | _, PInf => true
  | Fin x, Fin y => negb (Qle_bool y x)
  end.

Definition gtb (a b : number) : bool := ltb b a.

Definition geb (a b : number) : bool :=
  match a, b with
  | NaN, _ | _, NaN => false
  | PInf, _ => true
  | _, NInf => true
  | _, PInf => false
  | NInf, _ => false
  | Fin x, Fin y => Qle_bool y x
  end.

(** ToBoolean on a Number: [0] and [NaN] are falsy. *)
Definition truthy (a : number) : bool :=
  match a with
  | NaN => false
  | Fin q => negb (Qeq_bool q 0)
  | _ => true
  end.

(** [a || b] on Numbers. *)
Definition or (a b : number) : number := if truthy a then a else b.

(** [Math.min]. *)
Definition min (a b : number) : number :=
  match a, b with
  | NaN, _ | _, NaN => NaN
  | _, _ => if ltb b a then b else a
  end.

(** [Math.round]: the integer nearest to the argument, ties towards
    [+Infinity]. *)
Definition round (a : number) : number :=
  match a with
  | Fin q => of_Z (Qfloor (q + (1 # 2)))
  | _ => a
  end.

(** ToIntegerOrInfinity restricted to finite values: truncation towards
    zero. *)
Definition Qtrunc (q : Q) : Z := Z.quot (Qnum q) (Zpos (Qden q)).

(** Numerical equality of two numbers that are not [NaN] (finite values are
    compared as rationals). *)
Definition eq (a b : number) : Prop :=
  match a, b with
  | PInf, PInf | NInf, NInf => True
  | Fin x, Fin y => Qeq x y
  | _, _ => False
  end.

Definition is_integer (q : Q) : bool := Qeq_bool q (inject_Z (Qfloor q)).

(** *** Binary64

    [floor (log2 (a / d))] for positive [a] and [d]. *)
Definition ilog2 (a d : Z) : Z :=
  let k := Z.log2 a - Z.log2 d in
  if d * 2 ^ Z.max 0 k <=? a * 2 ^ Z.max 0 (- k) then k else k - 1.

(** The integer nearest to [n / d] for a positive [d], ties to the even
    one. *)
Definition round_even (n d : Z) : Z :=
  let q := n / d in
  match 2 * (n mod d) ?= d with
  | Lt => q
  | Gt => q + 1
  | Eq => if Z.even q then q else q + 1
  end.

(** [2^e] as a rational. *)
Definition pow2 (e : Z) : Q :=
  match e with
  | Zneg p => Qmake 1 (2 ^ p)%positive
  | _ => inject_Z (2 ^ e)
  end.

(** The binary64 value nearest to a rational (roundTiesToEven): a
    significand [m] of at most 53 bits at an exponent [e] of at least -1074,
    or an infinity when the magnitude rounds to [2^1024] or above.  A
    rational that is a binary64 value is returned as it is. *)
Definition double (q : Q) : number :=
  let a := Z.abs (Qnum q) in
  let d := Zpos (Qden q) in
  if a =? 0 then Fin q
  else
    let e := Z.max (ilog2 a d - 52) (-1074) in
    let n := a * 2 ^ Z.max 0 (- e) in
    let d' := d * 2 ^ Z.max 0 e in
    let m := round_even n d' in
    if (0 <=? e) && (2 ^ 1024 <=? m * 2 ^ e) then inf_of_sign (Qsign q)
    else if n mod d' =? 0 then Fin q
    else Fin (Qmult (inject_Z (Qsign q * m)) (pow2 e)).

(** [2^-53]: the relative error of the rounding is at most this. *)
Definition half_ulp : Q := 1 # 9007199254740992.

(** A Number as the binary64 value it stands for. *)
Definition to_double (a : number) : number :=
  match a with
  | Fin q => double q
  | _ => a
  end.

(** [a - b], [a * b] and [a / b] in binary64: the exact result of the
    operation on the binary64 operands, rounded. *)
Definition fsub (a b : number) : number :=
  to_double (sub (to_double a) (to_double b)).

Definition fmul (a b : number) : number :=
  to_double (mul (to_double a) (to_double b)).

Definition fdiv (a b : number) : number :=
  to_double (div (to_double a) (to_double b)).

(** The same representation: the same special value, or the same numerator
    and denominator. *)
Definition same_repr (a b : number) : bool :=
  match a, b with
  | NaN, NaN | PInf, PInf | NInf, NInf => true
  | Fin x, Fin y => (Qnum x =? Qnum y) && (Qden x =? Qden y)%positive
  | _, _ => false
  end.

End Num.

Declare Scope num_scope.
Delimit Scope num_scope with num.
Infix "+" := Num.add : num_scope.
Infix "-" := Num.sub : num_scope.
Infix "*" := Num.mul : num_scope.
Infix "/" := Num.div : num_scope.
Infix "==" := Num.eq (at level 70, no associativity) : num_scope.

(** ** Strings and the numeric grammars of the runtime *)

Module Str.

Definition code (c : ascii) : Z := Z.of_N (Ascii.N_of_ascii c).

(** White space and line terminators (ASCII part of StrWhiteSpaceChar). *)
Definition is_ws (c : ascii) : bool :=
  let n := code c in ((9 <=? n) && (n <=? 13)) || (n =? 32).

(** The value of a digit in the given radix, if [c] is one. *)
Definition digit (radix : Z) (c : ascii) : option Z :=
  let n := code c in
  let v :=
    if (48 <=? n) && (n <=? 57) then Some (n - 48)
    else if (97 <=? n) && (n <=? 122) then Some (n - 87)
    else if (65 <=? n) && (n <=? 90) then Some (n - 55)
    else None in
  match v with
  | Some d => if d <? radix then Some d else None
  | None => None
  end.

Fixpoint trim_start (s : string) : string :=
  match s with
  | String c r => if is_ws c then trim_start r else s
  | EmptyString => EmptyString
  end.

Fixpoint all_ws (s : string) : bool :=
  match s with
  | String c r => is_ws c && all_ws r
  | EmptyString => true
  end.

(** The longest run of radix-[radix] digits at the head of [s], most
    significant first, and what follows it. *)
Fixpoint take_digits (radix : Z) (s : string) : list Z * string :=
  match s with
  | String c r =>
      match digit radix c with
      | Some d => let '(ds, rest) := take_digits radix r in (d :: ds, rest)
      | None => ([], s)
      end
  | EmptyString => ([], EmptyString)
  end.

Definition digits_value (radix : Z) (ds : list Z) : Z :=
  fold_left (fun acc d => acc * radix + d) ds 0.

(** An optional sign: the factor it stands for and the rest. *)
Definition strip_sign (s : string) : Z * string :=
  match s with
  | String "-" r => (-1, r)
  | String "+" r => (1, r)
  | _ => (1, s)
  end.

Fixpoint strip_prefix (p s : string) : option string :=
  match p, s with
  | EmptyString, _ => Some s
  | String a p', String b s' =>
      if Ascii.eqb a b then strip_prefix p' s' else None
  | String _ _, EmptyString => None
  end.

(** [m * 10^e] as a rational. *)
Definition scale10 (m e : Z) : Q :=
  match e with
  | Zneg p => Qmake m (10 ^ p)%positive
  | _ => inject_Z (m * 10 ^ e)
  end.

(** The Number a decimal [m * 10^e] stands for: with fraction digits left
    ([e < 0]) the decimal itself, unless it is so large that it rounds to
    an infinity; otherwise the whole number rounded to binary64. *)
Definition decimal (m e : Z) : number :=
  let q := scale10 m e in
  match e with
  | Zneg _ =>
      match Num.double q with
      | Fin _ => Fin q
      | inf => inf
      end
  | _ => Num.double q
  end.

(** An ExponentPart at the head of [s]: its value and the rest; [(0, s)]
    when there is none (an [e] not followed by digits is not consumed). *)
Definition scan_exponent (s : string) : Z * string :=
  match s with
  | String c r =>
      if (Ascii.eqb c "e" || Ascii.eqb c "E")%bool then
        let '(sg, r1) := strip_sign r in
        match take_digits 10 r1 with
        | ([], _) => (0, s)
        | (ds, rest) => (sg * digits_value 10 ds, rest)
        end
      else (0, s)
  | EmptyString => (0, s)
  end.

(** The longest prefix of [s] that is a StrDecimalLiteral: its value and the
    rest of the string; [None] when no prefix is one. *)
Definition scan_decimal (s : string) : option (number * string) :=
  let '(sg, s1) := strip_sign s in
  match strip_prefix "Infinity" s1 with
  | Some rest => Some (if sg <? 0 then NInf else PInf, rest)
  | None =>
      let '(ip, s2) := take_digits 10 s1 in
      let '(fp, s3) :=
        match s2 with
        | String "." r => take_digits 10 r
        | _ => ([], s2)
        end in
      match ip, fp with
      | [], [] => None
      | _, _ =>
          let '(e, rest) := scan_exponent s3 in
          let m := digits_value 10 (ip ++ fp) in
          Some (decimal (sg * m) (e - Z.of_nat (length fp)), rest)
      end
  end.

(** [parseInt(string, 10)]. *)
Definition parseInt10 (input : string) : number :=
  let '(sg, s) := strip_sign (trim_start input) in
  match take_digits 10 s with
  | ([], _) => NaN
  | (ds, _) => Num.double (inject_Z (sg * digits_value 10 ds))
  end.

(** [parseFloat(string)]. *)
Definition parseFloat (input : string) : number :=
  match scan_decimal (trim_start input) with
  | Some (v, _) => v
  | None => NaN
  end.

(** A NonDecimalIntegerLiteral ([0x], [0o], [0b]) covering all of [s] up to
    trailing white space. *)
Definition scan_radix_literal (s : string) : option number :=
  match s with
  | String "0" (String c r) =>
      let radix :=
        if (Ascii.eqb c "x" || Ascii.eqb c "X")%bool then Some 16
        else if (Ascii.eqb c "o" || Ascii.eqb c "O")%bool then Some 8
        else if (Ascii.eqb c "b" || Ascii.eqb c "B")%bool then Some 2
        else None in
      match radix with
      | Some rd =>
          match take_digits rd r with
          | ([], _) => None
          | (ds, rest) =>
              if all_ws rest
              then Some (Num.double (inject_Z (digits_value rd ds)))
              else None
          end
      | None => None
      end
  | _ => None
  end.

(** ToNumber applied to a String (StringToNumber). *)
Definition ToNumber (input : string) : number :=
  let s := trim_start input in
  match s with
  | EmptyString => Fin 0
  | _ =>
      match scan_radix_literal s with
      | Some v => v
      | None =>
          match scan_decimal s with
          | Some (v, rest) => if all_ws rest then v else NaN
          | None => NaN
          end
      end
  end.

(** [s.split(sep)] for a one-character separator. *)
Fixpoint split (sep : ascii) (s : string) : list string :=
  match s with
  | EmptyString => [EmptyString]
  | String c r =>
      if Ascii.eqb c sep then EmptyString :: split sep r
      else
        match split sep r with
        | p :: ps => String c p :: ps
        | [] => [String c EmptyString]
        end
  end.

(** No character of [s] is [sep]. *)
Fixpoint avoids (sep : ascii) (s : string) : Prop :=
  match s with
  | EmptyString => True
  | String c r => c <> sep /\ avoids sep r
  end.

(** ToBoolean on a String: only the empty string is falsy. *)
Definition truthy (s : string) : bool :=
  match s with
  | EmptyString => false
  | _ => true
  end.

(** [s.toUpperCase()] on the ASCII letters. *)
Definition upper_char (c : ascii) : ascii :=
  let n := code c in
  if (97 <=? n) && (n <=? 122) then Ascii.ascii_of_N (Z.to_N (n - 32)) else c.

Fixpoint toUpperCase (s : string) : string :=
  match s with
  | EmptyString => EmptyString
  | String c r => String (upper_char c) (toUpperCase r)
  end.

End Str.

(** ** Dates: time values and the [Date] constructor *)

Module JSDate.

Definition msPerDay : Z := 86400000.

(** Days from 1970-01-01 to the proleptic Gregorian date [y]-[m]-[d], with
    [m] in 1..12. *)
Definition days_from_civil (y m d : Z) : Z :=
  let y' := if m <=? 2 then y - 1 else y in
  let era := y' / 400 in
  let yoe := y' - era * 400 in
  let mp := if 2 <? m then m - 3 else m + 9 in
  let doy := (153 * mp + 2) / 5 + d - 1 in
  let doe := yoe * 365 + yoe / 4 - yoe / 100 + doy in
  era * 146097 + doe - 719468.

(** The calendar date (year, month in 1..12, day) of a day number. *)
Definition civil_from_days (z : Z) : Z * Z * Z :=
  let z' := z + 719468 in
  let era := z' / 146097 in
  let doe := z' - era * 146097 in
  let yoe := (doe - doe / 1460 + doe / 36524 - doe / 146096) / 365 in
  let doy := doe - (365 * yoe + yoe / 4 - yoe / 100) in
  let mp := (5 * doy + 2) / 153 in
  let d := doy - (153 * mp + 2) / 5 + 1 in
  let m := if mp <? 10 then mp + 3 else mp - 9 in
  ((if m <=? 2 then yoe + era * 400 + 1 else yoe + era * 400), m, d).

(** MakeDay on integral arguments: [month] is zero-based and may lie outside
    0..11, [date] may lie outside the month. *)
Definition MakeDayZ (year month date : Z) : Z :=
  let ym := year + month / 12 in
  let mn := month mod 12 in
  days_from_civil ym (mn + 1) 1 + date - 1.

(** MakeDay: any argument that is not finite gives [NaN] ([None]); finite
    arguments are truncated. *)
Definition MakeDay (year month date : number) : option Z :=
  match year, month, date with
  | Fin y, Fin m, Fin dt => Some (MakeDayZ (Num.Qtrunc y) (Num.Qtrunc m) (Num.Qtrunc dt))
  | _, _, _ => None
  end.

(** TimeClip. *)
Definition TimeClip (t : Z) : option Z :=
  if Z.abs t <=? 8640000000000000 then Some t else None.

(** MakeFullYear: years 0..99 stand for 1900..1999. *)
Definition MakeFullYear (y : number) : number :=
  match y with
  | Fin q =>
      let yi := Num.Qtrunc q in
      if (0 <=? yi) && (yi <=? 99) then Num.of_Z (1900 + yi) else y
  | _ => y
  end.

Section LocalTime.

(** The offset of local time from UTC in milliseconds, taken as fixed
    (daylight saving transitions are not represented). *)
Variable LocalTZA : Z.

(** [new Date(year, monthIndex, day)] on Number arguments, as a time value
    ([None] is an invalid date). *)
Definition Date_ymd (year month date : number) : option Z :=
  match MakeDay (MakeFullYear year) month date with
  | Some day => TimeClip (day * msPerDay - LocalTZA)
  | None => None
  end.

(** Year, month (1..12) and day of the month of a time value in local
    time. *)
Definition local_calendar (t : Z) : Z * Z * Z :=
  civil_from_days ((t + LocalTZA) / msPerDay).

(** The same in UTC. *)
Definition utc_calendar (t : Z) : Z * Z * Z :=
  civil_from_days (t / msPerDay).

(** A string made of three groups of one to nine digits separated by two
    ['-'] or by two ['/']: the digits of the groups and the separator. *)
Definition three_groups (s : string) :
    option ((list Z * list Z * list Z) * ascii) :=
  match Str.take_digits 10 s with
  | (g1, String c1 r1) =>
      match Str.take_digits 10 r1 with
      | (g2, String c2 r2) =>
          match Str.take_digits 10 r2 with
          | (g3, EmptyString) =>
              let ok (g : list Z) :=
                ((0 <? length g) && (length g <=? 9))%nat in
              if (Ascii.eqb c1 "-" || Ascii.eqb c1 "/")
                 && Ascii.eqb c1 c2 && ok g1 && ok g2 && ok g3
              then Some (g1, g2, g3, c1) else None
          | _ => None
          end
      | _ => None
      end
  | _ => None
  end.

(** The range checks of the V8 date composer. *)
Definition IsMonth (x : Z) : bool := (1 <=? x) && (x <=? 12).
Definition IsDay (x : Z) : bool := (1 <=? x) && (x <=? 31).

(** The legacy (non ISO) reading of three numbers. *)
Definition legacy_date (a b c : Z) : option Z :=
  let '(year, month, day) :=
    if IsDay a then (c, a, b) else (a, b, c) in
  let year :=
    if (0 <=? year) && (year <=? 49) then year + 2000
    else if (50 <=? year) && (year <=? 99) then year + 1900
    else year in
  if IsMonth month && IsDay day
  then TimeClip (MakeDayZ year (month - 1) day * msPerDay - LocalTZA)
  else None.

(** [Date.parse] as V8, the engine of the Node.js runtime of this service,
    computes it on the strings made of three groups of one to nine digits
    separated by two ['-'] or by two ['/'].  A four-digit year followed by
    [-MM-DD] with a month in 1..12 and a day in 1..31 is an ISO date at UTC
    midnight; every other such string goes to the legacy parser, which
    reads year-month-day when the first number is not in 1..31 and
    month-day-year otherwise, maps years 0..49 to 20xx and 50..99 to 19xx,
    and gives local midnight.  Strings outside this fragment are not
    covered and are reported as unparseable. *)
Definition Date_parse_v8 (s : string) : option Z :=
  match three_groups s with
  | Some (g1, g2, g3, sep) =>
      let a := Str.digits_value 10 g1 in
      let b := Str.digits_value 10 g2 in
      let c := Str.digits_value 10 g3 in
      if Ascii.eqb sep "-" && (length g1 =? 4)%nat
         && (length g2 =? 2)%nat && IsMonth b
         && (length g3 =? 2)%nat && IsDay c
      then TimeClip (MakeDayZ a (b - 1) c * msPerDay)
      else legacy_date a b c
  | None => None
  end.

End LocalTime.

End JSDate.

(** ** services/csvService.js *)

Module CsvService.

(** A row as csv-parser delivers it: header name to cell text. *)
Abbreviation row := (gmap string string).

(** ToBoolean of a property that may be missing. *)
Definition truthy (v : option string) : bool :=
  match v with
  | Some s => Str.truthy s
  | None => false
  end.

(** [a || b]. *)
Definition or (a b : option string) : option string :=
  if truthy a then a else b.

(** [parseInt(v || 0, 10)]: the number [0] is first converted to the
    string ["0"]. *)
Definition parseInt_or_0 (v : option string) : number :=
  match or v (Some "0") with
  | Some s => Str.parseInt10 s
  | None => NaN
  end.

(** [parseFloat(v || 0)]. *)
Definition parseFloat_or_0 (v : option string) : number :=
  match or v (Some "0") with
  | Some s => Str.parseFloat s
  | None => NaN
  end.

(** [v || d] for a string default [d]. *)
Definition or_default (v : option string) (d : string) : string :=
  match or v (Some d) with
  | Some s => s
  | None => d
  end.

Record HoldingRecord : Type := {
  userId : string;
  grantDate : option Z;
  exercisePrice : number;
  vestingSchedule : string;
  expirationDate : option Z;
  totalGrants : number;
  vested : number;
  unvested : number;
  exercised : number;
  ticker : string;
  type : string;
  quantity : number;
  price : number;
  exerciseDate : option Z;
  status : string;
  notes : string
}.

Section Parsing.

(** [Date.parse] of the host and its local time offset. *)
Variable Date_parse : string -> option Z.
Variable LocalTZA : Z.

(** [new Date(y, m, d)] with [m] already a Number. *)
Definition new_Date (y : string) (m : number) (d : string) : option Z :=
  JSDate.Date_ymd LocalTZA (Str.ToNumber y) m (Str.ToNumber d).

Definition parseDate (dateString : option string) : option Z :=
  match dateString with
  | None => None
  | Some s =>
      if negb (Str.truthy s) then None
      else
        (* Try standard ISO formats first *)
        match Date_parse s with
        | Some date => Some date
        | None =>
            (* Handle MM/DD/YYYY *)
            let slash :=
              match Str.split "/" s with
              | [p0; p1; p2] =>
                  new_Date p2 (Str.ToNumber p0 - Fin 1)%num p1
              | _ => None
              end in
            match slash with
            | Some date => Some date
            | None =>
                (* Handle DD-MM-YYYY *)
                match Str.split "-" s with
                | [p0; p1; p2] =>
                    new_Date p2 (Str.ToNumber p1 - Fin 1)%num p0
                | _ => None
                end
            end
        end
  end.

(** The body of the ["data"] handler: one raw row to one record. *)
Definition processRow (uid : string) (data : row) : HoldingRecord :=
  let totalGrants :=
    parseInt_or_0
      (or (or (data !! "totalGrants") (data !! "total_grants"))
          (data !! "grants")) in
  let vested := parseInt_or_0 (data !! "vested") in
  let unvested := parseInt_or_0 (data !! "unvested") in
  let exercised := parseInt_or_0 (data !! "exercised") in
  let exercisePrice :=
    parseFloat_or_0
      (or (or (data !! "exercisePrice") (data !! "exercise_price"))
          (data !! "price")) in
  {| userId := uid;
     grantDate :=
       parseDate (or (or (data !! "grantDate") (data !! "grant_date"))
                     (data !! "Grant Date"));
     exercisePrice := exercisePrice;
     vestingSchedule :=
       or_default (or (or (data !! "vestingSchedule")
                          (data !! "vesting_schedule"))
                      (data !! "Vesting Schedule")) "Standard";
     expirationDate :=
       parseDate (or (or (data !! "expirationDate")
                         (data !! "expiration_date"))
                     (data !! "Expiration Date"));
     totalGrants := totalGrants;
     vested := vested;
     unvested := unvested;
     exercised := exercised;
     ticker :=
       Str.toUpperCase
         (or_default (or (data !! "ticker") (data !! "symbol")) "N/A");
     type := or_default (or (data !! "type") (data !! "option_type")) "ISO";
     quantity := totalGrants;
     price := exercisePrice;
     exerciseDate :=
       parseDate (or (or (data !! "exerciseDate") (data !! "exercise_date"))
                     (data !! "Exercise Date"));
     status :=
       if Num.gtb exercised (Fin 0) then "Exercised" else "Not exercised";
     notes := or_default (or (data !! "notes") (data !! "comments")) "" |}.

End Parsing.

(** *** The ingestion promise

    [fs.createReadStream(filePath).pipe(csv())] makes two streams: the file
    stream and the parser that [pipe] returns.  The three handlers are
    registered on the parser.  [pipe] hands the data and the end of the
    file stream on to the parser, not its errors: an ["error"] event of the
    file stream (a file that cannot be opened or read) finds no listener,
    and an ["error"] event without a listener is thrown by the emitter.
    The parser delivers the rows as ["data"] events; the run of the two
    streams then finishes with ["end"] of the parser or with an ["error"]
    event of one of the two.  The storage collaborator is the Mongoose
    model [Esop]; each of its calls either succeeds or fails with a
    message, and a failing call leaves the collection as it was. *)

Inductive emitter : Type := FileStream | CsvStream.

(** The streams on which [parseAndSaveEsopCSV] registers an ["error"]
    handler. *)
Definition has_error_listener (source : emitter) : bool :=
  match source with
  | CsvStream => true
  | FileStream => false
  end.

Inductive ending (E : Type) : Type :=
| StreamEnd
| StreamError (source : emitter) (err : E).
Arguments StreamEnd {E}.
Arguments StreamError {E} source err.

Record row_stream (E : Type) : Type := {
  rows : list row;
  last_event : ending E
}.
Arguments rows {E} _.
Arguments last_event {E} _.

Inductive db_op : Type := CountDocuments | DeleteMany | InsertMany.

(** The collection and the calls issued to the collaborator so far, oldest
    first. *)
Record storage : Type := {
  docs : list HoldingRecord;
  calls : list db_op
}.

(** What the promise is rejected with: the stream's own error, passed on
    unchanged (the row stream does not know the class [DatabaseError] and
    never emits one), or a [DatabaseError] built in the [catch] block. *)
Inductive rejection (E : Type) : Type :=
| StreamFailure (err : E)
| DatabaseError (message : string).
Arguments StreamFailure {E} err.
Arguments DatabaseError {E} message.

(** What becomes of the promise: resolved, rejected, or left pending for
    ever while the error of the file stream is thrown as an uncaught
    exception. *)
Inductive outcome (E : Type) : Type :=
| Resolved (data : list HoldingRecord) (validationPassed : bool)
| Rejected (reason : rejection E)
| Pending (uncaught : E).
Arguments Resolved {E} data validationPassed.
Arguments Rejected {E} reason.
Arguments Pending {E} uncaught.

(** A computation against the collaborator: the message of the exception it
    throws, or its value, with the storage it leaves. *)
Definition db (A : Type) : Type := storage -> (string + A) * storage.

Definition db_ret {A} (a : A) : db A := fun st => (inr a, st).

Definition db_bind {A B} (m : db A) (k : A -> db B) : db B :=
  fun st =>
    match m st with
    | (inl msg, st') => (inl msg, st')
    | (inr a, st') => k a st'
    end.

Notation "'await' x <- m ;;; k" := (db_bind m (fun x => k))
  (at level 10, x name, m at level 100, k at level 200).

Section Ingestion.

Variable Date_parse : string -> option Z.
Variable LocalTZA : Z.

(** The calls of the collaborator that fail, with the message of the
    error they throw. *)
Variable fault : db_op -> option string.

Definition issue {A} (op : db_op) (run : list HoldingRecord -> A * list HoldingRecord) : db A :=
  fun st =>
    let st1 := {| docs := docs st; calls := (calls st ++ [op])%list |} in
    match fault op with
    | Some msg => (inl msg, st1)
    | None =>
        let '(a, d) := run (docs st) in
        (inr a, {| docs := d; calls := calls st1 |})
    end.

Definition owned_by (uid : string) (r : HoldingRecord) : bool :=
  String.eqb (userId r) uid.

(** [Esop.find({ userId }).countDocuments()]. *)
Definition countDocuments (uid : string) : db nat :=
  issue CountDocuments (fun d => (length (filter (fun r => owned_by uid r = true) d), d)).

(** [Esop.deleteMany({ userId })], giving [deletedCount]. *)
Definition deleteMany (uid : string) : db nat :=
  issue DeleteMany
    (fun d => (length (filter (fun r => owned_by uid r = true) d),
               filter (fun r => owned_by uid r = false) d)).

(** [Esop.insertMany(results)], giving the saved documents. *)
Definition insertMany (results : list HoldingRecord) : db (list HoldingRecord) :=
  issue InsertMany (fun d => (results, (d ++ results)%list)).

(** The ["end"] handler. *)
Definition on_end {E} (uid : string) (results : list HoldingRecord)
    (st : storage) : outcome E * storage :=
  let attempt :=
    (await existingRecords <- countDocuments uid ;;;
     await deleteResult <- deleteMany uid ;;;
     await savedResults <- insertMany results ;;;
     db_ret savedResults) in
  match attempt st with
  | (inr savedResults, st') => (Resolved savedResults true, st')
  | (inl message, st') =>
      (Rejected (DatabaseError ("Failed to save ESOP data: " ++ message)), st')
  end.

Definition parseAndSaveEsopCSV {E} (input : row_stream E) (uid : string)
    (st : storage) : outcome E * storage :=
  let results := map (processRow Date_parse LocalTZA uid) (rows input) in
  match last_event input with
  | StreamEnd => on_end uid results st
  | StreamError source err =>
      if has_error_listener source
      then (Rejected (StreamFailure err), st)
      else (Pending err, st)
  end.

End Ingestion.

End CsvService.

(** ** Conversions of numbers to text *)

Module Show.

Definition digit_char (d : Z) : ascii := Ascii.ascii_of_N (Z.to_N (48 + d)).

Fixpoint digits_go (fuel : nat) (n : Z) (acc : string) : string :=
  match fuel with
  | O => acc
  | S f =>
      let acc' := String (digit_char (n mod 10)) acc in
      if n / 10 =? 0 then acc' else digits_go f (n / 10) acc'
  end.

(** The decimal digits of a natural number. *)
Definition digits (n : Z) : string :=
  digits_go (S (Z.to_nat (Z.log2 n))) n "".

Fixpoint zeros (n : nat) : string :=
  match n with
  | O => ""
  | S k => String "0" (zeros k)
  end.

Fixpoint split_at (n : nat) (s : string) : string * string :=
  match n, s with
  | S k, String c r => let '(a, b) := split_at k r in (String c a, b)
  | _, _ => ("", s)
  end.

Section Host.

(** Number::toString on the finite values that are not integers of
    magnitude at most [2^53]: the shortest decimal that reads back as the
    same binary64 value, which is left to the host. *)
Variable ToString_other : Q -> string.

(** ToString applied to a Number. *)
Definition ToString (x : number) : string :=
  match x with
  | NaN => "NaN"
  | PInf => "Infinity"
  | NInf => "-Infinity"
  | Fin q =>
      if Num.is_integer q && Qle_bool (Qabs q) (inject_Z (2 ^ 53))
      then
        let n := Qfloor q in
        (if n <? 0 then "-" else "") ++ digits (Z.abs n)
      else ToString_other q
  end.

(** [x.toFixed(f)]: the decimal with [f] fraction digits nearest to the
    binary64 value of [x], ties away from zero. *)
Definition toFixed (f : nat) (x : number) : string :=
  let x := Num.to_double x in
  match x with
  | Fin q =>
      if Qle_bool (inject_Z (10 ^ 21)) (Qabs q) then ToString x
      else
        let n := Qfloor (Qabs q * inject_Z (10 ^ Z.of_nat f) + (1 # 2)) in
        let m := digits n in
        let m := zeros (S f - String.length m) ++ m in
        let '(a, b) := split_at (String.length m - f) m in
        (if Qlt_le_dec q 0 then "-" else "")
        ++ a ++ (match f with O => "" | _ => "." ++ b end)
  | _ => ToString x
  end.

End Host.

End Show.

(** ** Property lookup on object literals *)

Module Obj.

(** The property names every object literal inherits from
    [Object.prototype]. *)
Definition prototype_names : list string :=
  ["constructor"; "__defineGetter__"; "__defineSetter__"; "hasOwnProperty";
   "__lookupGetter__"; "__lookupSetter__"; "isPrototypeOf";
   "propertyIsEnumerable"; "toString"; "valueOf"; "__proto__";
   "toLocaleString"].

(** The result of [obj[key]] on an object literal whose own properties
    hold values of type [A]: an own property, a function or object
    inherited from [Object.prototype] (truthy, and without any of the
    fields the services read), or [undefined]. *)
Inductive property (A : Type) : Type :=
| Own (a : A)
| Inherited
| Undefined.
Arguments Own {A} a.
Arguments Inherited {A}.
Arguments Undefined {A}.

Fixpoint assoc {A} (l : list (string * A)) (key : string) : option A :=
  match l with
  | [] => None
  | (k, a) :: r => if String.eqb k key then Some a else assoc r key
  end.

Definition get {A} (own : list (string * A)) (key : string) : property A :=
  match assoc own key with
  | Some a => Own a
  | None =>
      if existsb (String.eqb key) prototype_names then Inherited
      else Undefined
  end.

(** Reading the property [key] of the value inherited under [name] throws
    a [TypeError] in one case: every inherited value except [__proto__]
    (which is [Object.prototype] itself) is a built-in function, and on a
    function [caller] and [arguments] are the accessors of
    [Function.prototype] whose getter throws. *)
Definition inherited_read_throws (name key : string) : bool :=
  negb (String.eqb name "__proto__")
  && existsb (String.eqb key) ["caller"; "arguments"].

(** [obj[key] || fallback]. *)
Definition get_or {A} (own : list (string * A)) (key : string)
    (fallback : property A) : property A :=
  match get own key with
  | Undefined => fallback
  | p => p
  end.

(** Reading a field of the looked-up value; [None] is [undefined].  (On
    [Undefined] itself the read throws; callers handle that case.) *)
Definition field {A B} (f : A -> B) (p : property A) : option B :=
  match p with
  | Own a => Some (f a)
  | _ => None
  end.

End Obj.

(** ToNumber of a value that may be [undefined]. *)
Definition to_number (v : option number) : number := default NaN v.

(** The user's goal profile; every field may be missing. *)
Record UserGoals : Type := {
  currentAge : option number;
  retirementAge : option number;
  investmentHorizon : option number;
  monthlyIncome : option number;
  monthlyExpenses : option number
}.

(** The object [{}]. *)
Definition noGoals : UserGoals :=
  {| currentAge := None; retirementAge := None; investmentHorizon := None;
     monthlyIncome := None; monthlyExpenses := None |}.

(** An argument passed for a parameter that has a default value: left out
    (or [undefined]), [null], or an object. *)
Inductive argument (A : Type) : Type :=
| Missing
| Null
| Given (a : A).
Arguments Missing {A}.
Arguments Null {A}.
Arguments Given {A} a.

(** ** services/successProbabilityService.js *)

Module SuccessProbability.

Record RiskProfile : Type := { mean : number; stdDev : number }.

Definition riskProfiles : list (string * RiskProfile) :=
  [ ("low", {| mean := Fin (6 # 100); stdDev := Fin (8 # 100) |});
    ("medium", {| mean := Fin (9 # 100); stdDev := Fin (15 # 100) |});
    ("high", {| mean := Fin (12 # 100); stdDev := Fin (22 # 100) |}) ].

(** [const { mean, stdDev } = riskProfiles[riskTolerance] || riskProfiles.medium]. *)
Definition riskParameters (riskTolerance : string)
    : option number * option number :=
  let p := Obj.get_or riskProfiles riskTolerance (Obj.get riskProfiles "medium") in
  (Obj.field mean p, Obj.field stdDev p).

Record SimulationResult : Type := {
  successProbability : number;
  riskTolerance : string;
  timeHorizon : Q
}.

(** [s.replace(pat, "")]: the first occurrence of [pat] is removed. *)
Fixpoint remove_first (pat s : string) : string :=
  match Str.strip_prefix pat s with
  | Some rest => rest
  | None =>
      match s with
      | String c r => String c (remove_first pat r)
      | EmptyString => EmptyString
      end
  end.

(** [results[risk][key]] is present and holds [p]. *)
Definition cell {P : Type} (results : gmap string (gmap string P))
    (risk key : string) (p : P) : Prop :=
  results !! risk ≫= (fun m : gmap string P => m !! key) = Some p.

Section Simulation.

(** The host's pseudo-random generator, as a state, and the [Math]
    functions. *)
Variable rng : Type.
Variable Math_random : rng -> number * rng.
Variables Math_log Math_sqrt Math_cos : number -> number.
Variable Math_PI : number.
Variable ToString_other : Q -> string.

Definition scenarios : nat := 1000.

(** The annual return drawn in one iteration of the inner loop: two
    uniform draws and the Box-Muller transform. *)
Definition draw_annualReturn (mean stdDev : option number) (g : rng)
    : number * rng :=
  let '(u1, g) := Math_random g in
  let '(u2, g) := Math_random g in
  let z := (Math_sqrt (Fin (-2) * Math_log u1)
            * Math_cos (Fin 2 * Math_PI * u2))%num in
  let annualReturn := (to_number mean + z * to_number stdDev)%num in
  (annualReturn, g).

(** One iteration of the inner loop. *)
Definition year_step (mean stdDev : option number)
    (currentValue : number) (g : rng) : number * rng :=
  let '(annualReturn, g) := draw_annualReturn mean stdDev g in
  ((currentValue * (Fin 1 + annualReturn))%num, g).

Fixpoint years_loop (mean stdDev : option number) (n : nat)
    (currentValue : number) (g : rng) : number * rng :=
  match n with
  | O => (currentValue, g)
  | S k =>
      let '(v, g) := year_step mean stdDev currentValue g in
      years_loop mean stdDev k v g
  end.

(** The number of turns of [for (year = 0; year < timeHorizon; year++)]
    for a finite horizon. *)
Definition year_count (timeHorizon : Q) : nat :=
  Z.to_nat (Qceiling timeHorizon).

Fixpoint scenarios_loop (mean stdDev : option number) (years : nat)
    (initialInvestment goalAmount : number)
    (n : nat) (successCount : nat) (g : rng) : nat * rng :=
  match n with
  | O => (successCount, g)
  | S k =>
      let '(currentValue, g) :=
        years_loop mean stdDev years initialInvestment g in
      let successCount :=
        if Num.geb currentValue goalAmount then S successCount
        else successCount in
      scenarios_loop mean stdDev years initialInvestment goalAmount
        k successCount g
  end.

(** [parseFloat(((successCount / scenarios) * 100).toFixed(2))]. *)
Definition probability_of_count (successCount : nat) : number :=
  let successProbability :=
    (Num.of_Z (Z.of_nat successCount) / Num.of_Z (Z.of_nat scenarios)
     * Fin 100)%num in
  Str.parseFloat (Show.toFixed ToString_other 2 successProbability).

Definition runSimulation (riskTolerance : string) (timeHorizon : Q)
    (initialInvestment goalAmount : number) (g : rng)
    : SimulationResult * rng :=
  let '(mean, stdDev) := riskParameters riskTolerance in
  let '(successCount, g) :=
    scenarios_loop mean stdDev (year_count timeHorizon)
      initialInvestment goalAmount scenarios 0%nat g in
  ({| successProbability := probability_of_count successCount;
      riskTolerance := riskTolerance;
      timeHorizon := timeHorizon |}, g).

Definition initialInvestment_of (esopData : list CsvService.HoldingRecord)
    : number :=
  fold_left
    (fun sum grant =>
       (sum + CsvService.vested grant * CsvService.exercisePrice grant)%num)
    esopData (Fin 0).

Definition goalAmount_of (userGoals : UserGoals) : number :=
  (to_number (retirementAge userGoals) * Fin 50000)%num.

Definition horizons : list Z := [5; 10; 15; 20].

(** The body of the inner loop: the simulation for one risk key and one
    horizon, stored under [results[risk]["year" + horizon]]. *)
Definition record_probability (initialInvestment goalAmount : number)
    (risk : string) (acc : gmap string (gmap string number) * rng)
    (horizon : Z) : gmap string (gmap string number) * rng :=
  let '(results, g) := acc in
  let '(simResult, g) :=
    runSimulation (remove_first "Risk" risk) (inject_Z horizon)
      initialInvestment goalAmount g in
  let key := "year" ++ Show.ToString ToString_other (Num.of_Z horizon) in
  (<[ risk := <[ key := successProbability simResult ]>
                (results !!! risk) ]> results, g).

Definition generateSuccessProbabilities
    (esopData : list CsvService.HoldingRecord) (userGoals : UserGoals)
    (g : rng) : gmap string (gmap string number) * rng :=
  let initialInvestment := initialInvestment_of esopData in
  let goalAmount := goalAmount_of userGoals in
  let results : gmap string (gmap string number) :=
    {[ "lowRisk" := ∅; "mediumRisk" := ∅; "highRisk" := ∅ ]} in
  fold_left
    (fun acc risk =>
       fold_left (record_probability initialInvestment goalAmount risk)
         horizons acc)
    ["lowRisk"; "mediumRisk"; "highRisk"] (results, g).

End Simulation.

End SuccessProbability.

(** ** services/strategyService.js *)

Module StrategyService.

(** The completion of a call: a value, or a thrown [TypeError] (reading a
    property of [undefined]). *)
Inductive completion (A : Type) : Type :=
| Normal (a : A)
| ThrowTypeError.
Arguments Normal {A} a.
Arguments ThrowTypeError {A}.

(** [v || d] on a Number that may be missing. *)
Definition or_number (v : option number) (d : number) : number :=
  Num.or (to_number v) d.

(** The text of a value that may be [undefined] inside a template. *)
Definition text_of (v : option string) : string := default "undefined" v.

(** [a === b] on strings. *)
Definition same (a b : string) : bool := String.eqb a b.

(** [risk === 'high' ? h : risk === 'medium' ? m : l]. *)
Definition by_risk {A} (riskTolerance : string) (h m l : A) : A :=
  if same riskTolerance "high" then h
  else if same riskTolerance "medium" then m
  else l.

(** [region === 'us' ? a : b]. *)
Definition by_region {A} (planningRegion : string) (us other : A) : A :=
  if same planningRegion "us" then us else other.

Record BaseStrategy : Type := {
  focus : string;
  bondAllocation : number;
  equityAllocation : number;
  altAllocation : number;
  equityStyle : string;
  bondStyle : string;
  altInvestments : list string
}.

Definition baseStrategies (planningRegion : string)
    : list (string * BaseStrategy) :=
  [ ("low",
     {| focus := "capital preservation and modest growth";
        bondAllocation := by_region planningRegion (Fin 60) (Fin 50);
        equityAllocation := by_region planningRegion (Fin 30) (Fin 40);
        altAllocation := Fin 10;
        equityStyle := "large-cap value and dividend stocks";
        bondStyle := "government and high-grade corporate bonds";
        altInvestments := ["REITs"; "Gold"] |});
    ("medium",
     {| focus := "balanced growth with moderate risk";
        bondAllocation := Fin 40;
        equityAllocation := Fin 50;
        altAllocation := Fin 10;
        equityStyle := "blend of growth and value stocks across market caps";
        bondStyle := "mix of government and corporate bonds";
        altInvestments := ["REITs"; "Gold"; "Commodities"] |});
    ("high",
     {| focus := "aggressive growth accepting higher volatility";
        bondAllocation := Fin 20;
        equityAllocation := Fin 70;
        altAllocation := Fin 10;
        equityStyle := "growth-oriented stocks with small/mid-cap exposure";
        bondStyle := "corporate and emerging market bonds";
        altInvestments := ["REITs"; "Commodities"; "Private Equity"] |}) ].

Record EtfExamples : Type := {
  largeCap : list string;
  midSmallCap : list string;
  international : list string;
  bonds : list string;
  dividend : list string;
  growth : list string;
  value : list string;
  sectors : list string;
  alternatives : list string
}.

Definition etfExamples : list (string * EtfExamples) :=
  [ ("us",
     {| largeCap := ["Vanguard S&P 500 ETF (VOO)"; "SPDR S&P 500 ETF (SPY)";
                     "iShares Core S&P 500 ETF (IVV)"];
        midSmallCap := ["Vanguard Mid-Cap ETF (VO)";
                        "iShares Russell 2000 ETF (IWM)";
                        "Vanguard Small-Cap ETF (VB)"];
        international := ["Vanguard Total International Stock ETF (VXUS)";
                          "iShares MSCI EAFE ETF (EFA)"];
        bonds := ["iShares Core U.S. Aggregate Bond ETF (AGG)";
                  "Vanguard Total Bond Market ETF (BND)"];
        dividend := ["Vanguard High Dividend Yield ETF (VYM)";
                     "SPDR Portfolio S&P 500 High Dividend ETF (SPYD)"];
        growth := ["Vanguard Growth ETF (VUG)"; "Invesco QQQ Trust (QQQ)"];
        value := ["Vanguard Value ETF (VTV)"; "iShares S&P 500 Value ETF (IVE)"];
        sectors := ["Technology Select Sector SPDR Fund (XLK)";
                    "Health Care Select Sector SPDR Fund (XLV)"];
        alternatives := ["Vanguard Real Estate ETF (VNQ)";
                         "SPDR Gold Shares (GLD)"] |});
    ("india",
     {| largeCap := ["Nippon India ETF Nifty BeES (NIFTYBEES)";
                     "SBI Nifty Index Fund"; "HDFC Index Fund - Sensex Plan"];
        midSmallCap := ["Motilal Oswal Nasdaq 100 ETF (MON100)";
                        "Nippon India ETF Junior BeES (JUNIORBEES)"];
        international :=
          ["Franklin India Feeder - Franklin U.S. Opportunities Fund";
           "ICICI Prudential US Bluechip Equity Fund"];
        bonds := ["SBI ETF - Liquid Fund"; "HDFC Short Term Debt Fund";
                  "ICICI Prudential Short Term Fund"];
        dividend := ["ICICI Prudential Dividend Yield Equity Fund";
                     "UTI Dividend Yield Fund"];
        growth := ["HDFC Growth Opportunities Fund";
                   "Axis Growth Opportunities Fund"];
        value := ["ICICI Prudential Value Discovery Fund";
                  "Kotak India EQ Contra Fund"];
        sectors := ["ICICI Prudential Technology Fund";
                    "Tata Digital India Fund"];
        alternatives := ["SBI Gold Fund"; "HDFC Gold Fund";
                         "ICICI Prudential Regular Gold Savings Fund"] |}) ].

(** A strategy object; an element of [examples] read past the end of a
    table row is [undefined] ([None]). *)
Record Strategy : Type := {
  title : string;
  description : string;
  examples : list (option string);
  allocation : number;
  detailedAdvice : string
}.

(** The derived quantities of the user profile. *)
Record Profile : Type := {
  age : number;
  retirementAge_ : number;
  investmentHorizon_ : number;
  monthlyIncome_ : number;
  monthlyExpenses_ : number;
  savingsRate : number;
  yearsToRetirement : number;
  hasRetirementFocus : bool
}.

Definition profile_of (userGoals : UserGoals) : Profile :=
  let age := or_number (currentAge userGoals) (Fin 35) in
  let retirementAge := or_number (retirementAge userGoals) (Fin 60) in
  let investmentHorizon := or_number (investmentHorizon userGoals) (Fin 10) in
  let monthlyIncome := or_number (monthlyIncome userGoals) (Fin 100000) in
  let monthlyExpenses := or_number (monthlyExpenses userGoals) (Fin 50000) in
  let savingsRate :=
    if Num.gtb monthlyIncome (Fin 0)
    then Num.fmul
           (Num.fdiv (Num.fsub monthlyIncome monthlyExpenses) monthlyIncome)
           (Fin 100)
    else Fin 30 in
  let yearsToRetirement := (retirementAge - age)%num in
  let hasRetirementFocus :=
    Num.gtb age (Fin 45) || Num.ltb yearsToRetirement (Fin 15) in
  {| age := age;
     retirementAge_ := retirementAge;
     investmentHorizon_ := investmentHorizon;
     monthlyIncome_ := monthlyIncome;
     monthlyExpenses_ := monthlyExpenses;
     savingsRate := savingsRate;
     yearsToRetirement := yearsToRetirement;
     hasRetirementFocus := hasRetirementFocus |}.

Section Strategies.

(** Number formatting supplied by the host: the part of Number::toString
    that is not modelled, and [toLocaleString] in the default locale. *)
Variable ToString_other : Q -> string.
Variable toLocaleString : number -> string.

Definition show (x : number) : string := Show.ToString ToString_other x.

(** A Number that may be [undefined], inside a template. *)
Definition show_opt (v : option number) : string :=
  match v with
  | Some x => show x
  | None => "undefined"
  end.

Definition generateDetailedStrategies (planningRegion riskTolerance : string)
    (userGoals : UserGoals) : completion (list Strategy) :=
  let p := profile_of userGoals in
  let regionETFs := Obj.get etfExamples planningRegion in
  let strategyBase := Obj.get (baseStrategies planningRegion) riskTolerance in
  match strategyBase, regionETFs with
  | Obj.Undefined, _ => ThrowTypeError
  | _, Obj.Undefined => ThrowTypeError
  | _, Obj.Inherited => ThrowTypeError
  | _, Obj.Own etf =>
      let sb_text (f : BaseStrategy -> string) :=
        text_of (Obj.field f strategyBase) in
      let sb_num (f : BaseStrategy -> number) := Obj.field f strategyBase in
      (* Core strategy *)
      let core :=
        {| title := "Core Investment Strategy";
           description :=
             "Focus on " ++ sb_text focus
             ++ " through a diversified portfolio with "
             ++ show_opt (sb_num equityAllocation) ++ "% equities and "
             ++ show_opt (sb_num bondAllocation) ++ "% fixed income.";
           examples :=
             by_risk riskTolerance
               [growth etf !! 0%nat; growth etf !! 1%nat;
                midSmallCap etf !! 0%nat]
               [largeCap etf !! 0%nat; bonds etf !! 0%nat;
                international etf !! 0%nat]
               [largeCap etf !! 0%nat; bonds etf !! 0%nat;
                bonds etf !! 1%nat];
           allocation := by_risk riskTolerance (Fin 70) (Fin 60) (Fin 50);
           detailedAdvice :=
             "For a " ++ riskTolerance ++ " risk investor aged "
             ++ show (age p) ++ " in " ++ Str.toUpperCase planningRegion
             ++ " with a " ++ show (investmentHorizon_ p)
             ++ "-year horizon, prioritize " ++ sb_text equityStyle ++ ". "
             ++ (if hasRetirementFocus p
                 then "Given your proximity to retirement, gradually increase your bond allocation by 1% annually."
                 else "Your longer time horizon allows for more growth-oriented investments.")
             ++ " Consider a " ++ show_opt (sb_num bondAllocation)
             ++ "% allocation to " ++ sb_text bondStyle
             ++ " for income and stability." |} in
      (* Sector strategy *)
      let sector :=
        {| title := "Sector Allocation Strategy";
           description :=
             "Strategic exposure customized for your " ++ show (age p)
             ++ "-year age profile to high-potential sectors in the "
             ++ by_region planningRegion "US" "Indian"
             ++ " market aligned with " ++ riskTolerance
             ++ " risk tolerance.";
           examples :=
             [sectors etf !! 0%nat; sectors etf !! 1%nat;
              growth etf !! 0%nat];
           allocation := by_risk riskTolerance (Fin 20) (Fin 15) (Fin 10);
           detailedAdvice :=
             "With " ++ riskTolerance ++ " risk tolerance at age "
             ++ show (age p) ++ ", allocate "
             ++ by_risk riskTolerance "15-20%" "10-15%" "5-10%"
             ++ " to sectors with long-term growth potential. "
             ++ (if hasRetirementFocus p
                 then "As you approach retirement, shift towards defensive sectors like healthcare and utilities."
                 else "With a longer horizon, consider higher-growth sectors.")
             ++ " In " ++ by_region planningRegion "the US" "India"
             ++ ", focus on "
             ++ by_region planningRegion
                  "technology, healthcare, and clean energy"
                  "IT, financial services, and consumer goods"
             ++ "." |} in
      (* ESOP Diversification *)
      let esop :=
        {| title := "ESOP Diversification Strategy";
           description :=
             "Systematic approach to rebalance portfolio as ESOP shares vest and become available for sale.";
           examples :=
             [Some ("Sell " ++ by_risk riskTolerance "15-20%" "10-15%" "5-10%"
                    ++ " of vested shares annually");
              Some "Reinvest proceeds in core strategy";
              international etf !! 0%nat];
           allocation := by_risk riskTolerance (Fin 5) (Fin 10) (Fin 15);
           detailedAdvice :=
             "To reduce single-stock concentration risk, implement a disciplined selling strategy for vested ESOP shares. For each sale, reinvest proceeds following your core allocation model, prioritizing asset classes that are underweight in your overall portfolio." |} in
      (* 4th strategy - dynamic based on user profile *)
      let fourthStrategy :=
        if hasRetirementFocus p then
          {| title := "Retirement Income Strategy";
             description :=
               "Designed for " ++ show (yearsToRetirement p)
               ++ " years until retirement at age " ++ show (retirementAge_ p)
               ++ ", focusing on income generation and capital preservation.";
             examples :=
               [dividend etf !! 0%nat; bonds etf !! 0%nat;
                alternatives etf !! 0%nat];
             allocation := by_risk riskTolerance (Fin 5) (Fin 15) (Fin 25);
             detailedAdvice :=
               "With " ++ show (yearsToRetirement p)
               ++ " years until retirement at age " ++ show (retirementAge_ p)
               ++ ", prioritize income-generating assets. Implement a glide path strategy, increasing bond allocation from current "
               ++ show_opt (sb_num bondAllocation) ++ "% to "
               ++ show (Num.min
                          (to_number (sb_num bondAllocation)
                           + Fin 2 * (Fin 15 - yearsToRetirement p))%num
                          (Fin 70))
               ++ "% by retirement. Focus on dividend aristocrats, REITS, and high-quality bonds in "
               ++ by_region planningRegion "the US market" "India" ++ "." |}
        else if Num.gtb (savingsRate p) (Fin 30) then
          {| title := "Opportunistic Growth Strategy";
             description :=
               "Leverage your strong "
               ++ Show.toFixed ToString_other 1 (savingsRate p)
               ++ "% savings rate to capture high-growth opportunities in "
               ++ by_region planningRegion "US and global markets"
                    "Indian and emerging markets"
               ++ ".";
             examples :=
               [midSmallCap etf !! 0%nat; growth etf !! 1%nat;
                sectors etf !! 1%nat];
             allocation := by_risk riskTolerance (Fin 5) (Fin 15) (Fin 10);
             detailedAdvice :=
               "With a " ++ Show.toFixed ToString_other 1 (savingsRate p)
               ++ "% savings rate and " ++ show (investmentHorizon_ p)
               ++ "-year horizon, you can afford to take calculated risks for higher returns. Consider tactical allocations to emerging sectors, small-cap growth, and international markets. Your strong cash flow provides a buffer to weather short-term volatility." |}
        else
          {| title := "Financial Safety Strategy";
             description :=
               "Build resilience with emergency reserves and defensive positions for long-term stability.";
             examples :=
               if same riskTolerance "low"
               then [bonds etf !! 0%nat; alternatives etf !! 0%nat;
                     Some "High-yield savings"]
               else [value etf !! 0%nat; dividend etf !! 0%nat;
                     bonds etf !! 0%nat];
             allocation := by_risk riskTolerance (Fin 5) (Fin 15) (Fin 25);
             detailedAdvice :=
               "Maintain a robust emergency fund covering "
               ++ (if same riskTolerance "low" then "12"
                   else if same riskTolerance "medium" then "6" else "3")
               ++ " months of expenses ("
               ++ by_region planningRegion "$" "₹"
               ++ toLocaleString
                    (monthlyExpenses_ p
                     * (if same riskTolerance "low" then Fin 12
                        else if same riskTolerance "medium" then Fin 6
                        else Fin 3))%num
               ++ "). Complement this with defensive equity positions and high-quality bonds to provide stability during market downturns. Review and replenish this reserve quarterly." |} in
      Normal [core; sector; esop; fourthStrategy]
  end.

(** The call with the third argument as it may be passed.  The default
    [{}] replaces only a missing argument; on [null] the first statement,
    which reads [userGoals.currentAge], throws. *)
Definition generateDetailedStrategies_call (planningRegion riskTolerance : string)
    (userGoals : argument UserGoals) : completion (list Strategy) :=
  match userGoals with
  | Null => ThrowTypeError
  | Missing => generateDetailedStrategies planningRegion riskTolerance noGoals
  | Given goals => generateDetailedStrategies planningRegion riskTolerance goals
  end.

End Strategies.

(** *** calculateDownsideMetrics *)

Record StressTest : Type := {
  recession : number;
  marketCrash : number;
  inflationSpike : number
}.

(** The value of [advisories[planningRegion][riskTolerance]]: a row of the
    table, [undefined], or a value read through an object inherited from
    [Object.prototype], which is not determined further. *)
Inductive advisories_value : Type :=
| AdvisoryList (l : list string)
| AdvisoryUndefined
| AdvisoryViaPrototype.

Record DownsideMetrics : Type := {
  maxDrawdown : number;
  worstYear : number;
  volatility : number;
  stressTest : StressTest;
  advisories_of : advisories_value;
  recoveryTime : string
}.

Definition advisories : list (string * list (string * list string)) :=
  [ ("us",
     [ ("high",
        ["Consider using trailing stop-loss orders at 15-20% below current price";
         "Implement option collar strategies to limit downside while capping upside";
         "Maintain 10-15% cash position for opportunistic buying during corrections";
         "Review portfolio monthly and rebalance when allocation drifts >5%"]);
       ("medium",
        ["Use dollar-cost averaging to reduce timing risk";
         "Maintain 20-25% in bonds and fixed income for stability";
         "Consider adding defensive sector ETFs (utilities, consumer staples)";
         "Rebalance quarterly to maintain target allocation"]);
       ("low",
        ["Focus on capital preservation with 50%+ in bonds";
         "Use Treasury Inflation-Protected Securities (TIPS) for inflation hedge";
         "Maintain 6-12 month emergency fund in high-yield savings";
         "Review allocation annually and adjust as needed"]) ]);
    ("india",
     [ ("high",
        ["Use systematic withdrawal plans (SWP) to lock in gains periodically";
         "Maintain adequate emergency buffer given higher market volatility";
         "Consider adding gold (5-10%) as portfolio insurance";
         "Review concentration risk in single stocks/sectors monthly"]);
       ("medium",
        ["Balance equity exposure with debt mutual funds";
         "Use arbitrage funds for tax-efficient short-term parking";
         "Maintain 3-6 month expenses in liquid funds";
         "Rebalance when equity allocation exceeds target by >10%"]);
       ("low",
        ["Stay within your emergency-fund buffer of 6-12 months";
         "Add government bonds and high-rated corporate bonds";
         "Consider Public Provident Fund (PPF) for tax-free returns";
         "Avoid concentration in any single investment beyond 20%"]) ]) ].

Section Downside.

Variable ToString_other : Q -> string.

(** [Number(x.toFixed(1))]. *)
Definition fixed1 (x : number) : number :=
  Str.ToNumber (Show.toFixed ToString_other 1 x).

(** [marketVolatility] is [marketContext?.benchmarks?.primary?.volatility]. *)
Definition calculateDownsideMetrics (planningRegion riskTolerance : string)
    (marketVolatility : option number) : completion DownsideMetrics :=
  let volatility :=
    or_number marketVolatility
      (by_region planningRegion (Fin (142 # 10)) (Fin (165 # 10))) in
  (* Calculate max drawdown based on risk multiplier *)
  let riskMultiplier :=
    by_risk riskTolerance (Fin 2) (Fin (14 # 10)) (Fin 1) in
  let maxDrawdown :=
    Num.fmul (Num.fmul (Fin (-1)) volatility) riskMultiplier in
  (* Worst-case 1-year return *)
  let worstYear := by_risk riskTolerance (Fin (-35)) (Fin (-25)) (Fin (-15)) in
  let stressTest :=
    {| recession := by_risk riskTolerance (Fin (-40)) (Fin (-30)) (Fin (-20));
       marketCrash := by_risk riskTolerance (Fin (-50)) (Fin (-35)) (Fin (-25));
       inflationSpike := by_risk riskTolerance (Fin (-15)) (Fin (-10)) (Fin (-5)) |} in
  let result (a : advisories_value) :=
    Normal
      {| maxDrawdown := fixed1 maxDrawdown;
         worstYear := fixed1 worstYear;
         volatility := fixed1 volatility;
         stressTest := stressTest;
         advisories_of := a;
         recoveryTime :=
           by_risk riskTolerance "18-36 months" "12-24 months" "6-18 months" |} in
  match Obj.get advisories planningRegion with
  | Obj.Undefined => ThrowTypeError
  | Obj.Inherited =>
      if Obj.inherited_read_throws planningRegion riskTolerance
      then ThrowTypeError
      else result AdvisoryViaPrototype
  | Obj.Own table =>
      match Obj.get table riskTolerance with
      | Obj.Own l => result (AdvisoryList l)
      | Obj.Inherited => result AdvisoryViaPrototype
      | Obj.Undefined => result AdvisoryUndefined
      end
  end.

End Downside.

(** *** getRiskAdjustedAllocation *)

Module Alloc.
Record t : Type := {
  equity : number;
  bonds : number;
  alternatives : number
}.
End Alloc.

Definition allocations (planningRegion : string)
    : list (string * Alloc.t) :=
  [ ("low",
     {| Alloc.equity := by_region planningRegion (Fin 40) (Fin 45);
        Alloc.bonds := by_region planningRegion (Fin 50) (Fin 45);
        Alloc.alternatives := Fin 10 |});
    ("medium",
     {| Alloc.equity := by_region planningRegion (Fin 60) (Fin 55);
        Alloc.bonds := by_region planningRegion (Fin 30) (Fin 35);
        Alloc.alternatives := Fin 10 |});
    ("high",
     {| Alloc.equity := by_region planningRegion (Fin 80) (Fin 75);
        Alloc.bonds := by_region planningRegion (Fin 10) (Fin 15);
        Alloc.alternatives := Fin 10 |}) ].

(** [allocations[riskTolerance] || allocations.medium]. *)
Definition getRiskAdjustedAllocation (planningRegion riskTolerance : string)
    : Obj.property Alloc.t :=
  Obj.get_or (allocations planningRegion) riskTolerance
    (Obj.get (allocations planningRegion) "medium").

(** *** generateDetailedBenchmarks *)

Module Bench.
Record Returns : Type := {
  r1y : number;
  r3y : number;
  r5y : number;
  r10y : number
}.
Record t : Type := {
  name : string;
  cagr : number;
  volatility : number;
  sharpe : number;
  returns : Returns;
  description : string;
  dataAsOf : string
}.
Record Set_ : Type := {
  primary : t;
  secondary : t;
  alternative : t
}.
Record Market : Type := {
  riskFreeRate : number;
  inflationRate : number;
  marketDescription : string
}.
Record DataSources : Type := {
  us : list string;
  india : list string
}.
Record Result : Type := {
  benchmarks : Obj.property Set_;
  riskFreeRate_of : option number;
  inflationRate_of : option number;
  marketDescription_of : option string;
  lastUpdated : option string;
  dataSources : DataSources
}.
End Bench.

Definition benchmarks : list (string * Bench.Set_) :=
  [ ("us",
     {| Bench.primary :=
          {| Bench.name := "S&P 500";
             Bench.cagr := Fin (105 # 10);
             Bench.volatility := Fin (174 # 10);
             Bench.sharpe := Fin (58 # 100);
             Bench.returns :=
               {| Bench.r1y := Fin (182 # 10); Bench.r3y := Fin (103 # 10);
                  Bench.r5y := Fin (121 # 10); Bench.r10y := Fin (105 # 10) |};
             Bench.description := "Index of 500 largest US publicly traded companies, widely considered the best gauge of large-cap US equities. Source: S&P Dow Jones Indices";
             Bench.dataAsOf := "2024-11-15" |};
        Bench.secondary :=
          {| Bench.name := "Nasdaq Composite";
             Bench.cagr := Fin (135 # 10);
             Bench.volatility := Fin (228 # 10);
             Bench.sharpe := Fin (48 # 100);
             Bench.returns :=
               {| Bench.r1y := Fin (241 # 10); Bench.r3y := Fin (142 # 10);
                  Bench.r5y := Fin (153 # 10); Bench.r10y := Fin (135 # 10) |};
             Bench.description := "Tech-heavy index representing over 3,000 stocks listed on the Nasdaq exchange. Source: Nasdaq Global Indexes";
             Bench.dataAsOf := "2024-11-15" |};
        Bench.alternative :=
          {| Bench.name := "Russell 2000";
             Bench.cagr := Fin (78 # 10);
             Bench.volatility := Fin (242 # 10);
             Bench.sharpe := Fin (14 # 100);
             Bench.returns :=
               {| Bench.r1y := Fin (124 # 10); Bench.r3y := Fin (62 # 10);
                  Bench.r5y := Fin (81 # 10); Bench.r10y := Fin (78 # 10) |};
             Bench.description := "Small-cap index representing 2000 of the smallest publicly traded US companies. Source: FTSE Russell";
             Bench.dataAsOf := "2024-11-15" |} |});
    ("india",
     {| Bench.primary :=
          {| Bench.name := "Nifty 50";
             Bench.cagr := Fin (112 # 10);
             Bench.volatility := Fin (196 # 10);
             Bench.sharpe := Fin (38 # 100);
             Bench.returns :=
               {| Bench.r1y := Fin (153 # 10); Bench.r3y := Fin (118 # 10);
                  Bench.r5y := Fin (115 # 10); Bench.r10y := Fin (112 # 10) |};
             Bench.description := "Flagship index on the National Stock Exchange of India, representing 50 largest Indian companies. Source: NSE India";
             Bench.dataAsOf := "2024-11-15" |};
        Bench.secondary :=
          {| Bench.name := "BSE Sensex";
             Bench.cagr := Fin (109 # 10);
             Bench.volatility := Fin (192 # 10);
             Bench.sharpe := Fin (36 # 100);
             Bench.returns :=
               {| Bench.r1y := Fin (148 # 10); Bench.r3y := Fin (112 # 10);
                  Bench.r5y := Fin (111 # 10); Bench.r10y := Fin (109 # 10) |};
             Bench.description := "Index of 30 well-established and financially sound companies listed on the Bombay Stock Exchange. Source: BSE India";
             Bench.dataAsOf := "2024-11-15" |};
        Bench.alternative :=
          {| Bench.name := "Nifty Next 50";
             Bench.cagr := Fin (128 # 10);
             Bench.volatility := Fin (235 # 10);
             Bench.sharpe := Fin (26 # 100);
             Bench.returns :=
               {| Bench.r1y := Fin (187 # 10); Bench.r3y := Fin (135 # 10);
                  Bench.r5y := Fin (132 # 10); Bench.r10y := Fin (128 # 10) |};
             Bench.description := "Index representing the next 50 largest companies after the Nifty 50, often with higher growth potential. Source: NSE India";
             Bench.dataAsOf := "2024-11-15" |} |}) ].

Definition marketData : list (string * Bench.Market) :=
  [ ("us",
     {| Bench.riskFreeRate := Fin (463 # 100);
        Bench.inflationRate := Fin (32 # 10);
        Bench.marketDescription := "US markets characterized by high liquidity, strong regulatory frameworks, and global influence. Data as of Nov 2024." |});
    ("india",
     {| Bench.riskFreeRate := Fin (687 # 100);
        Bench.inflationRate := Fin (549 # 100);
        Bench.marketDescription := "Indian markets characterized by high growth potential, emerging economy dynamics, and increasing global integration. Data as of Nov 2024." |}) ].

(** [n] written with at least [w] digits. *)
Definition pad (w : nat) (n : Z) : string :=
  let d := Show.digits n in
  Show.zeros (w - String.length d) ++ d.

(** The date part [YYYY-MM-DD] of the ISO form of a time value. *)
Definition isoDate (t : Z) : string :=
  let '(y, m, d) := JSDate.utc_calendar t in
  let year :=
    if (0 <=? y) && (y <=? 9999) then pad 4 y
    else (if y <? 0 then "-" else "+") ++ pad 6 (Z.abs y) in
  year ++ "-" ++ pad 2 m ++ "-" ++ pad 2 d.

(** The time part [HH:mm:ss.sssZ]. *)
Definition isoTime (t : Z) : string :=
  let ms := t mod JSDate.msPerDay in
  pad 2 (ms / 3600000) ++ ":" ++ pad 2 (ms / 60000 mod 60) ++ ":"
  ++ pad 2 (ms / 1000 mod 60) ++ "." ++ pad 3 (ms mod 1000) ++ "Z".

(** [Date.prototype.toISOString] of a valid time value. *)
Definition toISOString (t : Z) : string :=
  isoDate t ++ "T" ++ isoTime t.

(** [now] is the time value [new Date()] reads from the system clock. *)
Definition generateDetailedBenchmarks (now : Z) (planningRegion : string)
    : completion Bench.Result :=
  (* Get current date for lastUpdated *)
  let today := now in
  let formattedDate := head (Str.split "T" (toISOString today)) in
  match Obj.get marketData planningRegion with
  | Obj.Undefined => ThrowTypeError
  | market =>
      Normal
        {| Bench.benchmarks := Obj.get benchmarks planningRegion;
           Bench.riskFreeRate_of := Obj.field Bench.riskFreeRate market;
           Bench.inflationRate_of := Obj.field Bench.inflationRate market;
           Bench.marketDescription_of :=
             Obj.field Bench.marketDescription market;
           Bench.lastUpdated := formattedDate;
           Bench.dataSources :=
             {| Bench.us :=
                  ["S&P Dow Jones Indices"; "Nasdaq Global Indexes";
                   "FTSE Russell"; "US Treasury"; "Bureau of Labor Statistics"];
                Bench.india :=
                  ["NSE India"; "BSE India"; "Reserve Bank of India";
                   "Ministry of Statistics and Programme Implementation"] |} |}
  end.

(** *** generateDetailedEsopStrategy *)

Record EsopOverview : Type := {
  totalValue : option number;
  totalUnvestedShares : option number;
  totalVestedShares : option number;
  percentOfPortfolio : option number
}.

Record RiskFlags : Type := {
  highConcentration : option bool
}.

Record AnalyticsSummary : Type := {
  esopOverview : option EsopOverview;
  riskFlags : option RiskFlags
}.

Record TaxRates : Type := {
  incomeTax : string;
  capitalGains : string;
  niit : option string;
  cess : option string;
  strategy : string
}.

Definition taxRates : list (string * TaxRates) :=
  [ ("us",
     {| incomeTax := "Ordinary income tax rates apply at exercise (22-37% federal plus state taxes)";
        capitalGains := "Long-term capital gains tax (15-20%) applies for shares held >1 year after exercise";
        niit := Some "Additional 3.8% Net Investment Income Tax for higher income brackets";
        cess := None;
        strategy := "Consider exercising options early if AMT exposure is low to start long-term capital gains clock" |});
    ("india",
     {| incomeTax := "Perquisite tax applies at exercise (taxed as salary at your income tax slab rate)";
        capitalGains := "Long-term capital gains tax (10% above ₹1 lakh) for shares held >1 year; otherwise STCG at 15%";
        niit := None;
        cess := Some "Health and Education Cess of 4% applies on the tax amount";
        strategy := "Consider exercising soon after grant if share price is low to minimize perquisite tax" |}) ].

Record ExerciseFunding : Type := {
  estimatedCost : number;
  monthlySavingsTarget : number;
  annualSellPercentage : number;
  taxRate : number;
  fundingSources : list string
}.

Record ActionStep : Type := {
  step : string;
  details : string;
  timeline : string
}.

Record EsopStrategy : Type := {
  overview : string;
  riskAssessment : string;
  liquidationPlan : string;
  taxPlanning : string;
  futureVestingStrategy : string;
  exerciseFundingStrategy : ExerciseFunding;
  actionSteps : list ActionStep;
  additionalRecommendations : list string
}.

(** The double quote character, as a string. *)
Definition dquote : string := String (Ascii.ascii_of_nat 34) EmptyString.

(** [analyticsSummary?.esopOverview?.totalValue || 100000]. *)
Definition esopValue_of (analyticsSummary : AnalyticsSummary) : number :=
  or_number (esopOverview analyticsSummary ≫= totalValue) (Fin 100000).

(** [analyticsSummary?.riskFlags?.highConcentration || false]. *)
Definition concentrationRisk_of (analyticsSummary : AnalyticsSummary) : bool :=
  default false (riskFlags analyticsSummary ≫= highConcentration).

(** The annual liquidation percentage recommendation. *)
Definition liquidationRecommendation_of (riskTolerance : string)
    (concentrationRisk : bool) : number :=
  let annualSellPercentage :=
    by_risk riskTolerance (Fin 20) (Fin 15) (Fin 10) in
  if concentrationRisk
  then Num.min (annualSellPercentage + Fin 5)%num (Fin 25)
  else annualSellPercentage.

Section Esop.

Variable ToString_other : Q -> string.
Variable toLocaleString : number -> string.

(** The function on a [userGoals] that is an object.  The locals
    [unvestedShares], [vestedShares], [investmentHorizon] and [age] of the
    source are computed and never read, so that no field of [userGoals]
    reaches the result; the call with [userGoals] as it may be passed is
    [generateDetailedEsopStrategy_call] below. *)
Definition generateDetailedEsopStrategy (planningRegion riskTolerance : string)
    (analyticsSummary : AnalyticsSummary) : completion EsopStrategy :=
  let esopValue := esopValue_of analyticsSummary in
  let concentrationRisk := concentrationRisk_of analyticsSummary in
  let currencySymbol := by_region planningRegion "$" "₹" in
  let liquidationRecommendation :=
    liquidationRecommendation_of riskTolerance concentrationRisk in
  let percent := show ToString_other liquidationRecommendation in
  match Obj.get taxRates planningRegion with
  | Obj.Undefined => ThrowTypeError
  | rates =>
      Normal
        {| overview :=
             "This ESOP integration strategy is tailored for "
             ++ by_region planningRegion "US" "Indian"
             ++ " employees with " ++ riskTolerance
             ++ " risk tolerance, focusing on systematic diversification while maximizing after-tax returns.";
           riskAssessment :=
             if concentrationRisk
             then
               "Your portfolio shows significant concentration risk with "
               ++ (let pct :=
                     to_number (esopOverview analyticsSummary
                                ≫= percentOfPortfolio) in
                   if Num.truthy pct then show ToString_other pct
                   else "35+")
               ++ "% in company stock. This exceeds recommended thresholds and increases volatility."
             else
               "Your current ESOP holdings represent a manageable portion of your overall portfolio. Continue monitoring this ratio as shares vest to prevent future concentration risk.";
           liquidationPlan :=
             "Implement a disciplined approach to sell " ++ percent
             ++ "% of vested shares annually to reduce single-stock exposure. "
             ++ (if concentrationRisk
                 then "Given your high concentration, consider accelerating this schedule in the first year."
                 else "This gradual approach balances diversification needs with potential upside.");
           taxPlanning :=
             "In " ++ Str.toUpperCase planningRegion ++ ", "
             ++ text_of (Obj.field incomeTax rates) ++ ". After sale, "
             ++ text_of (Obj.field capitalGains rates) ++ ". "
             ++ text_of (Obj.field strategy rates);
           futureVestingStrategy :=
             "As new shares vest quarterly or annually, evaluate your concentration metrics before each vesting event. Maintain a "
             ++ dquote ++ "sell-to-cover" ++ dquote
             ++ " strategy for tax obligations and consider selling additional shares if they exceed "
             ++ (if concentrationRisk then "15" else "20")
             ++ "% of your portfolio.";
           exerciseFundingStrategy :=
             {| estimatedCost := Num.round (Num.fmul esopValue (Fin (2 # 10)));
                monthlySavingsTarget :=
                  Num.round
                    (Num.fdiv (Num.fmul esopValue (Fin (2 # 10))) (Fin 12));
                annualSellPercentage := liquidationRecommendation;
                taxRate := if same planningRegion "india" then Fin 10 else Fin 22;
                fundingSources :=
                  ["Monthly savings allocation"; "Sell-to-cover strategy";
                   "Short-term liquid investments"] |};
           actionSteps :=
             [ {| step := "Establish ESOP exercise fund";
                  details := "Create a dedicated high-yield savings account specifically for funding future option exercises";
                  timeline := "Immediate" |};
               {| step := "Implement quarterly sell strategy";
                  details :=
                    "Sell " ++ percent
                    ++ "% of currently vested shares and reinvest according to your core allocation";
                  timeline := "Next quarter" |};
               {| step := "Tax planning consultation";
                  details :=
                    "Meet with a tax professional experienced in "
                    ++ by_region planningRegion "US equity compensation"
                         "Indian ESOP taxation"
                    ++ " to optimize exercise timing";
                  timeline := "Within 30 days" |};
               {| step := "Annual portfolio rebalancing";
                  details := "Adjust overall portfolio allocation to maintain target weights after integrating proceeds from ESOP sales";
                  timeline := "Annually" |} ];
           additionalRecommendations :=
             [ "Consider a "
               ++ by_region planningRegion "10b5-1 plan"
                    "structured selling program"
               ++ " to automate sales during open windows";
               "Maintain a cash buffer of " ++ currencySymbol
               ++ toLocaleString
                    (Num.round (Num.fmul esopValue (Fin (5 # 100))))
               ++ " for opportunistic exercises";
               "Review your strategy after significant company events or stock price movements of ±20%" ] |}
  end.

(** The call with the fourth argument as it may be passed: on [null] the
    read of [userGoals.investmentHorizon] throws, after the reads of the
    summary, which cannot throw. *)
Definition generateDetailedEsopStrategy_call
    (planningRegion riskTolerance : string)
    (analyticsSummary : AnalyticsSummary) (userGoals : argument UserGoals)
    : completion EsopStrategy :=
  match userGoals with
  | Null => ThrowTypeError
  | _ => generateDetailedEsopStrategy planningRegion riskTolerance
           analyticsSummary
  end.

End Esop.

End StrategyService.

(** ** middleware/dataTransformer.js *)

Module DataTransformer.

(** A property value of a response record.  [VObject] stands for any object
    (a [Date], an [ObjectId], a nested document): it is truthy and its
    conversion to a Number is left to the host. *)
Inductive value (O : Type) : Type :=
| VUndefined
| VNull
| VBool (b : bool)
| VNumber (n : number)
| VString (s : string)
| VObject (o : O).
Arguments VUndefined {O}.
Arguments VNull {O}.
Arguments VBool {O} b.
Arguments VNumber {O} n.
Arguments VString {O} s.
Arguments VObject {O} o.

(** An element of [data.data]: a plain object, or a Mongoose document, whose
    [toObject()] gives its fields as a plain object. *)
Inductive item (O : Type) : Type :=
| Plain (fields : gmap string (value O))
| Document (fields : gmap string (value O)).
Arguments Plain {O} fields.
Arguments Document {O} fields.

(** The argument of [res.json]: an object with its [status] and [data]
    properties ([data] an array of records or anything else), or a value
    that is not an object. *)
Inductive payload (O : Type) : Type :=
| Records (l : list (item O))
| NotArray (v : value O).
Arguments Records {O} l.
Arguments NotArray {O} v.

Inductive response (O : Type) : Type :=
| Body (status : value O) (data : payload O)
| NotObject (v : value O).
Arguments Body {O} status data.
Arguments NotObject {O} v.

Section Transform.

Variable O : Type.
Variable ToNumber_object : O -> number.

Definition truthy (v : value O) : bool :=
  match v with
  | VUndefined | VNull => false
  | VBool b => b
  | VNumber n => Num.truthy n
  | VString s => Str.truthy s
  | VObject _ => true
  end.

(** [Number(v)]. *)
Definition ToNumber (v : value O) : number :=
  match v with
  | VUndefined => NaN
  | VNull => Fin 0
  | VBool b => if b then Fin 1 else Fin 0
  | VNumber n => n
  | VString s => Str.ToNumber s
  | VObject o => ToNumber_object o
  end.

(** [record[key]]. *)
Definition get (record : gmap string (value O)) (key : string) : value O :=
  default VUndefined (record !! key).

(** [Number(record[key] || 0)]. *)
Definition Number_or_0 (record : gmap string (value O)) (key : string)
    : value O :=
  let v := get record key in
  VNumber (ToNumber (if truthy v then v else VNumber (Fin 0))).

(** [record.toObject()], called when the record has that method. *)
Definition toObject (record : item O) : gmap string (value O) :=
  match record with
  | Plain fields => fields
  | Document fields => fields
  end.

(** The callback of [data.data.map]. *)
Definition transformRecord (record : item O) : item O :=
  let record := toObject record in
  Plain
    (<[ "exercisePrice" := Number_or_0 record "exercisePrice" ]>
       (<[ "exercised" := Number_or_0 record "exercised" ]>
          (<[ "unvested" := Number_or_0 record "unvested" ]>
             (<[ "vested" := Number_or_0 record "vested" ]>
                (<[ "totalGrants" := Number_or_0 record "totalGrants" ]>
                   record))))).

(** [data.status === 'success']. *)
Definition is_success (status : value O) : bool :=
  match status with
  | VString s => String.eqb s "success"
  | _ => false
  end.

(** What the replaced [res.json] hands to the original one. *)
Definition transformEsopData (data : response O) : response O :=
  match data with
  | Body status (Records l) =>
      if is_success status
      then Body status (Records (map transformRecord l))
      else data
  | _ => data
  end.

End Transform.

Definition numericFields : list string :=
  ["totalGrants"; "vested"; "unvested"; "exercised"; "exercisePrice"].

End DataTransformer.

(** ** Notions used in the statements *)

Module Render.
(** The string written with the decimal digits [ds]. *)
Fixpoint of_digits (ds : list Z) : string :=
  match ds with
  | [] => EmptyString
  | d :: r => String (Show.digit_char d) (of_digits r)
  end.
End Render.

(** A decimal digit. *)
Definition is_digit (d : Z) : Prop := 0 <= d < 10.

(** A lower-case ASCII letter. *)
Definition is_lower (c : ascii) : bool :=
  (97 <=? Str.code c) && (Str.code c <=? 122).

(** The proleptic Gregorian calendar. *)
Module Calendar.
Definition is_leap (y : Z) : bool :=
  (y mod 4 =? 0) && (negb (y mod 100 =? 0) || (y mod 400 =? 0)).

Definition days_in_month (y m : Z) : Z :=
  if m =? 2 then (if is_leap y then 29 else 28)
  else if (m =? 4) || (m =? 6) || (m =? 9) || (m =? 11) then 30
  else 31.
End Calendar.

(** The binary64 value of the literal [0.2]. *)
Definition fifth : Q := 7205759403792794 # 36028797018963968.

(** The year a year argument of the [Date] constructor stands for. *)
Definition full_year (y : Z) : Z :=
  if (0 <=? y) && (y <=? 99) then 1900 + y else y.

(** * Properties *)

(** ** Sanity checks of the runtime fragments *)

Example parseInt10_ex1 : Str.parseInt10 "  -42abc" = Num.of_Z (-42).
Proof. reflexivity. Qed.
Example parseInt10_ex2 : Str.parseInt10 "abc" = NaN.
Proof. reflexivity. Qed.
(** [2^53 + 1] is not a binary64 value: the digits are read as [2^53]. *)
Example parseInt10_ex3 :
  Str.parseInt10 "9007199254740993" = Num.of_Z 9007199254740992.
Proof. vm_compute. reflexivity. Qed.

(** A cell of 310 digits overflows. *)
Example parseInt10_ex4 : Str.parseInt10 ("1" ++ Show.zeros 309) = PInf.
Proof. vm_compute. reflexivity. Qed.

Example parseFloat_ex1 : Str.parseFloat "12.50 USD" = Fin (1250 # 100).
Proof. reflexivity. Qed.
Example parseFloat_ex2 : Str.parseFloat "1e3" = Fin 1000.
Proof. reflexivity. Qed.
Example parseFloat_ex3 : Str.parseFloat "$12" = NaN.
Proof. reflexivity. Qed.
Example parseFloat_ex4 : Str.parseFloat "1.5e400" = PInf.
Proof. vm_compute. reflexivity. Qed.

Example ToNumber_ex3 : Str.ToNumber "-1e400" = NInf.
Proof. vm_compute. reflexivity. Qed.

Example ToNumber_ex1 : Str.ToNumber " 07 " = Fin 7.
Proof. reflexivity. Qed.
Example ToNumber_ex2 : Str.ToNumber "4-5" = NaN.
Proof. reflexivity. Qed.
Example split_ex1 : Str.split "/" "1/2/2024" = ["1"; "2"; "2024"]%string.
Proof. reflexivity. Qed.
Example split_ex2 : Str.split "-" "" = [""]%string.
Proof. reflexivity. Qed.
Example days_from_civil_epoch : JSDate.days_from_civil 1970 1 1 = 0.
Proof. reflexivity. Qed.
Example civil_from_days_ex : JSDate.civil_from_days 19723 = (2024, 1, 1).
Proof. reflexivity. Qed.
Example Date_parse_v8_iso :
  JSDate.Date_parse_v8 (-18000000) "2024-01-15" = Some 1705276800000.
Proof. reflexivity. Qed.
Example Date_parse_v8_mdy :
  JSDate.local_calendar 0 <$> JSDate.Date_parse_v8 0 "12/25/2024"
  = Some (2024, 12, 25).
Proof. reflexivity. Qed.
Example Date_parse_v8_day_first : JSDate.Date_parse_v8 0 "25-12-2024" = None.
Proof. reflexivity. Qed.
Example toFixed_ex1 f : Show.toFixed f 2 (Fin (7 # 1000) * Fin 100)%num = "0.70".
Proof. reflexivity. Qed.
Example toFixed_ex2 f : Show.toFixed f 1 (Fin (-1249 # 100)) = "-12.5".
Proof. reflexivity. Qed.
Example toFixed_ex3 f : Show.toFixed f 2 (Fin 100) = "100.00".
Proof. reflexivity. Qed.
(** The binary64 value of 17.45 lies below 17.45, that of 0.25 is 0.25. *)
Example toFixed_ex4 f : Show.toFixed f 1 (Fin (1745 # 100)) = "17.4".
Proof. vm_compute. reflexivity. Qed.

Example toFixed_ex5 f : Show.toFixed f 1 (Fin (25 # 100)) = "0.3".
Proof. vm_compute. reflexivity. Qed.

(** [7.499999999999999 * 0.2] is 1.5 in binary64. *)
Example fmul_ex1 :
  Num.eq (Num.fmul (Fin (7499999999999999 # 1000000000000000)) (Fin (2 # 10)))
         (Fin (3 # 2)).
Proof. vm_compute. reflexivity. Qed.

Example ToString_ex1 f : Show.ToString f (Fin (-30)) = "-30".
Proof. reflexivity. Qed.
Example riskParameters_low :
  SuccessProbability.riskParameters "low" = (Some (Fin (6 # 100)), Some (Fin (8 # 100))).
Proof. reflexivity. Qed.
Example riskParameters_unknown :
  SuccessProbability.riskParameters "aggressive"
  = SuccessProbability.riskParameters "medium".
Proof. reflexivity. Qed.
Example remove_first_ex : SuccessProbability.remove_first "Risk" "mediumRisk" = "medium".
Proof. reflexivity. Qed.
Example toISOString_ex :
  StrategyService.toISOString 1731628800123 = "2024-11-15T00:00:00.123Z".
Proof. reflexivity. Qed.
Example generateDetailedBenchmarks_date :
  StrategyService.Bench.lastUpdated
    <$> (match StrategyService.generateDetailedBenchmarks 1731628800123 "us" with
         | StrategyService.Normal r => Some r
         | _ => None
         end)
  = Some (Some "2024-11-15").
Proof. reflexivity. Qed.

(** ** Binary64 rounding *)

Lemma pow2_Qpower e : (Num.pow2 e == 2 ^ e)%Q.
Proof.
  destruct e as [|p|p]; unfold Num.pow2.
  - reflexivity.
  - apply (Zpower_Qpower 2 (Zpos p)). lia.
  - change (Z.neg p) with (- Z.pos p). rewrite Qpower_opp.
    rewrite <- (Zpower_Qpower 2 (Zpos p)) by lia.
    rewrite <- Pos2Z.inj_pow. reflexivity.
Qed.

Lemma pow2_pos e : (0 < Num.pow2 e)%Q.
Proof. rewrite pow2_Qpower. now apply Qpower_0_lt. Qed.

Lemma pow2_add a b : (Num.pow2 (a + b) == Num.pow2 a * Num.pow2 b)%Q.
Proof. rewrite !pow2_Qpower. now apply Qpower_plus. Qed.

Lemma pow2_lt_inv a b : (Num.pow2 a < Num.pow2 b)%Q -> a < b.
Proof.
  rewrite !pow2_Qpower. intros H.
  now apply (Qpower_lt_compat_l_inv 2 a b H).
Qed.

Lemma pow2_inject e : 0 <= e -> Num.pow2 e = inject_Z (2 ^ e).
Proof. destruct e; [reflexivity | reflexivity | lia]. Qed.

(** [pow2 k <= a / d] and [a / d < pow2 k] on integers. *)
Lemma pow2_le_iff k a d :
  (Num.pow2 k <= a # d)%Q
  <-> Zpos d * 2 ^ Z.max 0 k <= a * 2 ^ Z.max 0 (- k).
Proof.
  destruct k as [|p|p]; unfold Num.pow2, Qle; cbn [Qnum Qden inject_Z].
  - change (Z.max 0 0) with 0. change (Z.max 0 (- 0)) with 0.
    change (2 ^ 0) with 1. lia.
  - rewrite (Z.max_r 0 (Z.pos p)), (Z.max_l 0 (- Z.pos p)) by lia.
    change (2 ^ 0) with 1. lia.
  - rewrite (Z.max_l 0 (Z.neg p)), (Z.max_r 0 (- Z.neg p)) by lia.
    change (- Z.neg p) with (Z.pos p). rewrite Pos2Z.inj_pow.
    change (2 ^ 0) with 1. lia.
Qed.

Lemma pow2_gt_iff k a d :
  (a # d < Num.pow2 k)%Q
  <-> a * 2 ^ Z.max 0 (- k) < Zpos d * 2 ^ Z.max 0 k.
Proof.
  destruct k as [|p|p]; unfold Num.pow2, Qlt; cbn [Qnum Qden inject_Z].
  - change (Z.max 0 0) with 0. change (Z.max 0 (- 0)) with 0.
    change (2 ^ 0) with 1. lia.
  - rewrite (Z.max_r 0 (Z.pos p)), (Z.max_l 0 (- Z.pos p)) by lia.
    change (2 ^ 0) with 1. lia.
  - rewrite (Z.max_l 0 (Z.neg p)), (Z.max_r 0 (- Z.neg p)) by lia.
    change (- Z.neg p) with (Z.pos p). rewrite Pos2Z.inj_pow.
    change (2 ^ 0) with 1. lia.
Qed.

Lemma ilog2_lower a d :
  0 < a -> 0 < d ->
  d * 2 ^ Z.max 0 (Num.ilog2 a d) <= a * 2 ^ Z.max 0 (- Num.ilog2 a d).
Proof.
  intros Ha Hd. unfold Num.ilog2.
  set (k := Z.log2 a - Z.log2 d).
  destruct (Z.leb_spec (d * 2 ^ Z.max 0 k) (a * 2 ^ Z.max 0 (- k)))
    as [H | H]; [exact H|].
  pose proof (Z.log2_spec a Ha) as [La Ua].
  pose proof (Z.log2_spec d Hd) as [Ld Ud].
  pose proof (Z.log2_nonneg a). pose proof (Z.log2_nonneg d).
  destruct (Z_lt_le_dec 0 k) as [Hk | Hk].
  - rewrite Z.max_r by lia. rewrite Z.max_l by lia. change (2 ^ 0) with 1.
    assert (E : 2 ^ Z.succ (Z.log2 d) * 2 ^ (k - 1) = 2 ^ Z.log2 a).
    { rewrite <- Z.pow_add_r by lia. f_equal. lia. }
    assert (0 < 2 ^ (k - 1)) by (apply Z.pow_pos_nonneg; lia).
    nia.
  - rewrite Z.max_l by lia. rewrite Z.max_r by lia. change (2 ^ 0) with 1.
    assert (E : 2 ^ Z.log2 a * 2 ^ (- (k - 1)) = 2 ^ Z.succ (Z.log2 d)).
    { rewrite <- Z.pow_add_r by lia. f_equal. lia. }
    assert (0 < 2 ^ (- (k - 1))) by (apply Z.pow_pos_nonneg; lia).
    nia.
Qed.

Lemma ilog2_upper a d :
  0 < a -> 0 < d ->
  a * 2 ^ Z.max 0 (- (Num.ilog2 a d + 1))
  < d * 2 ^ Z.max 0 (Num.ilog2 a d + 1).
Proof.
  intros Ha Hd. unfold Num.ilog2.
  set (k := Z.log2 a - Z.log2 d).
  pose proof (Z.log2_spec a Ha) as [La Ua].
  pose proof (Z.log2_spec d Hd) as [Ld Ud].
  pose proof (Z.log2_nonneg a). pose proof (Z.log2_nonneg d).
  destruct (Z.leb_spec (d * 2 ^ Z.max 0 k) (a * 2 ^ Z.max 0 (- k)))
    as [H' | H'].
  - destruct (Z_lt_le_dec k 0) as [Hk | Hk].
    + rewrite Z.max_r by lia. rewrite Z.max_l by lia. change (2 ^ 0) with 1.
      assert (E : 2 ^ Z.succ (Z.log2 a) * 2 ^ (- (k + 1)) = 2 ^ Z.log2 d).
      { rewrite <- Z.pow_add_r by lia. f_equal. lia. }
      assert (0 < 2 ^ (- (k + 1))) by (apply Z.pow_pos_nonneg; lia).
      nia.
    + rewrite Z.max_l by lia. rewrite Z.max_r by lia. change (2 ^ 0) with 1.
      assert (E : 2 ^ Z.log2 d * 2 ^ (k + 1) = 2 ^ Z.succ (Z.log2 a)).
      { rewrite <- Z.pow_add_r by lia. f_equal. lia. }
      assert (0 < 2 ^ (k + 1)) by (apply Z.pow_pos_nonneg; lia).
      nia.
  - replace (k - 1 + 1) with k by lia. exact H'.
Qed.

(** The logarithm brackets the ratio. *)
Lemma ilog2_spec a d :
  0 < a ->
  (Num.pow2 (Num.ilog2 a (Zpos d)) <= a # d
   /\ a # d < Num.pow2 (Num.ilog2 a (Zpos d) + 1))%Q.
Proof.
  intros Ha. split.
  - apply pow2_le_iff. apply ilog2_lower; lia.
  - apply pow2_gt_iff. apply ilog2_upper; lia.
Qed.

Lemma round_even_near n d :
  0 < d ->
  2 * Num.round_even n d * d - d <= 2 * n <= 2 * Num.round_even n d * d + d.
Proof.
  intros Hd. unfold Num.round_even.
  pose proof (Z.div_mod n d ltac:(lia)) as E.
  pose proof (Z.mod_pos_bound n d Hd) as B.
  destruct (Z.compare_spec (2 * (n mod d)) d) as [C | C | C];
    [destruct (Z.even (n / d))| |]; nia.
Qed.

(** A ratio less than a half above an integer is rounded to it. *)
Lemma round_even_floor n d M :
  0 < d -> M * d <= n -> 2 * n < (2 * M + 1) * d -> Num.round_even n d = M.
Proof.
  intros Hd H1 H2. unfold Num.round_even.
  pose proof (Z.div_mod n d ltac:(lia)) as E.
  pose proof (Z.mod_pos_bound n d Hd) as B.
  assert (Hq : n / d = M) by (symmetry; apply (Z.div_unique n d M (n - M * d)); nia).
  destruct (Z.compare_spec (2 * (n mod d)) d) as [C | C | C]; nia.
Qed.

Lemma Qmake_inject a d : ((a # d) * inject_Z (Zpos d) == inject_Z a)%Q.
Proof. unfold Qeq. cbn. lia. Qed.

(** The rounding of a positive rational in the normal range below [2^53]:
    the binade [k], the significand [m] and the value. *)
Lemma double_spec (q : Q) :
  (Num.pow2 (-1022) <= q)%Q -> (q < Num.pow2 53)%Q ->
  exists (k m : Z) (r : Q),
    Num.double q = Fin r
    /\ -1022 <= k <= 52
    /\ (Num.pow2 k <= q)%Q /\ (q < Num.pow2 (k + 1))%Q
    /\ (r == inject_Z m * Num.pow2 (k - 52))%Q
    /\ (inject_Z m - (1 # 2) <= q * Num.pow2 (52 - k))%Q
    /\ (q * Num.pow2 (52 - k) <= inject_Z m + (1 # 2))%Q
    /\ (forall M : Z,
           (inject_Z M <= q * Num.pow2 (52 - k))%Q ->
           (q * Num.pow2 (52 - k) < inject_Z M + (1 # 2))%Q -> m = M).
Proof.
  intros Hlo Hhi. destruct q as [a d].
  assert (Ha : 0 < a).
  { pose proof (pow2_pos (-1022)) as Hp.
    pose proof (Qlt_le_trans _ _ _ Hp Hlo) as H0.
    unfold Qlt in H0. cbn in H0. lia. }
  pose proof (ilog2_spec a d Ha) as [Hk1 Hk2].
  set (k := Num.ilog2 a (Zpos d)) in *.
  assert (Hk : -1022 <= k <= 52).
  { split.
    - assert (H : (Num.pow2 (-1022) < Num.pow2 (k + 1))%Q)
        by (eapply Qle_lt_trans; eauto).
      apply pow2_lt_inv in H. lia.
    - assert (H : (Num.pow2 k < Num.pow2 53)%Q)
        by (eapply Qle_lt_trans; eauto).
      apply pow2_lt_inv in H. lia. }
  set (T := 2 ^ (52 - k)).
  assert (HT : 0 < T) by (apply Z.pow_pos_nonneg; lia).
  set (m := Num.round_even (a * T) (Zpos d)).
  pose proof (round_even_near (a * T) (Zpos d) ltac:(lia)) as Hnear.
  fold m in Hnear.
  assert (Hov : (0 <=? k - 52) && (2 ^ 1024 <=? m * 2 ^ (k - 52)) = false).
  { destruct (Z.leb_spec 0 (k - 52)) as [H52 | H52]; [|reflexivity].
    cbn [andb]. apply Z.leb_gt.
    assert (E : k = 52) by lia.
    replace (k - 52) with 0 by lia. change (2 ^ 0) with 1.
    assert (ET : T = 1) by (unfold T; rewrite E; reflexivity).
    rewrite ET in Hnear.
    apply pow2_gt_iff in Hhi.
    change (Z.max 0 (- 53)) with 0 in Hhi. change (Z.max 0 53) with 53 in Hhi.
    change (2 ^ 0) with 1 in Hhi.
    assert (m <= 2 ^ 53) by nia.
    assert (2 ^ 53 < 2 ^ 1024) by reflexivity. lia. }
  assert (Hpow : Num.pow2 (52 - k) = inject_Z T) by (apply pow2_inject; lia).
  assert (HP : (Num.pow2 (k - 52) * inject_Z T == 1)%Q).
  { rewrite <- Hpow, <- pow2_add. replace (k - 52 + (52 - k)) with 0 by lia.
    reflexivity. }
  assert (Hval : forall r, (r * inject_Z (Zpos d) * inject_Z T
                            == inject_Z m * inject_Z (Zpos d))%Q ->
                           (r == inject_Z m * Num.pow2 (k - 52))%Q).
  { intros r Hr.
    assert (HD : (0 < inject_Z (Zpos d))%Q) by (unfold Qlt; cbn; lia).
    assert (HTq : (0 < inject_Z T)%Q) by (unfold Qlt; cbn; lia).
    pose proof (pow2_pos (k - 52)) as HPp.
    set (P := Num.pow2 (k - 52)) in *.
    assert (E1 : (r * inject_Z T == inject_Z m)%Q).
    { apply (Qmult_inj_r _ _ (inject_Z (Zpos d))); [lra|].
      rewrite <- Hr. ring. }
    rewrite <- E1. rewrite <- Qmult_assoc, (Qmult_comm (inject_Z T)), HP. ring. }
  exists k, m.
  unfold Num.double. cbn [Qnum Qden].
  rewrite (Z.abs_eq a) by lia.
  destruct (Z.eqb_spec a 0) as [|_]; [lia|].
  fold k. rewrite (Z.max_l (k - 52) (-1074)) by lia.
  rewrite (Z.max_r 0 (- (k - 52))), (Z.max_l 0 (k - 52)) by lia.
  change (2 ^ 0) with 1. rewrite Z.mul_1_r.
  replace (- (k - 52)) with (52 - k) by lia. fold T. fold m.
  rewrite Hov.
  assert (Hrest :
    (inject_Z m - (1 # 2) <= (a # d) * Num.pow2 (52 - k))%Q
    /\ ((a # d) * Num.pow2 (52 - k) <= inject_Z m + (1 # 2))%Q
    /\ (forall M : Z,
           (inject_Z M <= (a # d) * Num.pow2 (52 - k))%Q ->
           ((a # d) * Num.pow2 (52 - k) < inject_Z M + (1 # 2))%Q -> m = M)).
  { rewrite Hpow. split; [|split].
    - clearbody m T k. unfold Qle. cbn. rewrite ?Pos.mul_1_r.
      change (1 * 2)%positive with 2%positive. nia.
    - clearbody m T k. unfold Qle. cbn. rewrite ?Pos.mul_1_r, ?Pos.mul_1_l.
      change (1 * 2)%positive with 2%positive. nia.
    - intros M H1 H2. unfold Qle in H1. unfold Qlt in H2. cbn in H1, H2.
      rewrite ?Pos.mul_1_r, ?Pos.mul_1_l in H1, H2.
      change (1 * 2)%positive with 2%positive in H2.
      unfold m. clearbody T k. apply round_even_floor; nia. }
  destruct (Z.eqb_spec ((a * T) mod Zpos d) 0) as [Hex | Hex].
  - exists (a # d). split; [reflexivity|]. split; [exact Hk|].
    split; [exact Hk1|]. split; [exact Hk2|]. split; [|exact Hrest].
    apply Hval. rewrite Qmake_inject, <- !inject_Z_mult.
    apply inject_Z_injective.
    pose proof (Z.div_mod (a * T) (Zpos d) ltac:(lia)) as E.
    unfold m, Num.round_even. rewrite Hex.
    change (2 * 0 ?= Z.pos d) with Lt. cbv iota.
    rewrite Hex in E. lia.
  - eexists. split; [reflexivity|]. split; [exact Hk|].
    split; [exact Hk1|]. split; [exact Hk2|]. split; [|exact Hrest].
    unfold Num.Qsign. cbn [Qnum]. rewrite (Z.sgn_pos a) by lia.
    rewrite Z.mul_1_l. reflexivity.
Qed.

Lemma pow2_normal_min : (Num.pow2 (-1022) <= 1 # 1024)%Q.
Proof. unfold Qle. vm_compute. discriminate. Qed.

Lemma pow2_53 : Num.pow2 53 = inject_Z 9007199254740992.
Proof. reflexivity. Qed.

(** The relative error of the rounding is at most [2^-53]. *)
Lemma double_error (q : Q) :
  (Num.pow2 (-1022) <= q)%Q -> (q < Num.pow2 53)%Q ->
  exists r : Q,
    Num.double q = Fin r
    /\ (q - q * Num.half_ulp <= r)%Q /\ (r <= q + q * Num.half_ulp)%Q.
Proof.
  intros Hlo Hhi.
  destruct (double_spec q Hlo Hhi)
    as (k & m & r & Hd & Hk & Hk1 & Hk2 & Hr & Hm1 & Hm2 & _).
  exists r. split; [exact Hd|].
  pose proof (pow2_pos (k - 52)) as HP.
  pose proof (pow2_pos (52 - k)) as HT.
  assert (HPT : (Num.pow2 (k - 52) * Num.pow2 (52 - k) == 1)%Q).
  { rewrite <- pow2_add. replace (k - 52 + (52 - k)) with 0 by lia.
    reflexivity. }
  assert (Hk' : (Num.pow2 k == Num.pow2 (k - 52) * inject_Z (2 ^ 52))%Q).
  { replace k with (k - 52 + 52) at 1 by lia. rewrite pow2_add. reflexivity. }
  rewrite Hk' in Hk1.
  set (P := Num.pow2 (k - 52)) in *. set (T := Num.pow2 (52 - k)) in *.
  assert (Hq : (q == q * T * P)%Q).
  { rewrite <- Qmult_assoc, (Qmult_comm T), HPT. ring. }
  assert (A1 : ((inject_Z m - (1 # 2)) * P <= q * T * P)%Q)
    by (apply Qmult_le_compat_r; [exact Hm1 | lra]).
  assert (A2 : (q * T * P <= (inject_Z m + (1 # 2)) * P)%Q)
    by (apply Qmult_le_compat_r; [exact Hm2 | lra]).
  rewrite <- Hq in A1, A2.
  change (inject_Z (2 ^ 52)) with (4503599627370496%Q) in Hk1.
  unfold Num.half_ulp. rewrite Hr.
  set (MP := (inject_Z m * P)%Q) in *.
  assert (B1 : (MP - (1 # 2) * P <= q)%Q).
  { assert (E : (MP - (1 # 2) * P == (inject_Z m - (1 # 2)) * P)%Q)
      by (subst MP; ring).
    rewrite E. exact A1. }
  assert (B2 : (q <= MP + (1 # 2) * P)%Q).
  { assert (E : (MP + (1 # 2) * P == (inject_Z m + (1 # 2)) * P)%Q)
      by (subst MP; ring).
    rewrite E. exact A2. }
  clearbody MP P. split; lra.
Qed.

(** A rational at most [2^-54] (relatively) above an integer below [2^53]
    is rounded to that integer. *)
Lemma double_integer (q : Q) (N : Z) :
  1 <= N < 2 ^ 53 ->
  (inject_Z N <= q)%Q -> (q <= inject_Z N + inject_Z N * (1 # 18014398509481984))%Q ->
  exists r : Q, Num.double q = Fin r /\ (r == inject_Z N)%Q.
Proof.
  intros HN H1 H2.
  assert (HN1 : (1 <= inject_Z N)%Q) by (unfold Qle; cbn; lia).
  assert (HN2 : (inject_Z N < 9007199254740992)%Q) by (unfold Qlt; cbn; lia).
  assert (Hlo : (Num.pow2 (-1022) <= q)%Q).
  { pose proof pow2_normal_min. lra. }
  assert (Hhi : (q < Num.pow2 53)%Q).
  { rewrite pow2_53.
    destruct (Qlt_le_dec q (inject_Z 9007199254740992)) as [|Hge]; [assumption|].
    exfalso.
    (* an integer below 2^53 is at most 2^53 - 1 *)
    assert (HN3 : (inject_Z N <= 9007199254740991)%Q) by (unfold Qle; cbn; lia).
    change (inject_Z 9007199254740992) with 9007199254740992%Q in Hge. lra. }
  destruct (double_spec q Hlo Hhi)
    as (k & m & r & Hd & Hk & Hk1 & Hk2 & Hr & _ & _ & Hu).
  exists r. split; [exact Hd|].
  pose proof (pow2_pos (k - 52)) as HP.
  pose proof (pow2_pos (52 - k)) as HT.
  assert (HPT : (Num.pow2 (k - 52) * Num.pow2 (52 - k) == 1)%Q).
  { rewrite <- pow2_add. replace (k - 52 + (52 - k)) with 0 by lia.
    reflexivity. }
  assert (HkT : (Num.pow2 (k + 1) * Num.pow2 (52 - k) == 9007199254740992)%Q).
  { rewrite <- pow2_add. replace (k + 1 + (52 - k)) with 53 by lia.
    reflexivity. }
  assert (Hpow : Num.pow2 (52 - k) = inject_Z (2 ^ (52 - k)))
    by (apply pow2_inject; lia).
  set (M := N * 2 ^ (52 - k)).
  assert (HM : (inject_Z M == inject_Z N * Num.pow2 (52 - k))%Q).
  { unfold M. rewrite inject_Z_mult, Hpow. reflexivity. }
  assert (Em : m = M).
  { apply Hu; rewrite HM.
    - apply Qmult_le_compat_r; [exact H1 | lra].
    - set (T := Num.pow2 (52 - k)) in *. set (K := Num.pow2 (k + 1)) in *.
      assert (C1 : (q * T <= (inject_Z N + inject_Z N * (1 # 18014398509481984)) * T)%Q)
        by (apply Qmult_le_compat_r; [exact H2 | lra]).
      assert (C2 : (inject_Z N * T < K * T)%Q).
      { apply Qmult_lt_compat_r; [exact HT | lra]. }
      rewrite HkT in C2.
      set (NT := (inject_Z N * T)%Q) in *.
      assert (E : ((inject_Z N + inject_Z N * (1 # 18014398509481984)) * T
                   == NT + NT * (1 # 18014398509481984))%Q)
        by (subst NT; ring).
      rewrite E in C1. clearbody NT. lra. }
  rewrite Hr, Em, HM, <- Qmult_assoc, (Qmult_comm (Num.pow2 (52 - k))), HPT.
  ring.
Qed.

(** A half-integer below [2^52] is a binary64 value. *)
Lemma double_half (q : Q) (J : Z) :
  1 <= J < 2 ^ 53 -> (q * 2 == inject_Z J)%Q ->
  exists r : Q, Num.double q = Fin r /\ (r == q)%Q.
Proof.
  intros HJ HqJ.
  assert (HJ1 : (1 <= inject_Z J)%Q) by (unfold Qle; cbn; lia).
  assert (HJ2 : (inject_Z J <= 9007199254740991)%Q) by (unfold Qle; cbn; lia).
  assert (Hlo : (Num.pow2 (-1022) <= q)%Q).
  { pose proof pow2_normal_min. lra. }
  assert (Hhi52 : (q < Num.pow2 52)%Q).
  { change (Num.pow2 52) with (inject_Z 4503599627370496).
    change (inject_Z 4503599627370496) with 4503599627370496%Q. lra. }
  assert (Hhi : (q < Num.pow2 53)%Q).
  { rewrite pow2_53. change (inject_Z 9007199254740992) with 9007199254740992%Q.
    change (Num.pow2 52) with 4503599627370496%Q in Hhi52. lra. }
  destruct (double_spec q Hlo Hhi)
    as (k & m & r & Hd & Hk & Hk1 & Hk2 & Hr & _ & _ & Hu).
  exists r. split; [exact Hd|].
  assert (Hk51 : k <= 51).
  { assert (H : (Num.pow2 k < Num.pow2 52)%Q) by (eapply Qle_lt_trans; eauto).
    apply pow2_lt_inv in H. lia. }
  pose proof (pow2_pos (k - 52)) as HP.
  pose proof (pow2_pos (52 - k)) as HT.
  assert (HPT : (Num.pow2 (k - 52) * Num.pow2 (52 - k) == 1)%Q).
  { rewrite <- pow2_add. replace (k - 52 + (52 - k)) with 0 by lia.
    reflexivity. }
  assert (Hpow : (Num.pow2 (52 - k) == 2 * inject_Z (2 ^ (51 - k)))%Q).
  { replace (52 - k) with (1 + (51 - k)) by lia. rewrite pow2_add.
    rewrite (pow2_inject (51 - k)) by lia. reflexivity. }
  set (M := J * 2 ^ (51 - k)).
  assert (HM : (inject_Z M == q * Num.pow2 (52 - k))%Q).
  { unfold M. rewrite inject_Z_mult, Hpow, <- HqJ. ring. }
  assert (Em : m = M).
  { apply Hu; rewrite HM; lra. }
  rewrite Hr, Em, HM, <- Qmult_assoc, (Qmult_comm (Num.pow2 (52 - k))), HPT.
  ring.
Qed.

(** Whole numbers: a whole number is rounded to a whole number or to an
    infinity. *)
Lemma double_Z_cases z :
  Num.double (inject_Z z) = PInf \/ Num.double (inject_Z z) = NInf
  \/ exists z', Num.double (inject_Z z) = Num.of_Z z'.
Proof.
  unfold Num.double. cbn [Qnum Qden inject_Z].
  destruct (Z.eqb_spec (Z.abs z) 0) as [|Hz]; [right; right; eexists; reflexivity|].
  set (e := Z.max (Num.ilog2 (Z.abs z) 1 - 52) (-1074)).
  destruct ((0 <=? e) && _).
  - unfold Num.Qsign. cbn [Qnum inject_Z].
    destruct z; [lia | left; reflexivity | right; left; reflexivity].
  - right. right.
    destruct (Z.eqb_spec ((Z.abs z * 2 ^ Z.max 0 (- e))
                            mod (1 * 2 ^ Z.max 0 e)) 0) as [|Hne];
      [eexists; reflexivity|].
    destruct (Z_lt_le_dec e 0) as [He | He].
    + exfalso. apply Hne. rewrite (Z.max_l 0 e) by lia.
      change (1 * 2 ^ 0) with 1. apply Z.mod_1_r.
    + rewrite (pow2_inject e He). eexists. reflexivity.
Qed.

(** Whole numbers below [2^53] in magnitude are binary64 values. *)
Lemma double_small_Z z :
  Z.abs z < 2 ^ 53 -> Num.double (inject_Z z) = Num.of_Z z.
Proof.
  intros Hz. unfold Num.double. cbn [Qnum Qden inject_Z].
  destruct (Z.eqb_spec (Z.abs z) 0) as [|Hz0]; [reflexivity|].
  pose proof (ilog2_lower (Z.abs z) 1 ltac:(lia) ltac:(lia)) as Hl.
  set (k := Num.ilog2 (Z.abs z) 1) in *.
  assert (Hk : k <= 52).
  { destruct (Z_lt_le_dec 52 k) as [Hgt|]; [|assumption]. exfalso.
    rewrite (Z.max_r 0 k), (Z.max_l 0 (- k)) in Hl by lia.
    change (2 ^ 0) with 1 in Hl.
    assert (2 ^ 53 <= 2 ^ k) by (apply Z.pow_le_mono_r; lia).
    clearbody k. lia. }
  set (e := Z.max (k - 52) (-1074)).
  assert (He : e <= 0) by (unfold e; lia).
  rewrite (Z.max_l 0 e) by lia. change (1 * 2 ^ 0) with 1.
  rewrite Z.mod_1_r. cbn [Z.eqb].
  assert (Hov : (0 <=? e)
                && (2 ^ 1024 <=? Num.round_even (Z.abs z * 2 ^ Z.max 0 (- e)) 1
                                 * 2 ^ e) = false).
  { destruct (Z.leb_spec 0 e) as [H0|]; [|reflexivity]. cbn [andb].
    apply Z.leb_gt. replace e with 0 by lia.
    change (Z.max 0 (- 0)) with 0. change (2 ^ 0) with 1.
    rewrite !Z.mul_1_r.
    unfold Num.round_even. rewrite Z.mod_1_r, Z.div_1_r.
    change (2 * 0 ?= 1) with Lt. cbv iota.
    assert (2 ^ 53 < 2 ^ 1024) by reflexivity. lia. }
  rewrite Hov. reflexivity.
Qed.

(** Rounding is symmetric about zero. *)
Lemma double_sym (q q' r : Q) :
  Z.abs (Qnum q') = Z.abs (Qnum q) -> Qden q' = Qden q ->
  Num.Qsign q' = - Num.Qsign q ->
  Num.double q = Fin r ->
  exists r', Num.double q' = Fin r' /\ (r' == - r)%Q.
Proof.
  intros Habs Hden Hsgn. unfold Num.double. rewrite Habs, Hden, Hsgn.
  assert (Hq : (q' == - q)%Q).
  { unfold Qeq. cbn. rewrite Hden. unfold Num.Qsign in Hsgn. nia. }
  destruct (Z.abs (Qnum q) =? 0).
  - intros [= <-]. eauto.
  - destruct (_ && _).
    + unfold Num.Qsign. destruct (Z.sgn (Qnum q)); discriminate.
    + destruct (_ =? 0).
      * intros [= <-]. eauto.
      * intros [= <-]. eexists. split; [reflexivity|].
        rewrite inject_Z_mult, inject_Z_opp, inject_Z_mult. ring.
Qed.

(** The relative error on a negative rational. *)
Lemma double_error_neg (q : Q) :
  (Num.pow2 (-1022) <= - q)%Q -> (- q < Num.pow2 53)%Q ->
  exists r : Q,
    Num.double q = Fin r
    /\ (q + q * Num.half_ulp <= r)%Q /\ (r <= q - q * Num.half_ulp)%Q.
Proof.
  intros Hlo Hhi.
  destruct (double_error (- q) Hlo Hhi) as (r0 & E0 & A0 & B0).
  destruct (double_sym (- q) q r0) as (r & E & V); [| | |exact E0|].
  - cbn. now rewrite Z.abs_opp.
  - reflexivity.
  - unfold Num.Qsign. cbn. lia.
  - exists r. split; [exact E|]. rewrite V. split; lra.
Qed.

(** A rational below [2^1000] in magnitude is rounded to a finite value. *)
Lemma double_finite (q : Q) :
  (Qabs q < inject_Z (2 ^ 1000))%Q -> exists r, Num.double q = Fin r.
Proof.
  intros Hq. destruct q as [a0 d]. unfold Num.double. cbn [Qnum Qden].
  unfold Qlt in Hq. cbn [Qabs Qnum Qden inject_Z] in Hq.
  rewrite Z.mul_1_r in Hq.
  set (a := Z.abs a0) in *.
  destruct (Z.eqb_spec a 0) as [|Ha]; [eauto|].
  assert (Ha' : 0 < a) by (subst a; lia).
  pose proof (ilog2_lower a (Zpos d) Ha' ltac:(lia)) as Hl.
  pose proof (ilog2_upper a (Zpos d) Ha' ltac:(lia)) as Hu.
  set (k := Num.ilog2 a (Zpos d)) in *.
  set (e := Z.max (k - 52) (-1074)).
  set (m := Num.round_even (a * 2 ^ Z.max 0 (- e)) (Zpos d * 2 ^ Z.max 0 e)).
  assert (Hov : (0 <=? e) && (2 ^ 1024 <=? m * 2 ^ e) = false).
  { destruct (Z.leb_spec 0 e) as [He|]; [|reflexivity]. cbn [andb].
    apply Z.leb_gt.
    assert (Hek : e = k - 52) by (unfold e in *; lia).
    assert (Hk : 52 <= k) by lia.
    rewrite (Z.max_r 0 k), (Z.max_l 0 (- k)) in Hl by lia.
    rewrite (Z.max_r 0 (k + 1)), (Z.max_l 0 (- (k + 1))) in Hu by lia.
    change (2 ^ 0) with 1 in Hl, Hu. rewrite Z.mul_1_r in Hl, Hu.
    assert (Hk1000 : k < 1000).
    { destruct (Z_lt_le_dec k 1000) as [|Hge]; [assumption|]. exfalso.
      assert (2 ^ 1000 <= 2 ^ k) by (apply Z.pow_le_mono_r; lia).
      assert (0 < 2 ^ 1000) by reflexivity.
      clearbody k a. nia. }
    assert (Hpe : 0 < 2 ^ e) by (apply Z.pow_pos_nonneg; lia).
    assert (Hsplit : 2 ^ (k + 1) = 2 ^ e * 2 ^ 53).
    { rewrite <- Z.pow_add_r by lia. f_equal. lia. }
    pose proof (round_even_near (a * 2 ^ Z.max 0 (- e)) (Zpos d * 2 ^ Z.max 0 e))
      as Hnear.
    fold m in Hnear.
    rewrite (Z.max_l 0 (- e)), (Z.max_r 0 e) in Hnear by lia.
    change (2 ^ 0) with 1 in Hnear. rewrite Z.mul_1_r in Hnear.
    specialize (Hnear ltac:(lia)).
    assert (Hm : m <= 2 ^ 53).
    { rewrite Hsplit in Hu. change (2 ^ 53) with 9007199254740992 in *.
      clearbody m e k a. nia. }
    assert (Hme : m * 2 ^ e <= 2 ^ (k + 1)).
    { rewrite Hsplit. clearbody m e k. nia. }
    assert (2 ^ (k + 1) <= 2 ^ 1000) by (apply Z.pow_le_mono_r; lia).
    assert (2 ^ 1000 < 2 ^ 1024) by reflexivity.
    lia. }
  fold k. fold e. fold m. rewrite Hov.
  destruct (_ =? 0); eauto.
Qed.

(** *** Products by [0.2] *)

Lemma Qfloor_unique (x : Q) (z : Z) :
  (inject_Z z <= x)%Q -> (x < inject_Z z + 1)%Q -> Qfloor x = z.
Proof.
  intros H1 H2.
  pose proof (Qfloor_le x) as F1. pose proof (Qlt_floor x) as F2.
  rewrite inject_Z_plus in F2. change (inject_Z 1) with 1%Q in F2.
  assert (A : (inject_Z (Qfloor x) < inject_Z z + 1)%Q) by lra.
  assert (B : (inject_Z z < inject_Z (Qfloor x) + 1)%Q) by lra.
  change 1%Q with (inject_Z 1) in A, B.
  rewrite <- inject_Z_plus in A, B.
  rewrite <- Zlt_Qlt in A, B. lia.
Qed.

Lemma to_double_fifth : Num.to_double (Fin (2 # 10)) = Fin fifth.
Proof. vm_compute. reflexivity. Qed.

Lemma to_double_12 : Num.to_double (Fin 12) = Fin 12.
Proof. vm_compute. reflexivity. Qed.

(** [v * 0.2] on a whole number [v]. *)
Lemma fmul_fifth v :
  Z.abs v < 2 ^ 53 ->
  Num.fmul (Num.of_Z v) (Fin (2 # 10)) = Num.double (inject_Z v * fifth).
Proof.
  intros Hv. unfold Num.fmul. rewrite to_double_fifth.
  unfold Num.to_double at 2. unfold Num.of_Z at 1.
  rewrite (double_small_Z v Hv). reflexivity.
Qed.

Lemma fifth_product_range v :
  1 <= v <= 2 ^ 50 ->
  (Num.pow2 (-1022) <= inject_Z v * fifth)%Q
  /\ (inject_Z v * fifth < Num.pow2 53)%Q.
Proof.
  intros Hv.
  assert (H1 : (1 <= inject_Z v)%Q) by (unfold Qle; cbn; lia).
  assert (H2 : (inject_Z v <= 1125899906842624)%Q)
    by (unfold Qle; cbn; lia).
  pose proof pow2_normal_min. rewrite pow2_53.
  change (inject_Z 9007199254740992) with 9007199254740992%Q.
  unfold fifth. split; lra.
Qed.

(** [Math.round(v * 0.2)] for a whole number [v] up to [2^50]: a fifth of
    [v], rounded half up. *)
Lemma round_fifth_whole v :
  1 <= v <= 2 ^ 50 ->
  Num.round (Num.fmul (Num.of_Z v) (Fin (2 # 10)))
  = Num.of_Z ((2 * v + 5) / 10).
Proof.
  intros Hv.
  assert (Hv53 : Z.abs v < 2 ^ 53).
  { assert (2 ^ 50 < 2 ^ 53) by reflexivity. lia. }
  rewrite (fmul_fifth v Hv53).
  destruct (fifth_product_range v Hv) as [Hlo Hhi].
  destruct (double_error _ Hlo Hhi) as (r & -> & E1 & E2).
  unfold Num.round. f_equal.
  assert (H2 : (inject_Z v <= 1125899906842624)%Q)
    by (unfold Qle; cbn; lia).
  assert (H1 : (1 <= inject_Z v)%Q) by (unfold Qle; cbn; lia).
  set (z := (2 * v + 5) / 10).
  assert (Hz : 10 * z <= 2 * v + 5 <= 10 * z + 9).
  { subst z. Z.div_mod_to_equations; lia. }
  clearbody z.
  (* 2v + 5 is odd, 10z and 10z + 10 are even *)
  assert (Za : (10 * inject_Z z - 4 <= 2 * inject_Z v)%Q)
    by (unfold Qle; cbn; lia).
  assert (Zb : (2 * inject_Z v <= 10 * inject_Z z + 4)%Q)
    by (unfold Qle; cbn; lia).
  unfold Num.half_ulp, fifth in *.
  apply Qfloor_unique; lra.
Qed.

(** [Math.round(v * 0.2 / 12)] for a whole number [v] up to [2^50]: a
    sixtieth of [v], rounded half up. *)
Lemma round_sixtieth_whole v :
  1 <= v <= 2 ^ 50 ->
  Num.round (Num.fdiv (Num.fmul (Num.of_Z v) (Fin (2 # 10))) (Fin 12))
  = Num.of_Z ((v + 30) / 60).
Proof.
  intros Hv.
  assert (Hv53 : Z.abs v < 2 ^ 53).
  { assert (2 ^ 50 < 2 ^ 53) by reflexivity. lia. }
  assert (Hp50 : 2 ^ 50 = 1125899906842624) by reflexivity.
  assert (Hp53 : 2 ^ 53 = 9007199254740992) by reflexivity.
  rewrite (fmul_fifth v Hv53).
  destruct (fifth_product_range v Hv) as [Hlo Hhi].
  assert (H2 : (inject_Z v <= 1125899906842624)%Q) by (unfold Qle; cbn; lia).
  assert (H1 : (1 <= inject_Z v)%Q) by (unfold Qle; cbn; lia).
  pose proof pow2_normal_min as Hmin.
  unfold Num.fdiv. rewrite to_double_12.
  set (z := (v + 30) / 60).
  assert (Hz : 60 * z <= v + 30 <= 60 * z + 59).
  { subst z. Z.div_mod_to_equations; lia. }
  clearbody z.
  destruct (Z.eq_dec (v + 30) (60 * z)) as [Htie | Hne].
  - (* the tie: v * 0.2 and its twelfth are computed exactly *)
    set (N := 12 * z - 6).
    assert (HN : v = 5 * N) by (subst N; lia).
    assert (HNr : 1 <= N < 2 ^ 53) by lia.
    assert (HNq : (inject_Z v == 5 * inject_Z N)%Q)
      by (rewrite HN, inject_Z_mult; reflexivity).
    destruct (double_integer (inject_Z v * fifth) N HNr) as (r1 & E1 & V1).
    { rewrite HNq. unfold fifth. lra. }
    { rewrite HNq. unfold fifth.
      assert (0 <= inject_Z N)%Q by (unfold Qle; cbn; lia). lra. }
    rewrite E1. unfold Num.to_double at 2.
    destruct (double_integer r1 N HNr) as (r2 & E2 & V2).
    { rewrite V1. lra. }
    { rewrite V1. assert (0 <= inject_Z N)%Q by (unfold Qle; cbn; lia). lra. }
    rewrite E2. unfold Num.div. change (Qeq_bool 12 0) with false. cbv iota.
    unfold Num.to_double.
    assert (Hz12 : (inject_Z N == 12 * inject_Z z - 6)%Q).
    { subst N. unfold Qeq. cbn. lia. }
    destruct (double_half (r2 / 12) (2 * z - 1)) as (r3 & E3 & V3).
    { lia. }
    { rewrite V2, Hz12. unfold Qeq. cbn. lia. }
    rewrite E3. unfold Num.round. f_equal.
    apply Qfloor_unique; rewrite V3, V2, Hz12.
    + unfold Qle. cbn. lia.
    + unfold Qlt. cbn. lia.
  - assert (Za : (60 * inject_Z z - 29 <= inject_Z v)%Q)
      by (unfold Qle; cbn; lia).
    assert (Zb : (inject_Z v <= 60 * inject_Z z + 29)%Q)
      by (unfold Qle; cbn; lia).
    destruct (double_error _ Hlo Hhi) as (r1 & E1 & A1 & B1).
    rewrite E1. unfold Num.to_double at 2.
    unfold Num.half_ulp, fifth in *. rewrite pow2_53 in *.
    change (inject_Z 9007199254740992) with 9007199254740992%Q in *.
    destruct (double_error r1) as (r2 & E2 & A2 & B2).
    { lra. }
    { rewrite pow2_53.
      change (inject_Z 9007199254740992) with 9007199254740992%Q. lra. }
    rewrite E2. unfold Num.div. change (Qeq_bool 12 0) with false. cbv iota.
    unfold Num.to_double. change (r2 / 12)%Q with (r2 * (1 # 12))%Q.
    destruct (double_error (r2 * (1 # 12))) as (r3 & E3 & A3 & B3).
    { unfold Num.half_ulp in *. lra. }
    { rewrite pow2_53.
      change (inject_Z 9007199254740992) with 9007199254740992%Q.
      unfold Num.half_ulp in *. lra. }
    rewrite E3. unfold Num.round. f_equal.
    unfold Num.half_ulp in *.
    apply Qfloor_unique; lra.
Qed.

(** ** Ingestion: numeric coercion *)

Section RowFacts.

Variable Date_parse : string -> option Z.
Variable LocalTZA : Z.
Variable uid : string.

Local Abbreviation processRow := (CsvService.processRow Date_parse LocalTZA uid).

(** A missing or empty cell is replaced by [0] before parsing. *)
Lemma parseInt_or_0_falsy v :
  CsvService.truthy v = false -> CsvService.parseInt_or_0 v = Fin 0.
Proof.
  intros H. unfold CsvService.parseInt_or_0, CsvService.or. now rewrite H.
Qed.

Lemma parseFloat_or_0_falsy v :
  CsvService.truthy v = false -> CsvService.parseFloat_or_0 v = Fin 0.
Proof.
  intros H. unfold CsvService.parseFloat_or_0, CsvService.or. now rewrite H.
Qed.

Lemma or_falsy a b :
  CsvService.truthy a = false -> CsvService.truthy b = false ->
  CsvService.truthy (CsvService.or a b) = false.
Proof. intros Ha Hb. unfold CsvService.or. now rewrite Ha. Qed.

(** When every alias of a numeric field is missing from the row, the
    field of the record is [0]. *)
Lemma processRow_missing_is_zero (data : CsvService.row) :
  (data !! "totalGrants" = None -> data !! "total_grants" = None ->
   data !! "grants" = None ->
   CsvService.totalGrants (processRow data) = Fin 0)
  /\ (data !! "vested" = None -> CsvService.vested (processRow data) = Fin 0)
  /\ (data !! "unvested" = None ->
      CsvService.unvested (processRow data) = Fin 0)
  /\ (data !! "exercised" = None ->
      CsvService.exercised (processRow data) = Fin 0)
  /\ (data !! "exercisePrice" = None -> data !! "exercise_price" = None ->
      data !! "price" = None ->
      CsvService.exercisePrice (processRow data) = Fin 0).
Proof.
  repeat split; intros; cbn [processRow CsvService.processRow
    CsvService.totalGrants CsvService.vested CsvService.unvested
    CsvService.exercised CsvService.exercisePrice];
  repeat match goal with H : _ !! _ = None |- _ => rewrite H; clear H end;
  reflexivity.
Qed.

End RowFacts.

(** C1, at the failing input.  A row whose [vested] cell is the text
    ["many"] and whose [exercisePrice] cell is ["n/a"] is turned into a record
    whose [vested] and [exercisePrice] are [NaN], not zero: the [|| 0]
    fallback replaces only a missing or empty cell, and [parseInt] and
    [parseFloat] return [NaN] on text without a numeric prefix. *)
Theorem processRow_non_numeric_is_NaN :
  forall (Date_parse : string -> option Z) (LocalTZA : Z) (uid : string),
    let data : CsvService.row :=
      {[ "ticker" := "abc"; "vested" := "many"; "exercisePrice" := "n/a" ]} in
    let r := CsvService.processRow Date_parse LocalTZA uid data in
    CsvService.vested r = NaN
    /\ CsvService.exercisePrice r = NaN
    /\ CsvService.vested r <> Fin 0
    /\ CsvService.exercisePrice r <> Fin 0
    /\ CsvService.totalGrants r = Fin 0.
Proof.
  intros dp tz uid data r.
  assert (Hv : CsvService.vested r = NaN) by (vm_compute; reflexivity).
  assert (Hp : CsvService.exercisePrice r = NaN) by (vm_compute; reflexivity).
  assert (Ht : CsvService.totalGrants r = Fin 0) by (vm_compute; reflexivity).
  rewrite Hv, Hp, Ht. repeat split; discriminate.
Qed.

(** ** Ingestion: failure phases *)

Section IngestionFacts.

Context {E : Type}.
Variable Date_parse : string -> option Z.
Variable LocalTZA : Z.
Variable fault : CsvService.db_op -> option string.

Local Abbreviation ingest :=
  (CsvService.parseAndSaveEsopCSV (E := E) Date_parse LocalTZA fault).
Local Abbreviation on_end := (CsvService.on_end (E := E) fault).

(** A failing call rejects with a [DatabaseError] that carries the message
    of the collaborator, whichever of the three calls it is. *)
Lemma on_end_rejects uid results st :
  (exists op, is_Some (fault op)) ->
  exists message st',
    on_end uid results st
    = (CsvService.Rejected (CsvService.DatabaseError message), st').
Proof.
  intros [op Hop].
  unfold CsvService.on_end, CsvService.db_bind, CsvService.countDocuments,
    CsvService.deleteMany, CsvService.insertMany, CsvService.issue,
    CsvService.db_ret.
  destruct (fault CsvService.CountDocuments) as [m1|] eqn:H1;
    [eauto|].
  destruct (fault CsvService.DeleteMany) as [m2|] eqn:H2; [eauto|].
  destruct (fault CsvService.InsertMany) as [m3|] eqn:H3; [eauto|].
  destruct op; rewrite ?H1, ?H2, ?H3 in Hop; destruct Hop; discriminate.
Qed.

(** Without a failing call the three calls are issued in order, the
    owner's documents are replaced by the new batch, and the promise
    resolves with it. *)
Lemma on_end_resolves uid results st :
  (forall op, fault op = None) ->
  on_end uid results st
  = (CsvService.Resolved results true,
     {| CsvService.docs :=
          (filter (fun r => CsvService.owned_by uid r = false)
             (CsvService.docs st) ++ results)%list;
        CsvService.calls :=
          (CsvService.calls st
           ++ [CsvService.CountDocuments; CsvService.DeleteMany;
               CsvService.InsertMany])%list |}).
Proof.
  intros H.
  unfold CsvService.on_end, CsvService.db_bind, CsvService.countDocuments,
    CsvService.deleteMany, CsvService.insertMany, CsvService.issue,
    CsvService.db_ret.
  rewrite !H. cbn. rewrite <- !app_assoc. reflexivity.
Qed.

End IngestionFacts.

(** An error of the parser rejects the promise with that error, passed on
    as it is, and leaves the storage exactly as before: no call at all is
    issued to the collaborator. *)
Lemma parseAndSaveEsopCSV_parser_error :
  forall (E : Type) (Date_parse : string -> option Z) (LocalTZA : Z)
         (fault : CsvService.db_op -> option string)
         (rows : list CsvService.row) (uid : string) (st : CsvService.storage)
         (err : E),
    CsvService.parseAndSaveEsopCSV Date_parse LocalTZA fault
      {| CsvService.rows := rows;
         CsvService.last_event :=
           CsvService.StreamError CsvService.CsvStream err |} uid st
    = (CsvService.Rejected (CsvService.StreamFailure err), st).
Proof. reflexivity. Qed.

(** When the parser ends and one of the three calls fails, the promise is
    rejected with a [DatabaseError]. *)
Lemma parseAndSaveEsopCSV_storage_error :
  forall (E : Type) (Date_parse : string -> option Z) (LocalTZA : Z)
         (fault : CsvService.db_op -> option string)
         (rows : list CsvService.row) (uid : string) (st : CsvService.storage),
    (exists op, is_Some (fault op)) ->
    exists message st',
      CsvService.parseAndSaveEsopCSV (E := E) Date_parse LocalTZA fault
        {| CsvService.rows := rows;
           CsvService.last_event := CsvService.StreamEnd |} uid st
      = (CsvService.Rejected (CsvService.DatabaseError message), st').
Proof.
  intros E dp tz fault rows uid st H.
  unfold CsvService.parseAndSaveEsopCSV. cbn [CsvService.last_event].
  now apply on_end_rejects.
Qed.

(** C2, at the failing input.  The file cannot be read: the file stream
    emits ["error"].  The handlers of [parseAndSaveEsopCSV] are registered
    on the parser that [pipe] returns and [pipe] does not pass the error
    on, so neither [reject] nor [resolve] is ever called: the promise is
    not rejected (with a parse error or with anything else), it stays
    pending while the error is thrown as an uncaught exception.  The
    storage is untouched, whatever rows were delivered before. *)
Theorem parseAndSaveEsopCSV_file_error_unhandled :
  forall (E : Type) (Date_parse : string -> option Z) (LocalTZA : Z)
         (fault : CsvService.db_op -> option string)
         (rows : list CsvService.row) (uid : string) (st : CsvService.storage)
         (err : E),
    let run :=
      CsvService.parseAndSaveEsopCSV Date_parse LocalTZA fault
        {| CsvService.rows := rows;
           CsvService.last_event :=
             CsvService.StreamError CsvService.FileStream err |} uid st in
    CsvService.has_error_listener CsvService.FileStream = false
    /\ fst run = CsvService.Pending err
    /\ (forall reason, fst run <> CsvService.Rejected reason)
    /\ (forall data validationPassed,
           fst run <> CsvService.Resolved data validationPassed)
    /\ snd run = st.
Proof.
  intros E dp tz fault rows uid st err run.
  repeat split; intros; discriminate.
Qed.

(** ** The date normalizer *)

Section ParseDateFacts.

Variable Date_parse : string -> option Z.
Variable LocalTZA : Z.

Local Abbreviation parseDate := (CsvService.parseDate Date_parse LocalTZA).

(** A missing or empty date gives [null] without any parse. *)
Lemma parseDate_empty : parseDate None = None /\ parseDate (Some "") = None.
Proof. split; reflexivity. Qed.

(** The native parse is tried first and wins when it succeeds. *)
Lemma parseDate_native_first s t :
  s <> "" -> Date_parse s = Some t -> parseDate (Some s) = Some t.
Proof.
  intros Hs Ht. unfold CsvService.parseDate.
  destruct s; [congruence|]. cbn [Str.truthy negb]. now rewrite Ht.
Qed.

(** When the native parse fails, a string of three ['/']-separated parts
    is read as month/day/year, and only if that gives no valid date a
    string of three ['-']-separated parts is read as day-month-year. *)
Lemma parseDate_fallbacks s :
  s <> "" -> Date_parse s = None ->
  parseDate (Some s)
  = match
      match Str.split "/" s with
      | [m; d; y] =>
          CsvService.new_Date LocalTZA y (Str.ToNumber m - Fin 1)%num d
      | _ => None
      end
    with
    | Some date => Some date
    | None =>
        match Str.split "-" s with
        | [d; m; y] =>
            CsvService.new_Date LocalTZA y (Str.ToNumber m - Fin 1)%num d
        | _ => None
        end
    end.
Proof.
  intros Hs Ht. unfold CsvService.parseDate.
  destruct s; [congruence|]. cbn [Str.truthy negb]. now rewrite Ht.
Qed.

End ParseDateFacts.

(** With an engine that recognises neither form, both fallbacks read the
    components as the formats say. *)
Example parseDate_slash_month_first :
  JSDate.local_calendar 19800000
    <$> CsvService.parseDate (fun _ => None) 19800000 (Some "12/25/2024")
  = Some (2024, 12, 25).
Proof. vm_compute. reflexivity. Qed.

Example parseDate_dash_day_first :
  JSDate.local_calendar 19800000
    <$> CsvService.parseDate (fun _ => None) 19800000 (Some "25-12-2024")
  = Some (2024, 12, 25).
Proof. vm_compute. reflexivity. Qed.

Example parseDate_unparseable :
  CsvService.parseDate (fun _ => None) 0 (Some "next tuesday") = None.
Proof. vm_compute. reflexivity. Qed.

(** Under V8 a day-first date whose day is above 12 is rejected by the native
    parse and reaches the day-month-year fallback. *)
Example parseDate_v8_day_above_12 :
  JSDate.local_calendar 19800000
    <$> CsvService.parseDate (JSDate.Date_parse_v8 19800000) 19800000
          (Some "25-12-2024")
  = Some (2024, 12, 25).
Proof. vm_compute. reflexivity. Qed.

(** The native parse of ["05-06-2024"] under V8: local midnight of 6 May
    2024, day number 19849. *)
Lemma Date_parse_v8_05_06_2024 tz :
  JSDate.Date_parse_v8 tz "05-06-2024"
  = JSDate.TimeClip (19849 * JSDate.msPerDay - tz).
Proof.
  unfold JSDate.Date_parse_v8.
  replace (JSDate.three_groups "05-06-2024")
    with (Some ([0; 5], [0; 6], [2; 0; 2; 4], "-"%char))
    by (vm_compute; reflexivity).
  cbv beta iota zeta.
  match goal with
  | |- (if ?c then _ else _) = _ =>
      replace c with false by (vm_compute; reflexivity)
  end.
  reflexivity.
Qed.

Lemma TimeClip_in_range t :
  Z.abs t <= 8640000000000000 -> JSDate.TimeClip t = Some t.
Proof.
  intros H. unfold JSDate.TimeClip.
  destruct (Z.leb_spec (Z.abs t) 8640000000000000); [reflexivity | lia].
Qed.

(** C3, at the failing input.  ["05-06-2024"] is a day-month-year date
    (5 June 2024), the format the third step of [parseDate] handles.  Under
    V8 the first step, the native parse, already accepts the string and reads
    it month first, so [parseDate] returns [new Date(2024, 4, 6)]: local
    midnight of 6 May 2024, whose calendar date is not the 5 June the
    literal components spell. *)
Theorem parseDate_day_first_read_month_first :
  forall tz : Z,
    Z.abs tz <= JSDate.msPerDay ->
    let d :=
      CsvService.parseDate (JSDate.Date_parse_v8 tz) tz (Some "05-06-2024") in
    d = JSDate.Date_ymd tz (Fin 2024) (Fin 4) (Fin 6)
    /\ JSDate.local_calendar tz <$> d = Some (2024, 5, 6)
    /\ JSDate.local_calendar tz <$> d <> Some (2024, 6, 5).
Proof.
  intros tz Htz d.
  assert (Hd : d = Some (19849 * JSDate.msPerDay - tz)).
  { subst d. unfold JSDate.msPerDay in *.
    erewrite parseDate_native_first; [reflexivity | discriminate |].
    rewrite Date_parse_v8_05_06_2024. apply TimeClip_in_range.
    unfold JSDate.msPerDay. lia. }
  assert (Hc : JSDate.local_calendar tz <$> d = Some (2024, 5, 6)).
  { rewrite Hd. cbn [fmap option_fmap option_map]. f_equal.
    unfold JSDate.local_calendar.
    replace (19849 * JSDate.msPerDay - tz + tz) with (19849 * JSDate.msPerDay)
      by lia.
    unfold JSDate.msPerDay. rewrite Z.div_mul by lia.
    vm_compute. reflexivity. }
  split; [| split].
  - rewrite Hd. unfold JSDate.Date_ymd.
    change (JSDate.MakeDay (JSDate.MakeFullYear (Fin 2024)) (Fin 4) (Fin 6))
      with (Some 19849).
    symmetry. apply TimeClip_in_range. unfold JSDate.msPerDay in *. lia.
  - exact Hc.
  - rewrite Hc. discriminate.
Qed.

Lemma parseDate_day_first_read_month_first_witness :
  let d :=
    CsvService.parseDate (JSDate.Date_parse_v8 19800000) 19800000
      (Some "05-06-2024") in
  d = JSDate.Date_ymd 19800000 (Fin 2024) (Fin 4) (Fin 6)
  /\ JSDate.local_calendar 19800000 <$> d = Some (2024, 5, 6)
  /\ JSDate.local_calendar 19800000 <$> d <> Some (2024, 6, 5).
Proof.
  apply (parseDate_day_first_read_month_first 19800000).
  unfold JSDate.msPerDay. lia.
Defined.

(** ** The Monte Carlo projector *)

Lemma same_repr_eq a b : Num.same_repr a b = true -> a = b.
Proof.
  destruct a as [| | |[xn xd]], b as [| | |[yn yd]]; cbn; try discriminate;
    try reflexivity.
  intros H. apply andb_true_iff in H as [H1 H2].
  apply Z.eqb_eq in H1. apply Pos.eqb_eq in H2. now subst.
Qed.



(** Lookup of a name that is neither an own property nor inherited. *)
Lemma get_undefined {A} (own : list (string * A)) key :
  Obj.assoc own key = None ->
  existsb (String.eqb key) Obj.prototype_names = false ->
  Obj.get own key = Obj.Undefined.
Proof. intros H1 H2. unfold Obj.get. now rewrite H1, H2. Qed.


(** The twelve names inherited from [Object.prototype] are the strings on
    which the [||] fallback is not taken: [riskProfiles["constructor"]] is
    the inherited function, which is truthy, and both [mean] and [stdDev]
    are [undefined].  [runSimulation] is private to its module and is never
    called with such a name. *)
Lemma riskParameters_inherited_name :
  SuccessProbability.riskParameters "constructor" = (None, None)
  /\ SuccessProbability.riskParameters "constructor"
     <> SuccessProbability.riskParameters "medium"
  /\ SuccessProbability.riskParameters "medium"
     = (Some (Fin (9 # 100)), Some (Fin (15 # 100))).
Proof. repeat split. discriminate. Qed.



Section SimulationFacts.

Variable rng : Type.
Variable Math_random : rng -> number * rng.
Variables Math_log Math_sqrt Math_cos : number -> number.
Variable Math_PI : number.
Variable ToString_other : Q -> string.

Local Abbreviation draw :=
  (SuccessProbability.draw_annualReturn rng Math_random Math_log Math_sqrt
     Math_cos Math_PI).
Local Abbreviation years_loop :=
  (SuccessProbability.years_loop rng Math_random Math_log Math_sqrt
     Math_cos Math_PI).
Local Abbreviation scenarios_loop :=
  (SuccessProbability.scenarios_loop rng Math_random Math_log Math_sqrt
     Math_cos Math_PI).
Local Abbreviation runSimulation :=
  (SuccessProbability.runSimulation rng Math_random Math_log Math_sqrt
     Math_cos Math_PI ToString_other).
Local Abbreviation probability_of_count :=
  (SuccessProbability.probability_of_count ToString_other).

(** Every count of successes in 0..1000 is reported as the decimal with
    two fraction digits that equals a tenth of the count. *)
Lemma probability_of_count_value k :
  (k <= 1000)%nat ->
  probability_of_count k = Fin ((Z.of_nat k * 10) # 100).
Proof.
  intros Hk.
  assert (Hall :
    forallb
      (fun k => Num.same_repr (probability_of_count k)
                  (Fin ((Z.of_nat k * 10) # 100)))
      (seq 0 1001) = true) by (vm_compute; reflexivity).
  rewrite forallb_forall in Hall.
  apply same_repr_eq, Hall, in_seq. lia.
Qed.

(** The count can only grow, by at most one per scenario. *)
Lemma scenarios_loop_bounds m s years init goal n c g :
  (c <= fst (scenarios_loop m s years init goal n c g) <= c + n)%nat.
Proof.
  revert c g. induction n as [|n IH]; intros c g; cbn.
  - lia.
  - destruct (years_loop m s years init g) as [v g1].
    match goal with
    | |- context [scenarios_loop _ _ _ _ _ _ ?c' ?g'] =>
        specialize (IH c' g')
    end.
    destruct (Num.geb v goal); lia.
Qed.

Lemma scenarios_loop_all m s years init goal n c g :
  (forall g', Num.geb (fst (years_loop m s years init g')) goal = true) ->
  fst (scenarios_loop m s years init goal n c g) = (c + n)%nat.
Proof.
  intros H. revert c g. induction n as [|n IH]; intros c g; cbn.
  - lia.
  - specialize (H g). destruct (years_loop m s years init g) as [v g1].
    cbn in H. rewrite H, IH. lia.
Qed.

Lemma scenarios_loop_none m s years init goal n c g :
  (forall g', Num.geb (fst (years_loop m s years init g')) goal = false) ->
  fst (scenarios_loop m s years init goal n c g) = c.
Proof.
  intros H. revert c g. induction n as [|n IH]; intros c g; cbn.
  - reflexivity.
  - specialize (H g). destruct (years_loop m s years init g) as [v g1].
    cbn in H. rewrite H, IH. reflexivity.
Qed.

(** Compounding keeps a finite non-negative value finite and non-negative
    as long as every return drawn is finite and at least -1. *)
Lemma years_loop_nonneg m s n :
  (forall g, exists r, fst (draw m s g) = Fin r /\ (-1 <= r)%Q) ->
  forall q g, (0 <= q)%Q ->
    exists q', fst (years_loop m s n (Fin q) g) = Fin q' /\ (0 <= q')%Q.
Proof.
  intros Hr. induction n as [|n IH]; intros q g Hq; cbn.
  - eauto.
  - unfold SuccessProbability.year_step.
    destruct (Hr g) as (r & Heq & Hge).
    destruct (draw m s g) as [a g1]. cbn in Heq. subst a.
    cbn. apply IH. nra.
Qed.

(** The reported probability always lies in [0, 100] and has two
    decimals. *)
Lemma runSimulation_probability risk h init goal g :
  exists k : nat,
    (k <= 1000)%nat
    /\ SuccessProbability.successProbability
         (fst (runSimulation risk h init goal g))
       = Fin ((Z.of_nat k * 10) # 100).
Proof.
  unfold SuccessProbability.runSimulation.
  destruct (SuccessProbability.riskParameters risk) as [m s].
  pose proof (scenarios_loop_bounds m s (SuccessProbability.year_count h)
                init goal SuccessProbability.scenarios 0 g) as Hb.
  destruct (scenarios_loop m s (SuccessProbability.year_count h) init goal
              SuccessProbability.scenarios 0 g) as [k g1].
  cbn [fst SuccessProbability.successProbability] in *.
  exists k. unfold SuccessProbability.scenarios in Hb.
  split; [lia | apply probability_of_count_value; lia].
Qed.

End SimulationFacts.

(** With a name inherited from [Object.prototype] as risk tolerance, every
    simulated year turns the value into [NaN], so that no scenario succeeds
    and the reported probability is 0 whatever the goal. *)
Lemma runSimulation_inherited_name :
  forall (rng : Type) (Math_random : rng -> number * rng)
         (Math_log Math_sqrt Math_cos : number -> number) (Math_PI : number)
         (ToString_other : Q -> string)
         (timeHorizon : Q) (initialInvestment goalAmount : number) (g : rng),
    (0 < timeHorizon)%Q ->
    SuccessProbability.successProbability
      (fst (SuccessProbability.runSimulation rng Math_random Math_log
              Math_sqrt Math_cos Math_PI ToString_other
              "constructor" timeHorizon initialInvestment goalAmount g))
    = Fin (0 # 100).
Proof.
  intros rng rnd lg sq cs pi tso h init goal g Hh.
  unfold SuccessProbability.runSimulation.
  change (SuccessProbability.riskParameters "constructor") with
    (@None number, @None number).
  cbv beta iota.
  assert (Hn : exists n, SuccessProbability.year_count h = S n).
  { unfold SuccessProbability.year_count.
    assert (0 < Qceiling h)%Z.
    { pose proof (Qle_ceiling h) as Hc.
      destruct (Z_lt_le_dec 0 (Qceiling h)) as [|Hle]; [assumption|].
      exfalso. assert (inject_Z (Qceiling h) <= 0)%Q.
      { change 0%Q with (inject_Z 0). now rewrite <- Zle_Qle. }
      lra. }
    exists (Z.to_nat (Qceiling h) - 1)%nat. lia. }
  destruct Hn as [n Hn]. rewrite Hn.
  assert (Hnan : forall k g', fst (SuccessProbability.years_loop rng rnd lg sq
                                      cs pi None None k NaN g') = NaN).
  { induction k as [|k IH]; intros g'; cbn; [reflexivity|].
    unfold SuccessProbability.year_step, SuccessProbability.draw_annualReturn.
    destruct (rnd g') as [u1 g1]. destruct (rnd g1) as [u2 g2]. apply IH. }
  assert (Hyears : forall g',
    Num.geb (fst (SuccessProbability.years_loop rng rnd lg sq cs pi None None
                    (S n) init g')) goal = false).
  { intros g'. cbn.
    unfold SuccessProbability.year_step, SuccessProbability.draw_annualReturn.
    destruct (rnd g') as [u1 g1]. destruct (rnd g1) as [u2 g2].
    replace (init * (Fin 1 + (to_number None + _ * to_number None)))%num
      with NaN by (destruct init; reflexivity).
    now rewrite Hnan. }
  pose proof (scenarios_loop_none rng rnd lg sq cs pi None None (S n) init goal
                SuccessProbability.scenarios 0 g Hyears) as Hcount.
  destruct (SuccessProbability.scenarios_loop rng rnd lg sq cs pi None None
              (S n) init goal SuccessProbability.scenarios 0 g) as [k g1].
  cbn [fst SuccessProbability.successProbability] in *. subst k.
  vm_compute. reflexivity.
Qed.

(** *** The batch: nested loops over risk keys and horizons *)

(** The nested loops, over any loop body that stores the cell of its risk
    key and horizon and keeps every other cell. *)
Section Loops.

Context {G P : Type}.
Local Abbreviation table := (gmap string (gmap string P)).
Local Abbreviation cell := (@SuccessProbability.cell P).

Variable body : string -> table * G -> Z -> table * G.
Variable key_of : Z -> string.
Variable good : string -> Z -> P -> Prop.

Hypothesis body_stores : forall risk res g h,
  exists p,
    cell (fst (body risk (res, g) h)) risk (key_of h) p /\ good risk h p.
Hypothesis body_keeps : forall risk res g h risk' k p,
  risk' <> risk \/ k <> key_of h ->
  cell res risk' k p -> cell (fst (body risk (res, g) h)) risk' k p.

Lemma inner_keeps risk hs acc risk' k p :
  risk' <> risk \/ k ∉ map key_of hs ->
  cell (fst acc) risk' k p ->
  cell (fst (fold_left (body risk) hs acc)) risk' k p.
Proof.
  revert acc. induction hs as [|h hs IH]; intros [res g] Hne Hc.
  - exact Hc.
  - assert (Hsplit :
      risk' <> risk \/ (k <> key_of h /\ k ∉ map key_of hs)).
    { destruct Hne as [Hr | Hk]; [left; exact Hr | right].
      cbn [map] in Hk. apply not_elem_of_cons in Hk. exact Hk. }
    cbn [fold_left]. apply IH.
    + destruct Hsplit as [Hr | [_ Hk]]; [left; exact Hr | right; exact Hk].
    + apply body_keeps; [|exact Hc].
      destruct Hsplit as [Hr | [Hk _]]; [left; exact Hr | right; exact Hk].
Qed.

Lemma inner_cells risk hs acc :
  NoDup (map key_of hs) ->
  forall h, h ∈ hs ->
    exists p,
      cell (fst (fold_left (body risk) hs acc)) risk (key_of h) p
      /\ good risk h p.
Proof.
  revert acc. induction hs as [|h0 hs IH]; intros [res g] Hnd h Hin.
  - now apply elem_of_nil in Hin.
  - cbn [map] in Hnd. apply NoDup_cons in Hnd as [Hfresh Hnd].
    cbn [fold_left].
    apply elem_of_cons in Hin as [-> | Hin].
    + destruct (body_stores risk res g h0) as (p & Hc & Hs).
      exists p. split; [|exact Hs].
      apply inner_keeps; [right; exact Hfresh | exact Hc].
    + apply IH; assumption.
Qed.

Lemma outer_keeps risks hs acc risk' k p :
  risk' ∉ risks ->
  cell (fst acc) risk' k p ->
  cell (fst (fold_left (fun acc risk => fold_left (body risk) hs acc)
               risks acc))
    risk' k p.
Proof.
  revert acc.
  induction risks as [|r risks IH]; intros acc Hne Hc; cbn [fold_left].
  - exact Hc.
  - apply not_elem_of_cons in Hne as [Hr Hne].
    apply IH; [exact Hne|]. apply inner_keeps; [left; exact Hr | exact Hc].
Qed.

Lemma outer_cells risks hs acc :
  NoDup risks -> NoDup (map key_of hs) ->
  forall risk h, risk ∈ risks -> h ∈ hs ->
    exists p,
      cell (fst (fold_left (fun acc risk => fold_left (body risk) hs acc)
                   risks acc))
        risk (key_of h) p
      /\ good risk h p.
Proof.
  intros Hr Hh. revert acc.
  induction risks as [|r risks IH]; intros acc risk h Hin Hin'.
  - now apply elem_of_nil in Hin.
  - apply NoDup_cons in Hr as [Hfresh Hr]. cbn [fold_left].
    apply elem_of_cons in Hin as [-> | Hin].
    + destruct (inner_cells r hs acc Hh h Hin') as (p & Hc & Hs).
      exists p. split; [|exact Hs]. apply outer_keeps; assumption.
    + apply IH; assumption.
Qed.

End Loops.

Lemma insert_cell_eq {P} (results : gmap string (gmap string P)) risk key p :
  SuccessProbability.cell
    (<[risk := <[key := p]> (results !!! risk)]> results) risk key p.
Proof.
  unfold SuccessProbability.cell. rewrite lookup_insert_eq. cbn.
  apply lookup_insert_eq.
Qed.

Lemma insert_cell_ne {P} (results : gmap string (gmap string P))
    risk key p risk' key' p' :
  risk' <> risk \/ key' <> key ->
  SuccessProbability.cell results risk' key' p' ->
  SuccessProbability.cell
    (<[risk := <[key := p]> (results !!! risk)]> results) risk' key' p'.
Proof.
  unfold SuccessProbability.cell. intros Hne H.
  destruct (decide (risk = risk')) as [<- | Hr].
  - rewrite lookup_insert_eq. cbn.
    destruct (results !! risk) as [m|] eqn:Hm; [|discriminate].
    cbn in H. rewrite lookup_total_alt, Hm. cbn.
    rewrite lookup_insert_ne; [exact H | destruct Hne; congruence].
  - now rewrite lookup_insert_ne.
Qed.

(** A list of string literals without repetition. *)
Ltac distinct_strings :=
  repeat (apply NoDup_cons; split;
          [rewrite ?elem_of_cons, elem_of_nil; intuition discriminate|]);
  apply NoDup_nil_2.

Section BatchFacts.

Variable rng : Type.
Variable Math_random : rng -> number * rng.
Variables Math_log Math_sqrt Math_cos : number -> number.
Variable Math_PI : number.
Variable ToString_other : Q -> string.

Local Abbreviation run :=
  (SuccessProbability.runSimulation rng Math_random Math_log Math_sqrt
     Math_cos Math_PI ToString_other).
Local Abbreviation record :=
  (SuccessProbability.record_probability rng Math_random Math_log Math_sqrt
     Math_cos Math_PI ToString_other).
Local Abbreviation generate :=
  (SuccessProbability.generateSuccessProbabilities rng Math_random Math_log
     Math_sqrt Math_cos Math_PI ToString_other).

Lemma successProbability_range risk h init goal g :
  let p := SuccessProbability.successProbability
             (fst (run risk h init goal g)) in
  Num.geb p (Fin 0) = true /\ Num.geb (Fin 100) p = true
  /\ exists n : Z, p = Fin (n # 100).
Proof.
  intros p. subst p.
  destruct (runSimulation_probability rng Math_random Math_log Math_sqrt
              Math_cos Math_PI ToString_other risk h init goal g)
    as (k & Hk & ->).
  repeat split.
  - apply Qle_bool_iff. unfold Qle. cbn. lia.
  - apply Qle_bool_iff. unfold Qle. cbn. lia.
  - eauto.
Qed.

Lemma record_probability_stores init goal risk res g h :
  exists p,
    SuccessProbability.cell (fst (record init goal risk (res, g) h)) risk
      ("year" ++ Show.ToString ToString_other (Num.of_Z h)) p
    /\ exists g0,
         p = SuccessProbability.successProbability
               (fst (run (SuccessProbability.remove_first "Risk" risk)
                       (inject_Z h) init goal g0)).
Proof.
  unfold SuccessProbability.record_probability.
  destruct (run _ _ _ _ _) as [sim g'] eqn:E. cbn [fst].
  exists (SuccessProbability.successProbability sim). split.
  - apply insert_cell_eq.
  - exists g. now rewrite E.
Qed.

Lemma record_probability_keeps init goal risk res g h risk' k p :
  risk' <> risk \/ k <> "year" ++ Show.ToString ToString_other (Num.of_Z h) ->
  SuccessProbability.cell res risk' k p ->
  SuccessProbability.cell (fst (record init goal risk (res, g) h)) risk' k p.
Proof.
  intros Hne Hc. unfold SuccessProbability.record_probability.
  destruct (run _ _ _ _ _) as [sim g']. cbn [fst].
  apply insert_cell_ne; assumption.
Qed.

(** Every cell of the result: the probability of one simulation run with
    the batch's initial investment and goal amount. *)
Lemma generateSuccessProbabilities_cell esopData userGoals g risk h :
  risk ∈ ["lowRisk"; "mediumRisk"; "highRisk"] ->
  h ∈ SuccessProbability.horizons ->
  exists p g0,
    SuccessProbability.cell (fst (generate esopData userGoals g))
      risk ("year" ++ Show.ToString ToString_other (Num.of_Z h)) p
    /\ p = SuccessProbability.successProbability
             (fst (run (SuccessProbability.remove_first "Risk" risk)
                     (inject_Z h)
                     (SuccessProbability.initialInvestment_of esopData)
                     (SuccessProbability.goalAmount_of userGoals) g0)).
Proof.
  intros Hr Hh. unfold SuccessProbability.generateSuccessProbabilities.
  assert (Hnd1 : NoDup ["lowRisk"; "mediumRisk"; "highRisk"])
    by distinct_strings.
  assert (Hnd2 :
    NoDup (map (fun h => "year" ++ Show.ToString ToString_other (Num.of_Z h))
             SuccessProbability.horizons)).
  { change (NoDup ["year5"; "year10"; "year15"; "year20"]).
    distinct_strings. }
  destruct (outer_cells
              (record (SuccessProbability.initialInvestment_of esopData)
                 (SuccessProbability.goalAmount_of userGoals))
              (fun h => "year" ++ Show.ToString ToString_other (Num.of_Z h))
              (fun risk h p => exists g0,
                 p = SuccessProbability.successProbability
                       (fst (run (SuccessProbability.remove_first "Risk" risk)
                               (inject_Z h)
                               (SuccessProbability.initialInvestment_of esopData)
                               (SuccessProbability.goalAmount_of userGoals)
                               g0)))
              (record_probability_stores _ _) (record_probability_keeps _ _)
              ["lowRisk"; "mediumRisk"; "highRisk"]
              SuccessProbability.horizons
              ({[ "lowRisk" := ∅; "mediumRisk" := ∅; "highRisk" := ∅ ]}, g)
              Hnd1 Hnd2 risk h Hr Hh)
    as (p & Hc & g0 & Hp).
  exists p, g0. split; [exact Hc | exact Hp].
Qed.

End BatchFacts.

(** C6.  The batch derives the initial investment as the sum over the
    holdings of vested quantity times exercise price and the goal amount as
    [retirementAge * 50000]; its result holds, under each of [lowRisk],
    [mediumRisk], [highRisk] and each of [year5], [year10], [year15],
    [year20], the probability reported by one simulation run for that
    tolerance and horizon with these two amounts, and that probability lies
    in [0, 100] and is a whole number of hundredths. *)
Theorem generateSuccessProbabilities_cells :
  forall (rng : Type) (Math_random : rng -> number * rng)
         (Math_log Math_sqrt Math_cos : number -> number) (Math_PI : number)
         (ToString_other : Q -> string)
         (esopData : list CsvService.HoldingRecord) (userGoals : UserGoals)
         (g : rng),
    let initialInvestment :=
      fold_left
        (fun sum grant =>
           (sum + CsvService.vested grant * CsvService.exercisePrice grant)%num)
        esopData (Fin 0) in
    let goalAmount := (to_number (retirementAge userGoals) * Fin 50000)%num in
    let results :=
      fst (SuccessProbability.generateSuccessProbabilities rng Math_random
             Math_log Math_sqrt Math_cos Math_PI ToString_other
             esopData userGoals g) in
    Forall (fun '(risk, tolerance) =>
      Forall (fun '(key, horizon) =>
        exists p g0,
          results !! risk ≫= (fun m : gmap string number => m !! key) = Some p
          /\ p = SuccessProbability.successProbability
                   (fst (SuccessProbability.runSimulation rng Math_random
                           Math_log Math_sqrt Math_cos Math_PI ToString_other
                           tolerance (inject_Z horizon)
                           initialInvestment goalAmount g0))
          /\ Num.geb p (Fin 0) = true /\ Num.geb (Fin 100) p = true
          /\ exists n : Z, p = Fin (n # 100))
        [("year5", 5); ("year10", 10); ("year15", 15); ("year20", 20)])
      [("lowRisk", "low"); ("mediumRisk", "medium"); ("highRisk", "high")].
Proof.
  intros rng rnd lg sq cs pi tso esopData userGoals g init goal results.
  assert (Hcell : forall risk tolerance key h,
    risk ∈ ["lowRisk"; "mediumRisk"; "highRisk"] ->
    h ∈ SuccessProbability.horizons ->
    SuccessProbability.remove_first "Risk" risk = tolerance ->
    "year" ++ Show.ToString tso (Num.of_Z h) = key ->
    exists p g0,
      results !! risk ≫= (fun m : gmap string number => m !! key) = Some p
      /\ p = SuccessProbability.successProbability
               (fst (SuccessProbability.runSimulation rng rnd lg sq cs pi tso
                       tolerance (inject_Z h) init goal g0))
      /\ Num.geb p (Fin 0) = true /\ Num.geb (Fin 100) p = true
      /\ exists n : Z, p = Fin (n # 100)).
  { intros risk tolerance key h Hr Hh <- <-.
    destruct (generateSuccessProbabilities_cell rng rnd lg sq cs pi tso
                esopData userGoals g risk h Hr Hh) as (p & g0 & Hc & Hp).
    exists p, g0. split; [exact Hc | split; [exact Hp |]].
    rewrite Hp. apply successProbability_range. }
  assert (Hin : forall (A : Type) (x : A) l, In x l -> x ∈ l)
    by (intros; now apply list_elem_of_In).
  repeat (first [apply List.Forall_nil | apply List.Forall_cons];
          cbv beta iota);
    (apply Hcell; [apply Hin; cbn; tauto | apply Hin; cbn; tauto
                  | reflexivity | reflexivity]).
Qed.

(** ** The strategy synthesizer *)

(** *** The list of strategies *)


Lemma get_baseStrategies region risk :
  In risk ["low"; "medium"; "high"] ->
  exists sb,
    Obj.get (StrategyService.baseStrategies region) risk = Obj.Own sb.
Proof.
  intros [<- | [<- | [<- | []]]]; eexists; reflexivity.
Qed.



(** An unknown planning region throws as well. *)
Example generateDetailedStrategies_unknown_region :
  StrategyService.generateDetailedStrategies (fun _ => "") (fun _ => "")
    "uk" "high"
    {| currentAge := Some (Fin 30); retirementAge := Some (Fin 60);
       investmentHorizon := None; monthlyIncome := None;
       monthlyExpenses := None |}
  = StrategyService.ThrowTypeError.
Proof. reflexivity. Qed.



(** *** The ESOP strategy *)

(** The total ESOP value the strategy works with is the summary's
    [totalValue] when that is present and neither zero nor [NaN], and the
    default 100000 otherwise. *)
Lemma esopValue_of_present overview flags v :
  StrategyService.totalValue overview = Some v -> Num.truthy v = true ->
  StrategyService.esopValue_of
    {| StrategyService.esopOverview := Some overview;
       StrategyService.riskFlags := flags |} = v.
Proof.
  intros Hv Ht. unfold StrategyService.esopValue_of, StrategyService.or_number,
    Num.or. cbn. rewrite Hv. cbn. now rewrite Ht.
Qed.

Lemma esopValue_of_default flags :
  StrategyService.esopValue_of
    {| StrategyService.esopOverview := None;
       StrategyService.riskFlags := flags |} = Fin 100000
  /\ forall overview,
       StrategyService.totalValue overview = Some (Fin 0) ->
       StrategyService.esopValue_of
         {| StrategyService.esopOverview := Some overview;
            StrategyService.riskFlags := flags |} = Fin 100000.
Proof.
  split; [reflexivity|]. intros overview Hv.
  unfold StrategyService.esopValue_of. cbn. now rewrite Hv.
Qed.

Lemma get_taxRates region :
  In region ["us"; "india"] ->
  exists rates, Obj.get StrategyService.taxRates region = Obj.Own rates.
Proof.
  intros [<- | [<- | []]]; eexists; reflexivity.
Qed.

(** C8 is false as stated: the estimated cost is [Math.round] of the
    binary64 product [esopValue * 0.2], not of 20% of the value.  For the
    total value 7.499999999999999 the product is rounded to 1.5 and the
    estimated cost is 2, while 20% of the value is 1.4999999999999998, which
    rounds to 1; for 29.999999999999996 the monthly target is 1, while a
    twelfth of 20% of the value is below one half and rounds to 0. *)
Lemma generateDetailedEsopStrategy_funding_counterexample :
  let funding (totalValue : Q) :=
    match
      StrategyService.generateDetailedEsopStrategy (fun _ => "") (fun _ => "")
        "us" "low"
        {| StrategyService.esopOverview :=
             Some {| StrategyService.totalValue := Some (Fin totalValue);
                     StrategyService.totalUnvestedShares := None;
                     StrategyService.totalVestedShares := None;
                     StrategyService.percentOfPortfolio := None |};
           StrategyService.riskFlags := None |}
    with
    | StrategyService.Normal s =>
        Some (StrategyService.exerciseFundingStrategy s)
    | StrategyService.ThrowTypeError => None
    end in
  let v1 : Q := 7499999999999999 # 1000000000000000 in
  let v2 : Q := 29999999999999996 # 1000000000000000 in
  StrategyService.estimatedCost <$> funding v1 = Some (Fin 2)
  /\ Num.round (Fin v1 * Fin (2 # 10))%num = Fin 1
  /\ StrategyService.monthlySavingsTarget <$> funding v2 = Some (Fin 1)
  /\ Num.round (Fin v2 * Fin (2 # 10) / Fin 12)%num = Fin 0.
Proof. vm_compute. repeat split. Qed.

(** C8, amended.  For a planning region in {us, india}, the recommended
    annual liquidation percentage is the base of the risk tolerance (10 for
    low, 15 for medium, 20 for high) when the concentration-risk flag is
    false and [min(base + 5, 25)] when it is true, which is 15 for low
    tolerance.  When the total ESOP value (the summary's total value, or
    100000 when that is missing or zero) is a whole number [v] from 1 to
    [2^50], the estimated exercise-funding cost is [v / 5] rounded to the
    nearest integer, halves up, and the monthly savings target is [v / 60]
    rounded in the same way: the binary64 products and quotient of the
    source do not change the rounding on these values. *)
Theorem generateDetailedEsopStrategy_liquidation_and_funding :
  forall (ToString_other : Q -> string) (toLocaleString : number -> string)
         (planningRegion riskTolerance : string)
         (analyticsSummary : StrategyService.AnalyticsSummary),
    In planningRegion ["us"; "india"] ->
    exists s,
      StrategyService.generateDetailedEsopStrategy ToString_other
        toLocaleString planningRegion riskTolerance analyticsSummary
      = StrategyService.Normal s
      /\ let funding := StrategyService.exerciseFundingStrategy s in
         let concentrationRisk :=
           StrategyService.concentrationRisk_of analyticsSummary in
         (forall base,
             In (riskTolerance, base)
                [("low", Fin 10); ("medium", Fin 15); ("high", Fin 20)] ->
             StrategyService.annualSellPercentage funding
             = if concentrationRisk
               then Num.min (base + Fin 5)%num (Fin 25)
               else base)
         /\ (riskTolerance = "low" -> concentrationRisk = true ->
             StrategyService.annualSellPercentage funding = Fin 15)
         /\ (forall v : Z,
                1 <= v <= 2 ^ 50 ->
                StrategyService.esopValue_of analyticsSummary = Num.of_Z v ->
                StrategyService.estimatedCost funding
                = Num.of_Z ((2 * v + 5) / 10)
                /\ StrategyService.monthlySavingsTarget funding
                   = Num.of_Z ((v + 30) / 60)).
Proof.
  intros tso tls region risk summary Hregion.
  destruct (get_taxRates region Hregion) as [rates Hrates].
  unfold StrategyService.generateDetailedEsopStrategy. rewrite Hrates.
  eexists. split; [reflexivity|].
  cbn [StrategyService.exerciseFundingStrategy
         StrategyService.annualSellPercentage StrategyService.estimatedCost
         StrategyService.monthlySavingsTarget].
  unfold StrategyService.liquidationRecommendation_of.
  split; [|split].
  - intros base [[= <- <-] | [[= <- <-] | [[= <- <-] | []]]]; reflexivity.
  - intros -> ->. reflexivity.
  - intros v Hv ->. split.
    + now apply round_fifth_whole.
    + now apply round_sixtieth_whole.
Qed.

(** Low tolerance with the concentration flag set, total value 250000. *)
Lemma generateDetailedEsopStrategy_liquidation_and_funding_witness :
  exists s,
    StrategyService.generateDetailedEsopStrategy (fun _ => "") (fun _ => "")
      "india" "low"
      {| StrategyService.esopOverview :=
           Some {| StrategyService.totalValue := Some (Fin 250000);
                   StrategyService.totalUnvestedShares := None;
                   StrategyService.totalVestedShares := None;
                   StrategyService.percentOfPortfolio := None |};
         StrategyService.riskFlags :=
           Some {| StrategyService.highConcentration := Some true |} |}
    = StrategyService.Normal s
    /\ StrategyService.annualSellPercentage
         (StrategyService.exerciseFundingStrategy s) = Fin 15
    /\ StrategyService.estimatedCost
         (StrategyService.exerciseFundingStrategy s) = Fin 50000
    /\ StrategyService.monthlySavingsTarget
         (StrategyService.exerciseFundingStrategy s) = Fin 4167.
Proof.
  destruct (generateDetailedEsopStrategy_liquidation_and_funding
              (fun _ => "") (fun _ => "") "india" "low"
              {| StrategyService.esopOverview :=
                   Some {| StrategyService.totalValue := Some (Fin 250000);
                           StrategyService.totalUnvestedShares := None;
                           StrategyService.totalVestedShares := None;
                           StrategyService.percentOfPortfolio := None |};
                 StrategyService.riskFlags :=
                   Some {| StrategyService.highConcentration := Some true |} |})
    as (s & Heq & _ & Hlow & Hcost).
  - simpl. tauto.
  - exists s. split; [exact Heq|]. split; [apply Hlow; reflexivity|].
    destruct (Hcost 250000) as [Hc Hm]; [lia | reflexivity |].
    split; [exact Hc | exact Hm].
Defined.

(** *** The allocation tables *)

(** For the three recognised tolerances, whatever the region, both tables
    give three percentages that sum to 100 with 10 for the alternatives. *)
Lemma allocation_tables_recognised region risk :
  In risk ["low"; "medium"; "high"] ->
  (exists sb,
      Obj.get (StrategyService.baseStrategies region) risk = Obj.Own sb
      /\ (StrategyService.bondAllocation sb
          + StrategyService.equityAllocation sb
          + StrategyService.altAllocation sb)%num = Fin 100
      /\ StrategyService.altAllocation sb = Fin 10)
  /\ (exists a,
         StrategyService.getRiskAdjustedAllocation region risk = Obj.Own a
         /\ (StrategyService.Alloc.equity a + StrategyService.Alloc.bonds a
             + StrategyService.Alloc.alternatives a)%num = Fin 100
         /\ StrategyService.Alloc.alternatives a = Fin 10).
Proof.
  intros [<- | [<- | [<- | []]]]; split; eexists;
    (split; [reflexivity|]); cbn; unfold StrategyService.by_region;
    destruct (StrategyService.same region "us"); split; reflexivity.
Qed.

(** A tolerance that is neither a row of the table nor a name inherited
    from [Object.prototype] falls back to the medium row. *)
Lemma getRiskAdjustedAllocation_fallback region risk :
  Obj.assoc (StrategyService.allocations region) risk = None ->
  existsb (String.eqb risk) Obj.prototype_names = false ->
  StrategyService.getRiskAdjustedAllocation region risk
  = StrategyService.getRiskAdjustedAllocation region "medium".
Proof.
  intros Hown Hproto.
  unfold StrategyService.getRiskAdjustedAllocation, Obj.get_or.
  now rewrite (get_undefined _ _ Hown Hproto).
Qed.

(** C10, at the failing input.  For the tolerance ["constructor"] the
    standalone lookup does not fall back to the medium row: it returns the
    function inherited from [Object.prototype], which has no [equity],
    [bonds] or [alternatives]; the three shares are [undefined], their sum
    is [NaN] rather than 100 and the alternatives share is not 10. *)
Theorem getRiskAdjustedAllocation_inherited_name :
  let a := StrategyService.getRiskAdjustedAllocation "us" "constructor" in
  a = Obj.Inherited
  /\ a <> StrategyService.getRiskAdjustedAllocation "us" "medium"
  /\ Obj.field StrategyService.Alloc.alternatives a = None
  /\ (to_number (Obj.field StrategyService.Alloc.equity a)
      + to_number (Obj.field StrategyService.Alloc.bonds a)
      + to_number (Obj.field StrategyService.Alloc.alternatives a))%num = NaN
  /\ Obj.field StrategyService.Alloc.alternatives
       (StrategyService.getRiskAdjustedAllocation "us" "medium")
     = Some (Fin 10).
Proof. repeat split. discriminate. Qed.

(** *** Determinism *)

(** The date part of the ISO form holds no ['T'], so that cutting the ISO
    form at the first ['T'] gives exactly the date part. *)
Lemma avoids_app sep a b :
  Str.avoids sep a -> Str.avoids sep b -> Str.avoids sep (a ++ b).
Proof.
  induction a as [|c a IH]; [intros _ Hb; exact Hb|].
  intros [Hc Ha] Hb. change (String c a ++ b) with (String c (a ++ b)).
  split; auto.
Qed.

Lemma split_head sep a b :
  Str.avoids sep a -> head (Str.split sep (a ++ String sep b)) = Some a.
Proof.
  induction a as [|c a IH]; cbn [Str.avoids].
  - intros _. change ("" ++ String sep b) with (String sep b).
    cbn [Str.split]. now rewrite Ascii.eqb_refl.
  - intros [Hc Ha].
    change (String c a ++ String sep b) with (String c (a ++ String sep b)).
    cbn [Str.split].
    destruct (Ascii.eqb_spec c sep) as [->|_]; [congruence|].
    specialize (IH Ha).
    destruct (Str.split sep (a ++ String sep b)) as [|p ps]; [discriminate|].
    cbn in IH. injection IH as ->. reflexivity.
Qed.

Lemma digit_char_not_T d : 0 <= d < 10 -> Show.digit_char d <> "T"%char.
Proof.
  intros Hd H. apply (f_equal Ascii.N_of_ascii) in H.
  unfold Show.digit_char in H. rewrite Ascii.N_ascii_embedding in H by lia.
  cbn in H. lia.
Qed.

Lemma digits_go_avoids fuel n acc :
  Str.avoids "T" acc -> Str.avoids "T" (Show.digits_go fuel n acc).
Proof.
  revert n acc.
  induction fuel as [|fuel IH]; intros n acc Hacc; cbn; [exact Hacc|].
  assert (Hd : Str.avoids "T" (String (Show.digit_char (n mod 10)) acc)).
  { split; [|exact Hacc]. apply digit_char_not_T. apply Z.mod_pos_bound. lia. }
  destruct (n / 10 =? 0); [exact Hd | now apply IH].
Qed.

Lemma zeros_avoids n : Str.avoids "T" (Show.zeros n).
Proof. induction n; cbn; [tauto|]. split; [discriminate | assumption]. Qed.

Lemma pad_avoids w n : Str.avoids "T" (StrategyService.pad w n).
Proof.
  unfold StrategyService.pad. apply avoids_app; [apply zeros_avoids|].
  unfold Show.digits. now apply digits_go_avoids.
Qed.

Lemma dash_avoids s : Str.avoids "T" s -> Str.avoids "T" ("-" ++ s).
Proof. intros H. split; [discriminate | exact H]. Qed.

Lemma isoDate_avoids t : Str.avoids "T" (StrategyService.isoDate t).
Proof.
  unfold StrategyService.isoDate.
  destruct (JSDate.utc_calendar t) as [[y m] d].
  cbv zeta. apply avoids_app.
  - destruct ((0 <=? y) && (y <=? 9999)); [apply pad_avoids|].
    apply avoids_app; [|apply pad_avoids].
    destruct (y <? 0); (split; [discriminate | exact I]).
  - apply dash_avoids, avoids_app; [apply pad_avoids|].
    apply dash_avoids, pad_avoids.
Qed.

Lemma lastUpdated_is_isoDate now :
  head (Str.split "T" (StrategyService.toISOString now))
  = Some (StrategyService.isoDate now).
Proof. unfold StrategyService.toISOString. apply split_head, isoDate_avoids. Qed.

Lemma isoDate_same_day t1 t2 :
  t1 / JSDate.msPerDay = t2 / JSDate.msPerDay ->
  StrategyService.isoDate t1 = StrategyService.isoDate t2.
Proof.
  intros H. unfold StrategyService.isoDate, JSDate.utc_calendar.
  now rewrite H.
Qed.

(** C9 is false as stated: [generateDetailedBenchmarks] reads the system
    clock, and two calls with the same argument made on 15 and on 16
    November 2024 return different results. *)
Lemma generateDetailedBenchmarks_counterexample :
  StrategyService.generateDetailedBenchmarks 1731628800000 "us"
  <> StrategyService.generateDetailedBenchmarks 1731715200000 "us".
Proof.
  intros H.
  apply (f_equal (fun c =>
                    match c with
                    | StrategyService.Normal r =>
                        StrategyService.Bench.lastUpdated r
                    | StrategyService.ThrowTypeError => None
                    end)) in H.
  vm_compute in H. discriminate.
Qed.

(** The amount in the emergency-fund sentence is formatted in the default
    locale of the host: two hosts give two results for the same
    arguments. *)
Example generateDetailedStrategies_locale :
  let goals :=
    {| currentAge := Some (Fin 30); retirementAge := Some (Fin 60);
       investmentHorizon := None; monthlyIncome := Some (Fin 60000);
       monthlyExpenses := Some (Fin 50000) |} in
  StrategyService.generateDetailedStrategies (fun _ => "")
    (fun _ => "600,000") "us" "low" goals
  <> StrategyService.generateDetailedStrategies (fun _ => "")
       (fun _ => "6,00,000") "us" "low" goals.
Proof.
  intros goals H.
  apply (f_equal (fun c =>
                    match c with
                    | StrategyService.Normal l =>
                        StrategyService.detailedAdvice <$> last l
                    | StrategyService.ThrowTypeError => None
                    end)) in H.
  vm_compute in H. discriminate.
Qed.

(** C9, amended.  The results are not functions of the arguments alone:
    they also depend on two pieces of state of the host, and on nothing
    else.  [generateDetailedBenchmarks] reads the clock: two calls with the
    same region made on the same UTC day return equal results, and two
    calls at any two instants both throw or both return, with results that
    agree on every field other than [lastUpdated], which is the UTC date of
    the call.  [generateDetailedStrategies] and
    [generateDetailedEsopStrategy] format one amount each with
    [toLocaleString] in the default locale of the host: under two locales
    both calls throw or both return; the strategy lists agree on the first
    three strategies and on the title, description, examples and allocation
    of the fourth, and entirely unless the fourth is the financial-safety
    strategy; the ESOP strategies agree on every field except the second of
    the three additional recommendations.  ([calculateDownsideMetrics] and
    [getRiskAdjustedAllocation] read neither the clock nor the locale.) *)
Theorem strategy_functions_ambient_dependence :
  forall (ToString_other : Q -> string),
    (forall now1 now2 region,
        now1 / JSDate.msPerDay = now2 / JSDate.msPerDay ->
        StrategyService.generateDetailedBenchmarks now1 region
        = StrategyService.generateDetailedBenchmarks now2 region)
    /\ (forall now1 now2 region,
           match StrategyService.generateDetailedBenchmarks now1 region,
                 StrategyService.generateDetailedBenchmarks now2 region with
           | StrategyService.Normal r1, StrategyService.Normal r2 =>
               StrategyService.Bench.benchmarks r1
               = StrategyService.Bench.benchmarks r2
               /\ StrategyService.Bench.riskFreeRate_of r1
                  = StrategyService.Bench.riskFreeRate_of r2
               /\ StrategyService.Bench.inflationRate_of r1
                  = StrategyService.Bench.inflationRate_of r2
               /\ StrategyService.Bench.marketDescription_of r1
                  = StrategyService.Bench.marketDescription_of r2
               /\ StrategyService.Bench.dataSources r1
                  = StrategyService.Bench.dataSources r2
               /\ StrategyService.Bench.lastUpdated r1
                  = Some (StrategyService.isoDate now1)
               /\ StrategyService.Bench.lastUpdated r2
                  = Some (StrategyService.isoDate now2)
           | StrategyService.ThrowTypeError, StrategyService.ThrowTypeError =>
               True
           | _, _ => False
           end)
    /\ (forall (locale1 locale2 : number -> string) region risk goals,
           match StrategyService.generateDetailedStrategies ToString_other
                   locale1 region risk goals,
                 StrategyService.generateDetailedStrategies ToString_other
                   locale2 region risk goals with
           | StrategyService.Normal l1, StrategyService.Normal l2 =>
               exists core sector esop fourth1 fourth2,
                 l1 = [core; sector; esop; fourth1]
                 /\ l2 = [core; sector; esop; fourth2]
                 /\ StrategyService.title fourth1
                    = StrategyService.title fourth2
                 /\ StrategyService.description fourth1
                    = StrategyService.description fourth2
                 /\ StrategyService.examples fourth1
                    = StrategyService.examples fourth2
                 /\ StrategyService.allocation fourth1
                    = StrategyService.allocation fourth2
                 /\ (StrategyService.title fourth1
                     <> "Financial Safety Strategy" -> fourth1 = fourth2)
           | StrategyService.ThrowTypeError, StrategyService.ThrowTypeError =>
               True
           | _, _ => False
           end)
    /\ (forall (locale1 locale2 : number -> string) region risk summary,
           match StrategyService.generateDetailedEsopStrategy ToString_other
                   locale1 region risk summary,
                 StrategyService.generateDetailedEsopStrategy ToString_other
                   locale2 region risk summary with
           | StrategyService.Normal s1, StrategyService.Normal s2 =>
               StrategyService.overview s1 = StrategyService.overview s2
               /\ StrategyService.riskAssessment s1
                  = StrategyService.riskAssessment s2
               /\ StrategyService.liquidationPlan s1
                  = StrategyService.liquidationPlan s2
               /\ StrategyService.taxPlanning s1
                  = StrategyService.taxPlanning s2
               /\ StrategyService.futureVestingStrategy s1
                  = StrategyService.futureVestingStrategy s2
               /\ StrategyService.exerciseFundingStrategy s1
                  = StrategyService.exerciseFundingStrategy s2
               /\ StrategyService.actionSteps s1
                  = StrategyService.actionSteps s2
               /\ exists first second1 second2 third,
                    StrategyService.additionalRecommendations s1
                    = [first; second1; third]
                    /\ StrategyService.additionalRecommendations s2
                       = [first; second2; third]
           | StrategyService.ThrowTypeError, StrategyService.ThrowTypeError =>
               True
           | _, _ => False
           end).
Proof.
  intros tso. split; [|split; [|split]].
  - intros now1 now2 region Hday.
    unfold StrategyService.generateDetailedBenchmarks.
    now rewrite !lastUpdated_is_isoDate, (isoDate_same_day now1 now2 Hday).
  - intros now1 now2 region. unfold StrategyService.generateDetailedBenchmarks.
    rewrite !lastUpdated_is_isoDate.
    destruct (Obj.get StrategyService.marketData region);
      cbn; repeat split; reflexivity.
  - intros tls1 tls2 region risk goals.
    unfold StrategyService.generateDetailedStrategies. cbv zeta.
    destruct (Obj.get (StrategyService.baseStrategies region) risk);
      destruct (Obj.get StrategyService.etfExamples region);
      try exact I;
      (do 5 eexists; split; [reflexivity|]; split; [reflexivity|];
       destruct (StrategyService.hasRetirementFocus
                   (StrategyService.profile_of goals));
       [|destruct (Num.gtb (StrategyService.savingsRate
                              (StrategyService.profile_of goals)) (Fin 30))];
       cbn [StrategyService.title StrategyService.description
            StrategyService.examples StrategyService.allocation];
       repeat (split; [reflexivity|]);
       first [intros _; reflexivity | intros H; exfalso; apply H; reflexivity]).
  - intros tls1 tls2 region risk summary.
    unfold StrategyService.generateDetailedEsopStrategy. cbv zeta.
    destruct (Obj.get StrategyService.taxRates region); try exact I;
      cbn [StrategyService.overview StrategyService.riskAssessment
           StrategyService.liquidationPlan StrategyService.taxPlanning
           StrategyService.futureVestingStrategy
           StrategyService.exerciseFundingStrategy
           StrategyService.actionSteps
           StrategyService.additionalRecommendations];
      repeat (split; [reflexivity|]);
      do 4 eexists; split; reflexivity.
Qed.

(** Two calls one hour apart on 15 November 2024. *)
Lemma strategy_functions_ambient_dependence_witness :
  StrategyService.generateDetailedBenchmarks 1731628800000 "india"
  = StrategyService.generateDetailedBenchmarks 1731632400000 "india".
Proof.
  apply (proj1 (strategy_functions_ambient_dependence (fun _ => ""))).
  reflexivity.
Defined.

(** * Further properties of the services *)

(** ** Decimal digits: printing and scanning *)

(** *** The character of a digit *)

Lemma code_digit_char d :
  is_digit d -> Str.code (Show.digit_char d) = 48 + d.
Proof.
  intros Hd. unfold Str.code, Show.digit_char. unfold is_digit in Hd.
  rewrite Ascii.N_ascii_embedding by lia. rewrite Z2N.id by lia. reflexivity.
Qed.

Lemma digit_of_digit_char d :
  is_digit d -> Str.digit 10 (Show.digit_char d) = Some d.
Proof.
  intros Hd. unfold Str.digit. rewrite (code_digit_char d Hd).
  unfold is_digit in Hd.
  destruct (Z.leb_spec 48 (48 + d)); [|lia].
  destruct (Z.leb_spec (48 + d) 57); [|lia]. cbn [andb].
  replace (48 + d - 48) with d by lia.
  destruct (Z.ltb_spec d 10); [reflexivity | lia].
Qed.

Lemma is_digit_not_char d (c : ascii) :
  is_digit d -> ~ (48 <= Str.code c <= 57) -> Show.digit_char d <> c.
Proof.
  intros Hd Hc <-. apply Hc. rewrite (code_digit_char d Hd).
  unfold is_digit in Hd. lia.
Qed.

(** Closes [~ (48 <= Str.code c <= 57)] for a concrete character [c]. *)
Ltac not_digit_code :=
  let H := fresh in
  let H1 := fresh in
  let H2 := fresh in
  intros H; vm_compute in H; destruct H as [H1 H2];
  first [apply H1; reflexivity | apply H2; reflexivity].

Lemma is_ws_digit d : is_digit d -> Str.is_ws (Show.digit_char d) = false.
Proof.
  intros Hd. unfold Str.is_ws. rewrite (code_digit_char d Hd).
  unfold is_digit in Hd.
  destruct (Z.leb_spec 9 (48 + d)), (Z.leb_spec (48 + d) 13),
    (Z.eqb_spec (48 + d) 32); try lia; reflexivity.
Qed.

Lemma strip_sign_digit d r :
  is_digit d ->
  Str.strip_sign (String (Show.digit_char d) r)
  = (1, String (Show.digit_char d) r).
Proof.
  intros Hd.
  assert (Hm : Show.digit_char d <> "-"%char)
    by (apply is_digit_not_char; [exact Hd | not_digit_code]).
  assert (Hp : Show.digit_char d <> "+"%char)
    by (apply is_digit_not_char; [exact Hd | not_digit_code]).
  unfold Str.strip_sign.
  destruct (Show.digit_char d) as [[] [] [] [] [] [] [] []];
    try reflexivity; congruence.
Qed.

(** *** Strings of digits *)

Lemma of_digits_cons_app d ds rest :
  Render.of_digits (d :: ds) ++ rest
  = String (Show.digit_char d) (Render.of_digits ds ++ rest).
Proof. reflexivity. Qed.

Lemma of_digits_app x y :
  Render.of_digits (x ++ y) = Render.of_digits x ++ Render.of_digits y.
Proof.
  induction x as [|d x IH]; [reflexivity|].
  cbn [app]. rewrite of_digits_cons_app, <- IH. reflexivity.
Qed.

Lemma of_digits_nil_r b : Render.of_digits b ++ "" = Render.of_digits b.
Proof.
  induction b as [|x l IH]; [reflexivity|].
  rewrite of_digits_cons_app, IH. reflexivity.
Qed.

Lemma of_digits_length ds : String.length (Render.of_digits ds) = length ds.
Proof. induction ds as [|d ds IH]; cbn; [reflexivity | now rewrite IH]. Qed.

Lemma zeros_of_digits k : Show.zeros k = Render.of_digits (repeat 0 k).
Proof. induction k as [|k IH]; cbn; [reflexivity | now rewrite IH]. Qed.

Lemma split_at_of_digits k ms :
  Show.split_at k (Render.of_digits ms)
  = (Render.of_digits (take k ms), Render.of_digits (drop k ms)).
Proof.
  revert ms. induction k as [|k IH]; intros ms.
  - destruct ms; reflexivity.
  - destruct ms as [|d ms]; [reflexivity|].
    cbn [Render.of_digits Show.split_at take drop]. now rewrite IH.
Qed.

Lemma take_digits_of_digits ds rest :
  Forall is_digit ds ->
  Str.take_digits 10 (Render.of_digits ds ++ rest)
  = ((ds ++ fst (Str.take_digits 10 rest))%list,
     snd (Str.take_digits 10 rest)).
Proof.
  induction 1 as [|d ds Hd Hds IH].
  - change (Render.of_digits [] ++ rest) with rest. cbn [app].
    now destruct (Str.take_digits 10 rest).
  - rewrite of_digits_cons_app. cbn [Str.take_digits].
    rewrite (digit_of_digit_char d Hd), IH. reflexivity.
Qed.

(** A string of digits and nothing else. *)
Lemma take_digits_all ds :
  Forall is_digit ds ->
  Str.take_digits 10 (Render.of_digits ds) = (ds, "").
Proof.
  intros Hds. pose proof (take_digits_of_digits ds "" Hds) as H.
  change (Str.take_digits 10 "") with (@nil Z, "") in H.
  cbn [fst snd] in H. now rewrite app_nil_r, of_digits_nil_r in H.
Qed.

Lemma digits_value_app radix ds l :
  Str.digits_value radix (ds ++ l)
  = fold_left (fun acc d => acc * radix + d) l (Str.digits_value radix ds).
Proof. unfold Str.digits_value. apply fold_left_app. Qed.

Lemma digits_value_zeros k ds :
  Str.digits_value 10 (repeat 0 k ++ ds) = Str.digits_value 10 ds.
Proof.
  rewrite digits_value_app. unfold Str.digits_value at 2.
  induction k as [|k IH]; [reflexivity|]. cbn [repeat fold_left]. exact IH.
Qed.

(** *** Printing a natural number *)

(** [digits_go] writes the decimal digits of [n] in front of [acc]. *)
Lemma digits_go_spec fuel n acc :
  0 <= n < 2 ^ Z.of_nat (S fuel) ->
  exists ds,
    Show.digits_go (S fuel) n acc = Render.of_digits ds ++ acc
    /\ Forall is_digit ds /\ ds <> []
    /\ Str.digits_value 10 ds = n.
Proof.
  assert (Hlast : forall n, 0 <= n -> is_digit (n mod 10)).
  { intros k _. unfold is_digit. apply Z.mod_pos_bound. lia. }
  revert n acc. induction fuel as [|fuel IH]; intros n acc Hn.
  - assert (Hz : n / 10 = 0).
    { apply Z.div_small. change (2 ^ Z.of_nat 1) with 2 in Hn. lia. }
    cbn [Show.digits_go]. rewrite Hz. cbn [Z.eqb].
    exists [n mod 10]. repeat split.
    + constructor; [apply Hlast; lia | constructor].
    + discriminate.
    + unfold Str.digits_value. cbn. rewrite Z.mod_small; lia.
  - remember (S fuel) as f. cbn [Show.digits_go].
    destruct (Z.eqb_spec (n / 10) 0) as [Hz | Hnz].
    + exists [n mod 10]. repeat split.
      * constructor; [apply Hlast; lia | constructor].
      * discriminate.
      * unfold Str.digits_value. cbn.
        pose proof (Z.div_mod n 10 ltac:(lia)). lia.
    + subst f.
      destruct (IH (n / 10) (String (Show.digit_char (n mod 10)) acc))
        as (ds & Heq & Hds & Hne & Hv).
      { split; [apply Z.div_pos; lia|].
        rewrite Nat2Z.inj_succ, Z.pow_succ_r in Hn by lia.
        apply Z.div_lt_upper_bound; lia. }
      exists (ds ++ [n mod 10])%list. repeat split.
      * rewrite Heq, of_digits_app. clear.
        induction ds as [|d ds IHd]; [reflexivity|].
        change (String (Show.digit_char d)
                  (Render.of_digits ds
                   ++ String (Show.digit_char (n mod 10)) acc)
                = String (Show.digit_char d)
                    ((Render.of_digits ds ++ Render.of_digits [n mod 10])
                     ++ acc)).
        now rewrite IHd.
      * apply Forall_app. split; [exact Hds|].
        constructor; [apply Hlast; lia | constructor].
      * intros Habs. apply app_eq_nil in Habs as [_ Habs]. discriminate.
      * rewrite digits_value_app, Hv. cbn.
        pose proof (Z.div_mod n 10 ltac:(lia)). lia.
Qed.

(** The digits of a natural number. *)
Lemma digits_spec n :
  0 <= n ->
  exists ds,
    Show.digits n = Render.of_digits ds
    /\ Forall is_digit ds /\ ds <> [] /\ Str.digits_value 10 ds = n.
Proof.
  intros Hn. unfold Show.digits.
  destruct (digits_go_spec (Z.to_nat (Z.log2 n)) n "") as (ds & Heq & H).
  { split; [exact Hn|].
    rewrite Nat2Z.inj_succ, Z2Nat.id by apply Z.log2_nonneg.
    destruct (Z.eq_dec n 0) as [->|]; [cbn; lia|].
    apply Z.log2_spec. lia. }
  exists ds. split; [|exact H]. now rewrite Heq, of_digits_nil_r.
Qed.

(** *** Reading a natural number back *)

(** [parseInt] reads back the decimal digits of a natural number below
    [2^53]. *)
Lemma parseInt10_digits n :
  0 <= n < 2 ^ 53 -> Str.parseInt10 (Show.digits n) = Num.of_Z n.
Proof.
  intros [Hn Hlt]. destruct (digits_spec n Hn) as (ds & Heq & Hds & Hne & Hv).
  rewrite Heq. unfold Str.parseInt10.
  destruct ds as [|d ds]; [congruence|].
  assert (Hd : is_digit d) by (inversion Hds; assumption).
  cbn [Render.of_digits Str.trim_start].
  rewrite (is_ws_digit d Hd), (strip_sign_digit d _ Hd).
  change (String (Show.digit_char d) (Render.of_digits ds))
    with (Render.of_digits (d :: ds)).
  rewrite (take_digits_all _ Hds), Hv. replace (1 * n) with n by lia.
  apply double_small_Z. lia.
Qed.

(** *** Reading a decimal back *)

(** A string that starts with a digit followed by a digit or a point, or
    that has a single character, is not a [0x], [0o] or [0b] literal. *)
Lemma scan_radix_literal_decimal c0 c1 r :
  48 <= Str.code c1 <= 57 \/ c1 = "."%char ->
  Str.scan_radix_literal (String c0 (String c1 r)) = None.
Proof.
  intros Hc1.
  assert (Hx : forall x : ascii,
             ~ (48 <= Str.code x <= 57) -> x <> "."%char ->
             Ascii.eqb c1 x = false).
  { intros x Hx Hdot. apply Ascii.eqb_neq. intros ->.
    destruct Hc1; congruence. }
  unfold Str.scan_radix_literal.
  destruct c0 as [[] [] [] [] [] [] [] []]; try reflexivity.
  rewrite !Hx by (try discriminate; not_digit_code). reflexivity.
Qed.

Lemma scan_radix_literal_single c :
  Str.scan_radix_literal (String c "") = None.
Proof. destruct c as [[] [] [] [] [] [] [] []]; reflexivity. Qed.

Lemma scan_radix_literal_digits ds :
  Forall is_digit ds -> Str.scan_radix_literal (Render.of_digits ds) = None.
Proof.
  intros Hds. destruct ds as [|d0 [|d1 ds]];
    [reflexivity | apply scan_radix_literal_single |].
  cbn [Render.of_digits]. apply scan_radix_literal_decimal. left.
  assert (Hd1 : is_digit d1).
  { inversion Hds as [|? ? _ Hds']. now inversion Hds'. }
  rewrite (code_digit_char d1 Hd1). unfold is_digit in Hd1. lia.
Qed.

Lemma strip_prefix_Infinity_digit d r :
  is_digit d ->
  Str.strip_prefix "Infinity" (String (Show.digit_char d) r) = None.
Proof.
  intros Hd. cbn [Str.strip_prefix].
  assert (Ascii.eqb "I" (Show.digit_char d) = false) as ->; [|reflexivity].
  apply Ascii.eqb_neq. intros H. symmetry in H. revert H.
  apply is_digit_not_char; [exact Hd | not_digit_code].
Qed.

(** The decimal with an optional sign, the digits [a], a point and the
    digits [b] is scanned as the number they write. *)
Lemma scan_decimal_point s sg a b :
  Forall is_digit a -> Forall is_digit b -> a <> [] -> b <> [] ->
  Str.strip_sign s = (sg, Render.of_digits a ++ "." ++ Render.of_digits b) ->
  Str.scan_decimal s
  = Some (Str.decimal (sg * Str.digits_value 10 (a ++ b))
            (- Z.of_nat (length b)), "").
Proof.
  intros Ha Hb Hna Hnb Hsign. unfold Str.scan_decimal. rewrite Hsign.
  destruct a as [|d0 a']; [congruence|].
  assert (Hd0 : is_digit d0) by (inversion Ha; assumption).
  rewrite of_digits_cons_app, (strip_prefix_Infinity_digit d0 _ Hd0).
  rewrite <- of_digits_cons_app.
  change ("." ++ Render.of_digits b) with (String "." (Render.of_digits b)).
  rewrite (take_digits_of_digits (d0 :: a') _ Ha).
  change (Str.take_digits 10 (String "." (Render.of_digits b)))
    with (@nil Z, String "." (Render.of_digits b)).
  cbn [fst snd]. rewrite app_nil_r, (take_digits_all b Hb).
  destruct b as [|b0 b']; [congruence|].
  cbn [Str.scan_exponent].
  replace (0 - Z.of_nat (length (b0 :: b')))
    with (- Z.of_nat (length (b0 :: b'))) by lia.
  reflexivity.
Qed.

(** ToNumber reads back the decimal digits of a natural number below
    [2^53]. *)
Lemma ToNumber_digits n :
  0 <= n < 2 ^ 53 -> Str.ToNumber (Show.digits n) = Num.of_Z n.
Proof.
  intros [Hn Hlt]. destruct (digits_spec n Hn) as (ds & Heq & Hds & Hne & Hv).
  rewrite Heq. destruct ds as [|d ds]; [congruence|].
  assert (Hd : is_digit d) by (inversion Hds; assumption).
  unfold Str.ToNumber.
  assert (Htrim : Str.trim_start (Render.of_digits (d :: ds))
                  = Render.of_digits (d :: ds)).
  { cbn [Render.of_digits Str.trim_start]. now rewrite (is_ws_digit d Hd). }
  rewrite Htrim, (scan_radix_literal_digits _ Hds).
  assert (Hscan : Str.scan_decimal (Render.of_digits (d :: ds))
                  = Some (Num.of_Z n, "")).
  { unfold Str.scan_decimal.
    cbn [Render.of_digits].
    rewrite (strip_sign_digit d _ Hd), (strip_prefix_Infinity_digit d _ Hd).
    change (String (Show.digit_char d) (Render.of_digits ds))
      with (Render.of_digits (d :: ds)).
    rewrite (take_digits_all _ Hds).
    cbn [Str.scan_exponent]. rewrite app_nil_r, Hv.
    change (0 - Z.of_nat (length (@nil Z))) with 0.
    unfold Str.decimal, Str.scale10. change (10 ^ 0) with 1.
    replace (1 * n * 1) with n by lia.
    rewrite double_small_Z by lia. reflexivity. }
  rewrite Hscan. cbn [Render.of_digits Str.all_ws]. reflexivity.
Qed.

(** A decimal with fraction digits left and below [2^1000] in magnitude is
    kept as it is. *)
Lemma decimal_fraction m (p : positive) :
  (Qabs (Str.scale10 m (Zneg p)) < inject_Z (2 ^ 1000))%Q ->
  Str.decimal m (Zneg p) = Fin (Str.scale10 m (Zneg p)).
Proof.
  intros H. unfold Str.decimal. now destruct (double_finite _ H) as [r ->].
Qed.

Section Fixed.

Variable ToString_other : Q -> string.

(** [Number(x.toFixed(1))] is the binary64 value [q] of [x] rounded to
    tenths, ties away from zero. *)
Lemma fixed1_value x q :
  Num.double x = Fin q ->
  (Qabs q < inject_Z (10 ^ 21))%Q ->
  StrategyService.fixed1 ToString_other (Fin x)
  = Fin (((if Qlt_le_dec q 0 then -1 else 1)
          * Qfloor (Qabs q * 10 + (1 # 2))) # 10).
Proof.
  intros Hd Hq. unfold StrategyService.fixed1, Show.toFixed.
  cbn [Num.to_double]. rewrite Hd.
  assert (Hbig : Qle_bool (inject_Z (10 ^ 21)) (Qabs q) = false).
  { destruct (Qle_bool (inject_Z (10 ^ 21)) (Qabs q)) eqn:E; [|reflexivity].
    apply Qle_bool_iff in E. exfalso. apply (Qlt_not_le _ _ Hq E). }
  rewrite Hbig.
  change (inject_Z (10 ^ Z.of_nat 1)) with 10%Q.
  set (n := Qfloor (Qabs q * 10 + (1 # 2))).
  assert (Hn : 0 <= n).
  { subst n. change 0 with (Qfloor 0). apply Qfloor_resp_le.
    pose proof (Qabs_nonneg q). nra. }
  destruct (digits_spec n Hn) as (ds & Heq & Hds & Hne & Hv).
  rewrite Heq, of_digits_length, zeros_of_digits, <- of_digits_app.
  set (ms := (repeat 0 (2 - length ds) ++ ds)%list).
  assert (Hms : Forall is_digit ms).
  { apply Forall_app. split; [|exact Hds].
    apply List.Forall_forall. intros y Hy. apply repeat_spec in Hy as ->.
    unfold is_digit. lia. }
  assert (Hlen : (2 <= length ms)%nat).
  { subst ms. rewrite length_app, repeat_length. lia. }
  assert (Hval : Str.digits_value 10 ms = n).
  { subst ms. now rewrite digits_value_zeros. }
  rewrite of_digits_length, split_at_of_digits.
  set (a := take (length ms - 1) ms). set (b := drop (length ms - 1) ms).
  assert (Hab : (a ++ b)%list = ms) by apply take_drop.
  assert (Ha : Forall is_digit a) by (apply Forall_take; exact Hms).
  assert (Hb : Forall is_digit b) by (apply Forall_drop; exact Hms).
  assert (Hla : length a = (length ms - 1)%nat)
    by (subst a; rewrite length_take; lia).
  assert (Hlb : length b = 1%nat) by (subst b; rewrite length_drop; lia).
  assert (Hna : a <> []) by (intros E; rewrite E in Hla; cbn in Hla; lia).
  assert (Hnb : b <> []) by (intros E; rewrite E in Hlb; discriminate).
  clearbody a b. clear Heq.
  destruct a as [|d0 a']; [congruence|].
  assert (Hd0 : is_digit d0) by (inversion Ha; assumption).
  set (body := Render.of_digits (d0 :: a') ++ "." ++ Render.of_digits b).
  assert (Hbody : body
                  = String (Show.digit_char d0)
                      (Render.of_digits a' ++ "." ++ Render.of_digits b))
    by reflexivity.
  assert (Hn22 : n <= 10 ^ 22 + 1).
  { subst n. rewrite <- (Qfloor_Z (10 ^ 22 + 1)). apply Qfloor_resp_le.
    change (inject_Z (10 ^ 21)) with (1000000000000000000000 # 1)%Q in Hq.
    change (inject_Z (10 ^ 22 + 1)) with (10000000000000000000001 # 1)%Q.
    lra. }
  assert (Hscan : forall sign sg,
    Str.strip_sign (sign ++ body) = (sg, body) ->
    (sign = "" \/ sign = "-") ->
    Z.abs sg = 1 ->
    Str.ToNumber (sign ++ body) = Fin ((sg * n) # 10)).
  { intros sign sg Hsign Hs Hsg.
    pose proof (scan_decimal_point _ sg (d0 :: a') b Ha Hb Hna Hnb Hsign)
      as Hsd.
    rewrite Hab, Hval, Hlb in Hsd.
    change (- Z.of_nat 1) with (Zneg 1) in Hsd.
    rewrite decimal_fraction in Hsd.
    2:{ apply Qlt_trans with (inject_Z (10 ^ 23)); [|reflexivity].
        unfold Qlt. cbn [Str.scale10 Qabs Qnum Qden inject_Z].
        change (10 ^ 23) with 100000000000000000000000.
        change (10 ^ 22 + 1) with 10000000000000000000001 in Hn22.
        clear - Hn Hn22 Hsg. rewrite Z.abs_mul, Hsg. lia. }
    change (Str.scale10 (sg * n) (Zneg 1)) with ((sg * n) # 10) in Hsd.
    unfold Str.ToNumber.
    assert (Htrim : Str.trim_start (sign ++ body) = sign ++ body).
    { destruct Hs as [-> | ->]; [|reflexivity].
      change ("" ++ body) with body. rewrite Hbody.
      cbn [Str.trim_start]. now rewrite (is_ws_digit d0 Hd0). }
    rewrite Htrim.
    assert (Hrad : Str.scan_radix_literal (sign ++ body) = None).
    { destruct Hs as [-> | ->]; [|reflexivity].
      change ("" ++ body) with body. rewrite Hbody.
      destruct a' as [|d1 a''].
      - apply scan_radix_literal_decimal. now right.
      - change (Render.of_digits (d1 :: a'') ++ "." ++ Render.of_digits b)
          with (String (Show.digit_char d1)
                  (Render.of_digits a'' ++ "." ++ Render.of_digits b)).
        apply scan_radix_literal_decimal. left.
        assert (Hd1 : is_digit d1).
        { inversion Ha as [|? ? _ Hrest]. now inversion Hrest. }
        rewrite (code_digit_char d1 Hd1). unfold is_digit in Hd1. lia. }
    rewrite Hrad, Hsd. cbn [Str.all_ws].
    destruct Hs as [-> | ->]; reflexivity. }
  destruct (Qlt_le_dec q 0).
  - apply (Hscan "-" (-1)); [reflexivity | now right | reflexivity].
  - apply (Hscan "" 1); [|now left|reflexivity].
    change ("" ++ body) with body. rewrite Hbody.
    apply strip_sign_digit, Hd0.
Qed.

End Fixed.

(** ** Day numbers and calendar dates *)

Lemma days_from_civil_shift y m d k :
  JSDate.days_from_civil (y + 400 * k) m d
  = JSDate.days_from_civil y m d + 146097 * k.
Proof.
  unfold JSDate.days_from_civil.
  assert (E : forall a, (a + 400 * k) - ((a + 400 * k) / 400) * 400 = a - a / 400 * 400
                        /\ (a + 400 * k) / 400 = a / 400 + k).
  { intros a. replace (a + 400 * k) with (a + k * 400) by lia.
    rewrite Z.div_add by lia. lia. }
  destruct (m <=? 2).
  - replace (y + 400 * k - 1) with (y - 1 + 400 * k) by lia.
    destruct (E (y - 1)) as [-> E2]. rewrite E2. lia.
  - destruct (E y) as [-> E2]. rewrite E2. lia.
Qed.

Lemma civil_from_days_shift z k :
  JSDate.civil_from_days (z + 146097 * k)
  = let '(y, m, d) := JSDate.civil_from_days z in (y + 400 * k, m, d).
Proof.
  unfold JSDate.civil_from_days.
  replace (z + 146097 * k + 719468) with (z + 719468 + k * 146097) by lia.
  rewrite Z.div_add by lia.
  replace (z + 719468 + k * 146097 - ((z + 719468) / 146097 + k) * 146097)
    with (z + 719468 - (z + 719468) / 146097 * 146097) by lia.
  cbv zeta.
  match goal with |- context [if ?c then _ else _] => destruct c end;
  match goal with |- context [if ?c then _ else _] => destruct c end;
  f_equal; f_equal; lia.
Qed.

Lemma civil_round_trip_400 :
  forallb (fun y =>
    forallb (fun m =>
      forallb (fun d =>
        negb (d <=? Calendar.days_in_month y m)
        || (let '(y', m', d') := JSDate.civil_from_days (JSDate.days_from_civil y m d) in
            (y' =? y) && (m' =? m) && (d' =? d)))
        (map Z.of_nat (seq 1 31)))
      (map Z.of_nat (seq 1 12)))
    (map Z.of_nat (seq 0 400)) = true.
Proof. vm_compute. reflexivity. Qed.

Lemma is_leap_mod y : Calendar.is_leap y = Calendar.is_leap (y mod 400).
Proof.
  unfold Calendar.is_leap.
  replace ((y mod 400) mod 4) with (y mod 4)
    by (Z.div_mod_to_equations; lia).
  replace ((y mod 400) mod 100) with (y mod 100)
    by (Z.div_mod_to_equations; lia).
  rewrite Z.mod_mod by lia. reflexivity.
Qed.

(** Day numbers and calendar dates: decoding the day number of a valid
    date gives the date back. *)
Lemma civil_round_trip y m d :
  1 <= m <= 12 -> 1 <= d <= Calendar.days_in_month y m ->
  JSDate.civil_from_days (JSDate.days_from_civil y m d) = (y, m, d).
Proof.
  intros Hm Hd.
  pose proof (Z.div_mod y 400 ltac:(lia)) as Hy.
  pose proof (Z.mod_pos_bound y 400 ltac:(lia)) as Hy0.
  set (y0 := y mod 400) in *. set (k := y / 400) in *.
  assert (Hdim : Calendar.days_in_month y m = Calendar.days_in_month y0 m).
  { unfold Calendar.days_in_month. now rewrite (is_leap_mod y). }
  assert (H31 : d <= 31).
  { unfold Calendar.days_in_month in Hd.
    repeat match type of Hd with context [if ?c then _ else _] => destruct c end; lia. }
  assert (Hin : forall lo n x, Z.of_nat lo <= x < Z.of_nat (lo + n) ->
                   In x (map Z.of_nat (seq lo n))).
  { intros lo n x Hx. apply in_map_iff. exists (Z.to_nat x).
    split; [lia|]. apply in_seq. lia. }
  pose proof civil_round_trip_400 as Hall.
  apply (proj1 (List.forallb_forall _ _)) with (x := y0) in Hall;
    [|apply Hin; lia].
  apply (proj1 (List.forallb_forall _ _)) with (x := m) in Hall;
    [|apply Hin; lia].
  apply (proj1 (List.forallb_forall _ _)) with (x := d) in Hall;
    [|apply Hin; lia].
  destruct (Z.leb_spec d (Calendar.days_in_month y0 m)); [|lia].
  cbn [negb orb] in Hall.
  replace y with (y0 + 400 * k) by lia.
  rewrite days_from_civil_shift, civil_from_days_shift.
  destruct (JSDate.civil_from_days (JSDate.days_from_civil y0 m d)) as [[y' m'] d'].
  apply andb_true_iff in Hall as [Hall Hd'].
  apply andb_true_iff in Hall as [Hy' Hm'].
  apply Z.eqb_eq in Hy', Hm', Hd'. rewrite Hy', Hm', Hd'. reflexivity.
Qed.

Lemma Qtrunc_inject_Z z : Num.Qtrunc (inject_Z z) = z.
Proof. unfold Num.Qtrunc. cbn. apply Z.quot_1_r. Qed.

Lemma Qtrunc_pred z : Num.Qtrunc (inject_Z z + - (1))%Q = z - 1.
Proof. unfold Num.Qtrunc. cbn. rewrite Z.quot_1_r. lia. Qed.

Lemma MakeFullYear_of_Z y :
  JSDate.MakeFullYear (Num.of_Z y) = Num.of_Z (full_year y).
Proof.
  unfold JSDate.MakeFullYear, Num.of_Z, full_year.
  rewrite Qtrunc_inject_Z. now destruct ((0 <=? y) && (y <=? 99)).
Qed.

Lemma days_from_civil_day y m d :
  JSDate.days_from_civil y m 1 + d - 1 = JSDate.days_from_civil y m d.
Proof. unfold JSDate.days_from_civil. cbv zeta. lia. Qed.

Lemma days_from_civil_bounds y m :
  -270000 <= y <= 270000 -> 1 <= m <= 12 ->
  -99500000 <= JSDate.days_from_civil y m 1 <= 99500000.
Proof.
  intros Hy Hm. unfold JSDate.days_from_civil. cbv zeta.
  destruct (Z.leb_spec m 2), (Z.ltb_spec 2 m); try lia;
    Z.div_mod_to_equations; lia.
Qed.

Section FallbackDates.

Variable Date_parse : string -> option Z.
Variable LocalTZA : Z.
Hypothesis LocalTZA_small : Z.abs LocalTZA <= JSDate.msPerDay.

Lemma Date_ymd_valid y m d :
  -270000 <= full_year y <= 270000 -> 1 <= m <= 12 ->
  1 <= d <= Calendar.days_in_month (full_year y) m ->
  JSDate.local_calendar LocalTZA
    <$> JSDate.Date_ymd LocalTZA (Num.of_Z y) (Num.of_Z m - Fin 1)%num (Num.of_Z d)
  = Some (full_year y, m, d).
Proof.
  intros Hy Hm Hd.
  assert (H31 : d <= 31).
  { unfold Calendar.days_in_month in Hd.
    repeat match type of Hd with context [if ?c then _ else _] => destruct c end; lia. }
  unfold JSDate.Date_ymd. rewrite MakeFullYear_of_Z.
  unfold Num.of_Z, Num.sub, Num.add, Num.neg, JSDate.MakeDay.
  rewrite Qtrunc_pred, !Qtrunc_inject_Z.
  unfold JSDate.MakeDayZ.
  replace ((m - 1) / 12) with 0 by (symmetry; apply Z.div_small; lia).
  rewrite Z.mod_small by lia.
  replace (full_year y + 0) with (full_year y) by lia.
  replace (m - 1 + 1) with m by lia.
  rewrite days_from_civil_day.
  pose proof (days_from_civil_bounds (full_year y) m Hy Hm) as Hb.
  pose proof (days_from_civil_day (full_year y) m d) as Hday.
  pose proof LocalTZA_small as Htz.
  unfold JSDate.msPerDay in *.
  rewrite TimeClip_in_range by lia.
  cbn [fmap option_fmap option_map]. f_equal.
  unfold JSDate.local_calendar.
  replace (JSDate.days_from_civil (full_year y) m d * 86400000 - LocalTZA + LocalTZA)
    with (JSDate.days_from_civil (full_year y) m d * 86400000) by lia.
  unfold JSDate.msPerDay. rewrite Z.div_mul by lia.
  now apply civil_round_trip.
Qed.

End FallbackDates.

(** ** Ingestion: the record of a row *)

Lemma parseInt10_integral s :
  Str.parseInt10 s = NaN \/ Str.parseInt10 s = PInf
  \/ Str.parseInt10 s = NInf \/ exists z, Str.parseInt10 s = Num.of_Z z.
Proof.
  unfold Str.parseInt10. destruct (Str.strip_sign _) as [sg r].
  destruct (Str.take_digits 10 r) as [[|d ds] rest]; [now left|].
  right. apply double_Z_cases.
Qed.

Lemma parseInt_or_0_integral v :
  CsvService.parseInt_or_0 v = NaN \/ CsvService.parseInt_or_0 v = PInf
  \/ CsvService.parseInt_or_0 v = NInf
  \/ exists z, CsvService.parseInt_or_0 v = Num.of_Z z.
Proof.
  unfold CsvService.parseInt_or_0.
  destruct (CsvService.or v (Some "0")); [apply parseInt10_integral | now left].
Qed.

Lemma digits_truthy n : 0 <= n -> Str.truthy (Show.digits n) = true.
Proof.
  intros Hn. destruct (digits_spec n Hn) as (ds & -> & _ & Hne & _).
  destruct ds; [congruence | reflexivity].
Qed.

Lemma parseInt_or_0_digits n :
  0 <= n < 2 ^ 53 ->
  CsvService.parseInt_or_0 (Some (Show.digits n)) = Num.of_Z n.
Proof.
  intros Hn. unfold CsvService.parseInt_or_0, CsvService.or.
  cbn [CsvService.truthy]. rewrite digits_truthy by lia.
  now apply parseInt10_digits.
Qed.

Lemma or_truthy a b : CsvService.truthy a = true -> CsvService.or a b = a.
Proof. intros H. unfold CsvService.or. now rewrite H. Qed.

Lemma upper_char_not_lower c : is_lower (Str.upper_char c) = false.
Proof.
  assert (H : forallb (fun n => negb (is_lower (Str.upper_char (Ascii.ascii_of_nat n))))
                (seq 0 256) = true) by (vm_compute; reflexivity).
  rewrite List.forallb_forall in H.
  specialize (H (Ascii.nat_of_ascii c)).
  rewrite Ascii.ascii_nat_embedding in H.
  apply negb_true_iff, H, in_seq.
  pose proof (Ascii.nat_ascii_bounded c). lia.
Qed.

Lemma toUpperCase_no_lower s :
  Forall (fun c => is_lower c = false) (list_ascii_of_string (Str.toUpperCase s)).
Proof.
  induction s as [|c s IH]; cbn; constructor; [apply upper_char_not_lower | exact IH].
Qed.

Lemma toUpperCase_nonempty s : s <> "" -> Str.toUpperCase s <> "".
Proof. destruct s; [congruence | discriminate]. Qed.

Lemma or_default_nonempty v d : d <> "" -> CsvService.or_default v d <> "".
Proof.
  intros Hd. unfold CsvService.or_default, CsvService.or.
  destruct v as [[|c s]|]; cbn; first [exact Hd | discriminate].
Qed.

Section RowRecords.

Variable Date_parse : string -> option Z.
Variable LocalTZA : Z.
Variable uid : string.

Local Abbreviation processRow := (CsvService.processRow Date_parse LocalTZA uid).

(** X1.  Whatever the row holds, each share count of the record
    ([totalGrants], [vested], [unvested], [exercised], and [quantity], which
    repeats [totalGrants]) is a whole number, [NaN], or an infinity (the
    value of a run of digits too long for binary64): [parseInt] never gives
    a fraction. *)
Theorem processRow_counts_integral (data : CsvService.row) :
  Forall (fun x => x = NaN \/ x = PInf \/ x = NInf
                   \/ exists z : Z, x = Num.of_Z z)
    [CsvService.totalGrants (processRow data);
     CsvService.vested (processRow data);
     CsvService.unvested (processRow data);
     CsvService.exercised (processRow data);
     CsvService.quantity (processRow data)].
Proof.
  repeat (first [apply List.Forall_nil | apply List.Forall_cons]);
    apply parseInt_or_0_integral.
Qed.

(** X2.  A count cell that holds the decimal digits of a natural number
    below [2^53] is read back as that number, for each of [totalGrants],
    [vested], [unvested] and [exercised] (and for [quantity], read from the
    [totalGrants] cell). *)
Theorem processRow_reads_decimal_counts (data : CsvService.row) (n : Z) :
  0 <= n < 2 ^ 53 ->
  Forall (fun '(key, field) =>
            data !! key = Some (Show.digits n) ->
            field (processRow data) = Num.of_Z n)
    [("totalGrants", CsvService.totalGrants); ("vested", CsvService.vested);
     ("unvested", CsvService.unvested); ("exercised", CsvService.exercised);
     ("totalGrants", CsvService.quantity)].
Proof.
  intros Hn.
  assert (Ht : CsvService.truthy (Some (Show.digits n)) = true)
    by (cbn; apply digits_truthy; lia).
  repeat (first [apply List.Forall_nil | apply List.Forall_cons]);
    cbv beta iota; intros H;
    cbn [CsvService.processRow CsvService.totalGrants CsvService.vested
         CsvService.unvested CsvService.exercised CsvService.quantity];
    rewrite H, ?(or_truthy _ _ Ht); now apply parseInt_or_0_digits.
Qed.

(** X3.  The status of a record is one of the two texts, and it is
    ["Exercised"] exactly when the exercised count is a positive whole
    number or [+Infinity]; a count that is zero, negative, missing, [NaN]
    or [-Infinity] gives ["Not exercised"]. *)
Theorem processRow_status (data : CsvService.row) :
  let r := processRow data in
  (CsvService.status r = "Exercised" \/ CsvService.status r = "Not exercised")
  /\ (CsvService.status r = "Exercised"
      <-> CsvService.exercised r = PInf
          \/ exists z : Z, 0 < z /\ CsvService.exercised r = Num.of_Z z).
Proof.
  intros r. subst r.
  cbn [CsvService.processRow CsvService.status CsvService.exercised].
  destruct (parseInt_or_0_integral (data !! "exercised"))
    as [-> | [-> | [-> | [z ->]]]].
  - cbn. split; [now right|]. split; [discriminate|].
    intros [H | (z & _ & Hz)]; discriminate.
  - cbn. split; [now left|]. split; [now left | reflexivity].
  - cbn. split; [now right|]. split; [discriminate|].
    intros [H | (z & _ & Hz)]; discriminate.
  - unfold Num.gtb, Num.ltb, Num.of_Z.
    destruct (Qle_bool (inject_Z z) 0) eqn:Hle; cbn [negb].
    + split; [now right|]. split; [discriminate|].
      intros [H | (z' & Hz' & Heq)]; [discriminate|].
      apply Qle_bool_iff in Hle.
      unfold Num.of_Z, inject_Z in Heq. injection Heq as Heq.
      unfold Qle in Hle. cbn in Hle. lia.
    + split; [now left|]. split; [|reflexivity].
      intros _. right. exists z. split; [|reflexivity].
      destruct (Z_lt_le_dec 0 z) as [|Hz]; [assumption|].
      assert (Qle_bool (inject_Z z) 0 = true).
      { apply Qle_bool_iff. unfold Qle. cbn. lia. }
      congruence.
Qed.

(** X4.  The text fields that have a default are never empty ([ticker],
    [type], [vestingSchedule]), and the ticker holds no lower-case ASCII
    letter. *)
Theorem processRow_text_defaults (data : CsvService.row) :
  let r := processRow data in
  CsvService.ticker r <> "" /\ CsvService.type r <> ""
  /\ CsvService.vestingSchedule r <> ""
  /\ Forall (fun c => is_lower c = false)
       (list_ascii_of_string (CsvService.ticker r)).
Proof.
  intros r. subst r.
  cbn [CsvService.processRow CsvService.ticker CsvService.type
       CsvService.vestingSchedule].
  repeat split.
  - apply toUpperCase_nonempty, or_default_nonempty. discriminate.
  - apply or_default_nonempty. discriminate.
  - apply or_default_nonempty. discriminate.
  - apply toUpperCase_no_lower.
Qed.

End RowRecords.

(** A row with 40 vested shares. *)
Lemma processRow_reads_decimal_counts_witness :
  CsvService.vested
    (CsvService.processRow (fun _ => None) 0 "owner-1"
       ({[ "ticker" := "abc"; "vested" := "40" ]} : CsvService.row))
  = Num.of_Z 40.
Proof.
  pose proof (processRow_reads_decimal_counts (fun _ => None) 0 "owner-1"
                ({[ "ticker" := "abc"; "vested" := "40" ]} : CsvService.row)
                40 ltac:(lia)) as H.
  apply Forall_cons in H as [_ H]. apply Forall_cons in H as [H _].
  apply H. vm_compute. reflexivity.
Defined.

(** ** Ingestion: the fallbacks of the date normalizer *)

Lemma MakeDayZ_bounds y m d :
  -200000 <= y <= 200000 -> -100001 <= m <= 100000 -> -100000 <= d <= 100000 ->
  -99700000 <= JSDate.MakeDayZ y m d <= 99700000.
Proof.
  intros Hy Hm Hd. unfold JSDate.MakeDayZ. cbv zeta.
  assert (H1 : -270000 <= y + m / 12 <= 270000) by (Z.div_mod_to_equations; lia).
  assert (H2 : 1 <= m mod 12 + 1 <= 12) by (Z.div_mod_to_equations; lia).
  pose proof (days_from_civil_bounds _ _ H1 H2). lia.
Qed.

Section FallbackTheorems.

Variable Date_parse : string -> option Z.
Variable LocalTZA : Z.
Hypothesis LocalTZA_small : Z.abs LocalTZA <= JSDate.msPerDay.

Local Abbreviation parseDate := (CsvService.parseDate Date_parse LocalTZA).

Lemma new_Date_valid py pm pd y m d :
  Str.ToNumber py = Num.of_Z y -> Str.ToNumber pm = Num.of_Z m ->
  Str.ToNumber pd = Num.of_Z d ->
  -270000 <= full_year y <= 270000 -> 1 <= m <= 12 ->
  1 <= d <= Calendar.days_in_month (full_year y) m ->
  exists t,
    CsvService.new_Date LocalTZA py (Str.ToNumber pm - Fin 1)%num pd = Some t
    /\ JSDate.local_calendar LocalTZA t = (full_year y, m, d).
Proof.
  intros Hy Hm Hd By Bm Bd. unfold CsvService.new_Date.
  rewrite Hy, Hm, Hd.
  pose proof (Date_ymd_valid LocalTZA LocalTZA_small y m d By Bm Bd) as H.
  destruct (JSDate.Date_ymd _ _ _ _) as [t|]; [|discriminate].
  exists t. split; [reflexivity|].
  change (Some (JSDate.local_calendar LocalTZA t) = Some (full_year y, m, d)) in H.
  exact (inj Some _ _ H).
Qed.

Lemma new_Date_rolls_over py pm pd y m d :
  Str.ToNumber py = Num.of_Z y -> Str.ToNumber pm = Num.of_Z m ->
  Str.ToNumber pd = Num.of_Z d ->
  -200000 <= full_year y <= 200000 -> -100000 <= m <= 100000 ->
  -100000 <= d <= 100000 ->
  CsvService.new_Date LocalTZA py (Str.ToNumber pm - Fin 1)%num pd
  = Some (JSDate.MakeDayZ (full_year y) (m - 1) d * JSDate.msPerDay - LocalTZA).
Proof.
  intros Hy Hm Hd By Bm Bd. unfold CsvService.new_Date, JSDate.Date_ymd.
  rewrite Hy, Hm, Hd, MakeFullYear_of_Z.
  unfold Num.of_Z, Num.sub, Num.add, Num.neg, JSDate.MakeDay.
  rewrite Qtrunc_pred, !Qtrunc_inject_Z.
  pose proof (MakeDayZ_bounds (full_year y) (m - 1) d By ltac:(lia) Bd) as Hb.
  pose proof LocalTZA_small as Htz. unfold JSDate.msPerDay in *.
  now rewrite TimeClip_in_range by lia.
Qed.

(** X6.  When the engine's own parse rejects a string of three
    ['/']-separated numbers that write a valid month, day and year, the
    result is local midnight of exactly that calendar date (a year 0..99
    standing for 1900..1999, as the [Date] constructor reads it). *)
Theorem parseDate_slash_fallback s pm pd py y m d :
  s <> "" -> Date_parse s = None ->
  Str.split "/" s = [pm; pd; py] ->
  Str.ToNumber py = Num.of_Z y -> Str.ToNumber pm = Num.of_Z m ->
  Str.ToNumber pd = Num.of_Z d ->
  -270000 <= full_year y <= 270000 -> 1 <= m <= 12 ->
  1 <= d <= Calendar.days_in_month (full_year y) m ->
  JSDate.local_calendar LocalTZA <$> parseDate (Some s)
  = Some (full_year y, m, d).
Proof.
  intros Hs Hn Hsplit Hy Hm Hd By Bm Bd.
  rewrite parseDate_fallbacks by assumption. rewrite Hsplit.
  destruct (new_Date_valid py pm pd y m d Hy Hm Hd By Bm Bd) as (t & -> & Hc).
  cbn. now rewrite Hc.
Qed.

(** X7.  When the engine's own parse rejects a string of three
    ['-']-separated numbers (and the string does not split into three at
    ['/']) that write a valid day, month and year, the result is local
    midnight of exactly that calendar date. *)
Theorem parseDate_dash_fallback s pm pd py y m d :
  s <> "" -> Date_parse s = None ->
  length (Str.split "/" s) <> 3%nat ->
  Str.split "-" s = [pd; pm; py] ->
  Str.ToNumber py = Num.of_Z y -> Str.ToNumber pm = Num.of_Z m ->
  Str.ToNumber pd = Num.of_Z d ->
  -270000 <= full_year y <= 270000 -> 1 <= m <= 12 ->
  1 <= d <= Calendar.days_in_month (full_year y) m ->
  JSDate.local_calendar LocalTZA <$> parseDate (Some s)
  = Some (full_year y, m, d).
Proof.
  intros Hs Hn Hslash Hsplit Hy Hm Hd By Bm Bd.
  rewrite parseDate_fallbacks by assumption. rewrite Hsplit.
  destruct (new_Date_valid py pm pd y m d Hy Hm Hd By Bm Bd) as (t & -> & Hc).
  destruct (Str.split "/" s) as [|a [|b [|c [|e l]]]]; cbn in Hslash;
    try congruence; cbn; now rewrite Hc.
Qed.

(** X8.  The fallback checks no range: for any whole month and day numbers
    the result is a date, never [null]; a month above 12 or a day past the
    end of the month rolls over into the following months, as [MakeDay]
    computes it. *)
Theorem parseDate_slash_no_validation s pm pd py y m d :
  s <> "" -> Date_parse s = None ->
  Str.split "/" s = [pm; pd; py] ->
  Str.ToNumber py = Num.of_Z y -> Str.ToNumber pm = Num.of_Z m ->
  Str.ToNumber pd = Num.of_Z d ->
  -200000 <= full_year y <= 200000 -> -100000 <= m <= 100000 ->
  -100000 <= d <= 100000 ->
  parseDate (Some s)
  = Some (JSDate.MakeDayZ (full_year y) (m - 1) d * JSDate.msPerDay - LocalTZA).
Proof.
  intros Hs Hn Hsplit Hy Hm Hd By Bm Bd.
  rewrite parseDate_fallbacks by assumption. rewrite Hsplit.
  now rewrite (new_Date_rolls_over py pm pd y m d Hy Hm Hd By Bm Bd).
Qed.

End FallbackTheorems.

(** A leap day, with an engine that parses nothing, five and a half hours
    ahead of UTC. *)
Lemma parseDate_slash_fallback_witness :
  JSDate.local_calendar 19800000
    <$> CsvService.parseDate (fun _ => None) 19800000 (Some "02/29/2024")
  = Some (2024, 2, 29).
Proof.
  apply (parseDate_slash_fallback (fun _ => None) 19800000 ltac:(vm_compute; discriminate)
           "02/29/2024" "02" "29" "2024" 2024 2 29);
    try reflexivity; try discriminate; vm_compute; split; discriminate.
Defined.

(** ["25-12-2024"], which V8 does not parse, in a zone five hours behind
    UTC. *)
Lemma parseDate_dash_fallback_witness :
  JSDate.local_calendar (-18000000)
    <$> CsvService.parseDate (JSDate.Date_parse_v8 (-18000000)) (-18000000)
          (Some "25-12-2024")
  = Some (2024, 12, 25).
Proof.
  apply (parseDate_dash_fallback (JSDate.Date_parse_v8 (-18000000)) (-18000000)
           ltac:(vm_compute; discriminate)
           "25-12-2024" "12" "25" "2024" 2024 12 25);
    try reflexivity; try discriminate; vm_compute; try split; discriminate.
Defined.

(** ["13/45/2024"], which V8 does not parse, is read as 14 February 2025. *)
Lemma parseDate_slash_no_validation_witness :
  JSDate.local_calendar 0
    <$> CsvService.parseDate (JSDate.Date_parse_v8 0) 0 (Some "13/45/2024")
  = Some (2025, 2, 14).
Proof.
  rewrite (parseDate_slash_no_validation (JSDate.Date_parse_v8 0) 0
             ltac:(vm_compute; discriminate)
             "13/45/2024" "13" "45" "2024" 2024 13 45);
    try reflexivity; try discriminate; vm_compute; split; discriminate.
Defined.

(** ** Ingestion: what an upload does to the collection *)

Section UploadFacts.

Context {E : Type}.
Variable Date_parse : string -> option Z.
Variable LocalTZA : Z.

Local Abbreviation parseAndSaveEsopCSV fault :=
  (CsvService.parseAndSaveEsopCSV (E := E) Date_parse LocalTZA fault).
Local Abbreviation own uid := (fun r => CsvService.owned_by uid r = true).
Local Abbreviation foreign uid := (fun r => CsvService.owned_by uid r = false).

Lemma owned_by_processRow uid data :
  CsvService.owned_by uid (CsvService.processRow Date_parse LocalTZA uid data)
  = true.
Proof. unfold CsvService.owned_by. cbn. apply String.eqb_refl. Qed.

Lemma filter_own_results uid rows :
  filter (own uid) (map (CsvService.processRow Date_parse LocalTZA uid) rows)
  = map (CsvService.processRow Date_parse LocalTZA uid) rows.
Proof.
  induction rows as [|data rows IH]; [reflexivity|].
  cbn [map]. rewrite filter_cons_True by apply owned_by_processRow.
  now rewrite IH.
Qed.

Lemma filter_foreign_results uid rows :
  filter (foreign uid) (map (CsvService.processRow Date_parse LocalTZA uid) rows)
  = [].
Proof.
  induction rows as [|data rows IH]; [reflexivity|].
  cbn [map]. rewrite filter_cons_False; [exact IH|].
  rewrite owned_by_processRow. discriminate.
Qed.

Lemma filter_own_foreign uid (l : list CsvService.HoldingRecord) :
  filter (own uid) (filter (foreign uid) l) = [].
Proof.
  induction l as [|r l IH]; [reflexivity|].
  rewrite (filter_cons (foreign uid)). destruct (decide _) as [Hf|Hf]; [|exact IH].
  rewrite filter_cons_False; [exact IH|]. rewrite Hf. discriminate.
Qed.

Lemma filter_foreign_idem uid (l : list CsvService.HoldingRecord) :
  filter (foreign uid) (filter (foreign uid) l) = filter (foreign uid) l.
Proof.
  induction l as [|r l IH]; [reflexivity|].
  rewrite (filter_cons (foreign uid)). destruct (decide _) as [Hf|Hf]; [|exact IH].
  rewrite filter_cons_True by exact Hf. now rewrite IH.
Qed.

(** X9.  When no call of the collaborator fails, an upload replaces the
    owner's records: the promise resolves with the records of the rows, in
    row order, with [validationPassed] true; afterwards the owner's
    documents are exactly these records, the documents of every other owner
    are as before, and the three calls were issued in the order count,
    delete, insert. *)
Theorem parseAndSaveEsopCSV_replaces rows uid st :
  let results := map (CsvService.processRow Date_parse LocalTZA uid) rows in
  let run :=
    parseAndSaveEsopCSV (fun _ => None)
      {| CsvService.rows := rows; CsvService.last_event := CsvService.StreamEnd |}
      uid st in
  fst run = CsvService.Resolved results true
  /\ filter (own uid) (CsvService.docs (snd run)) = results
  /\ filter (foreign uid) (CsvService.docs (snd run))
     = filter (foreign uid) (CsvService.docs st)
  /\ CsvService.calls (snd run)
     = (CsvService.calls st
        ++ [CsvService.CountDocuments; CsvService.DeleteMany;
            CsvService.InsertMany])%list.
Proof.
  intros results run. subst run.
  unfold CsvService.parseAndSaveEsopCSV. cbn [CsvService.last_event CsvService.rows].
  rewrite on_end_resolves by reflexivity.
  cbn [fst snd CsvService.docs CsvService.calls]. fold results.
  repeat split.
  - rewrite filter_app, filter_own_foreign. subst results.
    now rewrite filter_own_results.
  - rewrite filter_app, filter_foreign_idem. subst results.
    rewrite filter_foreign_results. apply app_nil_r.
Qed.

(** X10.  Uploading the same rows twice in a row leaves the collection as
    one upload does, and resolves with the same value. *)
Theorem parseAndSaveEsopCSV_idempotent rows uid st :
  let input :=
    {| CsvService.rows := rows; CsvService.last_event := CsvService.StreamEnd |} in
  let first := parseAndSaveEsopCSV (fun _ => None) input uid st in
  let second := parseAndSaveEsopCSV (fun _ => None) input uid (snd first) in
  fst second = fst first
  /\ CsvService.docs (snd second) = CsvService.docs (snd first).
Proof.
  intros input first second. subst first second input.
  unfold CsvService.parseAndSaveEsopCSV. cbn [CsvService.last_event CsvService.rows].
  rewrite !on_end_resolves by reflexivity.
  cbn [fst snd CsvService.docs CsvService.calls].
  split; [reflexivity|].
  rewrite filter_app, filter_foreign_idem, filter_foreign_results.
  now rewrite app_nil_r.
Qed.

(** X11.  When the count and the deletion succeed and the insert fails, the
    promise is rejected with a [DatabaseError] whose message is the
    collaborator's message after ["Failed to save ESOP data: "], and the
    deletion is not undone: none of the owner's documents is left in the
    collection. *)
Theorem parseAndSaveEsopCSV_insert_failure fault rows uid st msg :
  fault CsvService.CountDocuments = None ->
  fault CsvService.DeleteMany = None ->
  fault CsvService.InsertMany = Some msg ->
  let run :=
    parseAndSaveEsopCSV fault
      {| CsvService.rows := rows; CsvService.last_event := CsvService.StreamEnd |}
      uid st in
  fst run
  = CsvService.Rejected
      (CsvService.DatabaseError ("Failed to save ESOP data: " ++ msg))
  /\ CsvService.docs (snd run) = filter (foreign uid) (CsvService.docs st)
  /\ filter (own uid) (CsvService.docs (snd run)) = []
  /\ CsvService.calls (snd run)
     = (CsvService.calls st
        ++ [CsvService.CountDocuments; CsvService.DeleteMany;
            CsvService.InsertMany])%list.
Proof.
  intros H1 H2 H3 run. subst run.
  unfold CsvService.parseAndSaveEsopCSV, CsvService.on_end, CsvService.db_bind,
    CsvService.countDocuments, CsvService.deleteMany, CsvService.insertMany,
    CsvService.issue, CsvService.db_ret.
  cbn [CsvService.last_event CsvService.rows].
  rewrite H1, H2, H3. cbn [fst snd CsvService.docs CsvService.calls].
  repeat split.
  - apply filter_own_foreign.
  - now rewrite <- !app_assoc.
Qed.

(** X12.  When the count fails, or the count succeeds and the deletion
    fails, the promise is rejected with a [DatabaseError] that carries the
    message, the collection is as before, and no later call is issued (in
    particular no insert). *)
Theorem parseAndSaveEsopCSV_early_failure fault rows uid st msg :
  let run :=
    parseAndSaveEsopCSV fault
      {| CsvService.rows := rows; CsvService.last_event := CsvService.StreamEnd |}
      uid st in
  (fault CsvService.CountDocuments = Some msg ->
   run = (CsvService.Rejected
            (CsvService.DatabaseError ("Failed to save ESOP data: " ++ msg)),
          {| CsvService.docs := CsvService.docs st;
             CsvService.calls :=
               (CsvService.calls st ++ [CsvService.CountDocuments])%list |}))
  /\ (fault CsvService.CountDocuments = None ->
      fault CsvService.DeleteMany = Some msg ->
      run = (CsvService.Rejected
               (CsvService.DatabaseError ("Failed to save ESOP data: " ++ msg)),
             {| CsvService.docs := CsvService.docs st;
                CsvService.calls :=
                  (CsvService.calls st
                   ++ [CsvService.CountDocuments; CsvService.DeleteMany])%list |})).
Proof.
  intros run. subst run.
  unfold CsvService.parseAndSaveEsopCSV, CsvService.on_end, CsvService.db_bind,
    CsvService.countDocuments, CsvService.deleteMany, CsvService.insertMany,
    CsvService.issue, CsvService.db_ret.
  cbn [CsvService.last_event CsvService.rows].
  split.
  - intros H1. rewrite H1. reflexivity.
  - intros H1 H2. rewrite H1, H2. cbn [fst snd CsvService.docs CsvService.calls].
    now rewrite <- !app_assoc.
Qed.

End UploadFacts.

(** The owner's only record is lost when the insert fails. *)
Lemma parseAndSaveEsopCSV_insert_failure_witness :
  let fault op :=
    match op with
    | CsvService.InsertMany => Some "E11000 duplicate key"
    | _ => None
    end in
  let old :=
    CsvService.processRow (fun _ => None) 0 "owner-1"
      ({[ "ticker" := "old"; "vested" := "7" ]} : CsvService.row) in
  let run :=
    CsvService.parseAndSaveEsopCSV (E := string) (fun _ => None) 0 fault
      {| CsvService.rows := [ {[ "ticker" := "abc"; "vested" := "40" ]} ];
         CsvService.last_event := CsvService.StreamEnd |}
      "owner-1" {| CsvService.docs := [old]; CsvService.calls := [] |} in
  fst run
  = CsvService.Rejected
      (CsvService.DatabaseError
         "Failed to save ESOP data: E11000 duplicate key")
  /\ CsvService.docs (snd run) = [].
Proof.
  intros fault old run.
  destruct (parseAndSaveEsopCSV_insert_failure (E := string) (fun _ => None) 0
              fault [ {[ "ticker" := "abc"; "vested" := "40" ]} ] "owner-1"
              {| CsvService.docs := [old]; CsvService.calls := [] |}
              "E11000 duplicate key" eq_refl eq_refl eq_refl)
    as (H1 & H2 & _).
  split; [exact H1 | exact H2].
Defined.

(** A count that fails: the owner's record stays. *)
Lemma parseAndSaveEsopCSV_early_failure_witness :
  let fault op :=
    match op with
    | CsvService.CountDocuments => Some "connection lost"
    | _ => None
    end in
  let old :=
    CsvService.processRow (fun _ => None) 0 "owner-1"
      ({[ "ticker" := "old"; "vested" := "7" ]} : CsvService.row) in
  CsvService.docs
    (snd (CsvService.parseAndSaveEsopCSV (E := string) (fun _ => None) 0 fault
            {| CsvService.rows := [ {[ "ticker" := "abc"; "vested" := "40" ]} ];
               CsvService.last_event := CsvService.StreamEnd |}
            "owner-1" {| CsvService.docs := [old]; CsvService.calls := [] |}))
  = [old].
Proof.
  intros fault old.
  rewrite (proj1 (parseAndSaveEsopCSV_early_failure (E := string)
                    (fun _ => None) 0 fault
                    [ {[ "ticker" := "abc"; "vested" := "40" ]} ] "owner-1"
                    {| CsvService.docs := [old]; CsvService.calls := [] |}
                    "connection lost") eq_refl).
  reflexivity.
Defined.

(** ** The Monte Carlo projector: edge cases and the generator *)

Lemma geb_trans v a b :
  Num.geb b a = true -> Num.geb v b = true -> Num.geb v a = true.
Proof.
  destruct v as [| | |x], a as [| | |y], b as [| | |z]; cbn;
    try discriminate; try reflexivity.
  intros H1 H2. apply Qle_bool_iff in H1, H2. apply Qle_bool_iff.
  eapply Qle_trans; eassumption.
Qed.

Lemma mul_NaN_l x : (NaN * x)%num = NaN.
Proof. reflexivity. Qed.

Lemma add_NaN_l x : (NaN + x)%num = NaN.
Proof. reflexivity. Qed.

Lemma add_NaN_r x : (x + NaN)%num = NaN.
Proof. now destruct x. Qed.

Lemma mul_NaN_r x : (x * NaN)%num = NaN.
Proof. now destruct x. Qed.

Section SimulationEdges.

Variable rng : Type.
Variable Math_random : rng -> number * rng.
Variables Math_log Math_sqrt Math_cos : number -> number.
Variable Math_PI : number.
Variable ToString_other : Q -> string.

Local Abbreviation years_loop :=
  (SuccessProbability.years_loop rng Math_random Math_log Math_sqrt
     Math_cos Math_PI).
Local Abbreviation scenarios_loop :=
  (SuccessProbability.scenarios_loop rng Math_random Math_log Math_sqrt
     Math_cos Math_PI).
Local Abbreviation runSimulation :=
  (SuccessProbability.runSimulation rng Math_random Math_log Math_sqrt
     Math_cos Math_PI ToString_other).
Local Abbreviation generateSuccessProbabilities :=
  (SuccessProbability.generateSuccessProbabilities rng Math_random Math_log
     Math_sqrt Math_cos Math_PI ToString_other).

Local Abbreviation draw_annualReturn :=
  (SuccessProbability.draw_annualReturn rng Math_random Math_log Math_sqrt
     Math_cos Math_PI).

(** The generator after one draw. *)
Local Abbreviation next := (fun g : rng => snd (Math_random g)).

Lemma year_count_nonpositive h :
  (h <= 0)%Q -> SuccessProbability.year_count h = 0%nat.
Proof.
  intros Hle. unfold SuccessProbability.year_count.
  pose proof (Qceiling_resp_le h 0 Hle) as Hc.
  change (Qceiling 0) with 0%Z in Hc. lia.
Qed.

Lemma scenarios_loop_no_years m s init goal n c g :
  scenarios_loop m s 0 init goal n c g
  = ((if Num.geb init goal then c + n else c)%nat, g).
Proof.
  revert c. induction n as [|n IH]; intros c; cbn.
  - destruct (Num.geb init goal); f_equal; lia.
  - rewrite IH. destruct (Num.geb init goal); f_equal; lia.
Qed.

Lemma years_loop_NaN m s n g : fst (years_loop m s n NaN g) = NaN.
Proof.
  revert g. induction n as [|n IH]; intros g; cbn; [reflexivity|].
  unfold SuccessProbability.year_step, SuccessProbability.draw_annualReturn.
  destruct (Math_random g) as [u1 g1]. destruct (Math_random g1) as [u2 g2].
  rewrite mul_NaN_l. apply IH.
Qed.

Lemma years_loop_draws m s n v g :
  snd (years_loop m s n v g) = Nat.iter (n * 2) next g.
Proof.
  revert v g. induction n as [|n IH]; intros v g; [reflexivity|].
  cbn [SuccessProbability.years_loop].
  unfold SuccessProbability.year_step, SuccessProbability.draw_annualReturn.
  destruct (Math_random g) as [u1 g1] eqn:E1.
  destruct (Math_random g1) as [u2 g2] eqn:E2.
  rewrite IH.
  change (S n * 2)%nat with (S (S (n * 2))).
  rewrite !Nat.iter_succ_r. cbv beta.
  rewrite E1. cbn [snd]. rewrite E2. reflexivity.
Qed.

Lemma scenarios_loop_draws m s years init goal n c g :
  snd (scenarios_loop m s years init goal n c g)
  = Nat.iter (n * (years * 2)) next g.
Proof.
  revert c g. induction n as [|n IH]; intros c g; [reflexivity|].
  cbn [SuccessProbability.scenarios_loop].
  pose proof (years_loop_draws m s years init g) as Hy.
  destruct (years_loop m s years init g) as [v g1]. cbn [snd] in Hy.
  rewrite IH, Hy.
  change (S n * (years * 2))%nat with (years * 2 + n * (years * 2))%nat.
  rewrite Nat.add_comm. now rewrite Nat.iter_add.
Qed.

Lemma scenarios_loop_le m s years init goal1 goal2 n c1 c2 g :
  Num.geb goal2 goal1 = true -> (c2 <= c1)%nat ->
  (fst (scenarios_loop m s years init goal2 n c2 g)
   <= fst (scenarios_loop m s years init goal1 n c1 g))%nat.
Proof.
  intros Hg. revert c1 c2 g. induction n as [|n IH]; intros c1 c2 g Hc; cbn.
  - exact Hc.
  - destruct (years_loop m s years init g) as [v g1].
    apply IH.
    destruct (Num.geb v goal2) eqn:H2.
    + rewrite (geb_trans v goal1 goal2 Hg H2). lia.
    + destruct (Num.geb v goal1); lia.
Qed.




(** X13.  With a horizon that is zero or negative no year is simulated: the
    reported probability is 100 when the initial investment is at least
    the goal and 0 otherwise (also when either is [NaN]), and no random
    number is drawn. *)
Theorem runSimulation_horizon_zero risk h init goal g :
  (h <= 0)%Q ->
  let run := runSimulation risk h init goal g in
  (SuccessProbability.successProbability (fst run)
   == (if Num.geb init goal then Fin 100 else Fin 0))%num
  /\ snd run = g.
Proof.
  intros Hh run. subst run. unfold SuccessProbability.runSimulation.
  destruct (SuccessProbability.riskParameters risk) as [m s].
  rewrite (year_count_nonpositive h Hh), scenarios_loop_no_years.
  cbn [fst snd SuccessProbability.successProbability]. split; [|reflexivity].
  destruct (Num.geb init goal).
  - rewrite probability_of_count_value
      by (unfold SuccessProbability.scenarios; lia).
    reflexivity.
  - rewrite probability_of_count_value by lia. reflexivity.
Qed.

Lemma runSimulation_fails risk h init goal g :
  (forall m s n g', Num.geb (fst (years_loop m s n init g')) goal = false) ->
  SuccessProbability.successProbability (fst (runSimulation risk h init goal g))
  = Fin (0 # 100).
Proof.
  intros H. unfold SuccessProbability.runSimulation.
  destruct (SuccessProbability.riskParameters risk) as [m s].
  pose proof (scenarios_loop_none rng Math_random Math_log Math_sqrt Math_cos
                Math_PI m s (SuccessProbability.year_count h) init goal
                SuccessProbability.scenarios 0 g (H m s _)) as Hc.
  destruct (scenarios_loop m s (SuccessProbability.year_count h) init goal
              SuccessProbability.scenarios 0 g) as [k g1].
  cbn [fst SuccessProbability.successProbability] in *. subst k.
  rewrite probability_of_count_value by lia. reflexivity.
Qed.

Lemma years_loop_NaN_fails init goal :
  init = NaN \/ goal = NaN ->
  forall m s n g, Num.geb (fst (years_loop m s n init g)) goal = false.
Proof.
  intros H m s n g. destruct H as [-> | ->].
  - now rewrite years_loop_NaN.
  - now destruct (fst (years_loop m s n init g)).
Qed.

(** X14.  When the initial investment or the goal amount is [NaN], no
    scenario counts as a success and the reported probability is 0, for
    every tolerance, horizon and generator state. *)
Theorem runSimulation_NaN_amount risk h init goal g :
  init = NaN \/ goal = NaN ->
  SuccessProbability.successProbability (fst (runSimulation risk h init goal g))
  = Fin (0 # 100).
Proof.
  intros H. apply runSimulation_fails. now apply years_loop_NaN_fails.
Qed.

Lemma initialInvestment_NaN esopData :
  Exists (fun grant => CsvService.vested grant = NaN
                       \/ CsvService.exercisePrice grant = NaN) esopData ->
  SuccessProbability.initialInvestment_of esopData = NaN.
Proof.
  unfold SuccessProbability.initialInvestment_of.
  generalize (Fin 0). intros acc H. revert acc.
  induction H as [grant l Hg | grant l _ IH]; intros acc; cbn [fold_left].
  - assert (Hp : (CsvService.vested grant * CsvService.exercisePrice grant)%num
                 = NaN).
    { destruct Hg as [-> | ->]; [apply mul_NaN_l | apply mul_NaN_r]. }
    rewrite Hp, add_NaN_r. clear. induction l as [|r l IH]; [reflexivity|].
    cbn [fold_left]. now rewrite add_NaN_l.
  - apply IH.
Qed.

(** X15.  One holding whose vested count or exercise price is [NaN], or a
    retirement age that is missing or [NaN], zeroes the whole table: each of
    the twelve cells holds 0. *)
Theorem generateSuccessProbabilities_NaN_poisons esopData userGoals g :
  Exists (fun grant => CsvService.vested grant = NaN
                       \/ CsvService.exercisePrice grant = NaN) esopData
  \/ to_number (retirementAge userGoals) = NaN ->
  Forall (fun risk =>
    Forall (fun key =>
      SuccessProbability.cell
        (fst (generateSuccessProbabilities esopData userGoals g)) risk key
        (Fin (0 # 100)))
      ["year5"; "year10"; "year15"; "year20"])
    ["lowRisk"; "mediumRisk"; "highRisk"].
Proof.
  intros H.
  assert (Hnan : SuccessProbability.initialInvestment_of esopData = NaN
                 \/ SuccessProbability.goalAmount_of userGoals = NaN).
  { destruct H as [H | H]; [left; now apply initialInvestment_NaN | right].
    unfold SuccessProbability.goalAmount_of. now rewrite H. }
  assert (Hcell : forall risk key h,
    risk ∈ ["lowRisk"; "mediumRisk"; "highRisk"] ->
    h ∈ SuccessProbability.horizons ->
    "year" ++ Show.ToString ToString_other (Num.of_Z h) = key ->
    SuccessProbability.cell
      (fst (generateSuccessProbabilities esopData userGoals g)) risk key
      (Fin (0 # 100))).
  { intros risk key h Hr Hh <-.
    destruct (generateSuccessProbabilities_cell rng Math_random Math_log
                Math_sqrt Math_cos Math_PI ToString_other esopData userGoals
                g risk h Hr Hh) as (p & g0 & Hc & Hp).
    rewrite Hp in Hc. rewrite runSimulation_fails in Hc; [exact Hc|].
    now apply years_loop_NaN_fails. }
  assert (Hin : forall (A : Type) (x : A) l, In x l -> x ∈ l)
    by (intros; now apply list_elem_of_In).
  assert (Hkey : forall risk key,
    risk ∈ ["lowRisk"; "mediumRisk"; "highRisk"] ->
    key ∈ ["year5"; "year10"; "year15"; "year20"] ->
    SuccessProbability.cell
      (fst (generateSuccessProbabilities esopData userGoals g)) risk key
      (Fin (0 # 100))).
  { intros risk key Hr Hk.
    repeat (apply elem_of_cons in Hk as [-> | Hk]);
      [apply (Hcell risk _ 5) | apply (Hcell risk _ 10)
      | apply (Hcell risk _ 15) | apply (Hcell risk _ 20) | ];
      first [exact Hr | reflexivity | apply Hin; cbn; tauto
            | now apply elem_of_nil in Hk]. }
  repeat (first [apply List.Forall_nil | apply List.Forall_cons]);
    apply Hkey; apply Hin; cbn; tauto.
Qed.

(** X16.  From the same generator state, a goal that is at least as high
    is reported with a probability that is at most as high. *)
Theorem runSimulation_goal_monotone risk h init goal1 goal2 g :
  Num.geb goal2 goal1 = true ->
  Num.geb
    (SuccessProbability.successProbability
       (fst (runSimulation risk h init goal1 g)))
    (SuccessProbability.successProbability
       (fst (runSimulation risk h init goal2 g))) = true.
Proof.
  intros Hg. unfold SuccessProbability.runSimulation.
  destruct (SuccessProbability.riskParameters risk) as [m s].
  pose proof (scenarios_loop_le m s (SuccessProbability.year_count h) init
                goal1 goal2 SuccessProbability.scenarios 0 0 g Hg (le_n _)) as Hle.
  pose proof (scenarios_loop_bounds rng Math_random Math_log Math_sqrt Math_cos
                Math_PI m s (SuccessProbability.year_count h) init goal1
                SuccessProbability.scenarios 0 g) as Hb.
  destruct (scenarios_loop m s (SuccessProbability.year_count h) init goal1
              SuccessProbability.scenarios 0 g) as [k1 g1].
  destruct (scenarios_loop m s (SuccessProbability.year_count h) init goal2
              SuccessProbability.scenarios 0 g) as [k2 g2].
  cbn [fst SuccessProbability.successProbability] in *.
  unfold SuccessProbability.scenarios in Hb.
  rewrite !probability_of_count_value by lia.
  apply Qle_bool_iff. unfold Qle. cbn. lia.
Qed.

(** X17.  A run draws exactly two random numbers per simulated year of
    each of the 1000 scenarios: the generator it leaves behind depends on
    the horizon only, not on the tolerance or the amounts. *)
Theorem runSimulation_draws risk h init goal g :
  snd (runSimulation risk h init goal g)
  = Nat.iter (SuccessProbability.scenarios
              * (SuccessProbability.year_count h * 2)) next g.
Proof.
  unfold SuccessProbability.runSimulation.
  destruct (SuccessProbability.riskParameters risk) as [m s].
  pose proof (scenarios_loop_draws m s (SuccessProbability.year_count h) init
                goal SuccessProbability.scenarios 0 g) as Hd.
  destruct (scenarios_loop m s (SuccessProbability.year_count h) init goal
              SuccessProbability.scenarios 0 g) as [k g1].
  exact Hd.
Qed.

End SimulationEdges.





(** Horizon 0 with the goal already met. *)
Lemma runSimulation_horizon_zero_witness :
  (SuccessProbability.successProbability
     (fst (SuccessProbability.runSimulation unit (fun g => (Fin (1 # 2), g))
             (fun x => x) (fun x => x) (fun x => x) (Fin (314 # 100))
             (fun _ => "") "medium" 0 (Fin 500) (Fin 100) tt))
   == Fin 100)%num.
Proof.
  apply (runSimulation_horizon_zero unit (fun g => (Fin (1 # 2), g))
           (fun x => x) (fun x => x) (fun x => x) (Fin (314 # 100))
           (fun _ => "") "medium" 0 (Fin 500) (Fin 100) tt).
  discriminate.
Defined.

(** An initial investment that is not a number. *)
Lemma runSimulation_NaN_amount_witness :
  SuccessProbability.successProbability
    (fst (SuccessProbability.runSimulation unit (fun g => (Fin (1 # 2), g))
            (fun x => x) (fun x => x) (fun x => x) (Fin (314 # 100))
            (fun _ => "") "low" 10 NaN (Fin 0) tt))
  = Fin (0 # 100).
Proof.
  apply (runSimulation_NaN_amount unit (fun g => (Fin (1 # 2), g))
           (fun x => x) (fun x => x) (fun x => x) (Fin (314 # 100))
           (fun _ => "") "low" 10 NaN (Fin 0) tt).
  now left.
Defined.

(** Goals 1000 and 2000 from the same generator state. *)
Lemma runSimulation_goal_monotone_witness :
  let run goal :=
    SuccessProbability.successProbability
      (fst (SuccessProbability.runSimulation unit (fun g => (Fin (1 # 2), g))
              (fun x => x) (fun x => x) (fun _ => Fin 0) (Fin (314 # 100))
              (fun _ => "") "high" 5 (Fin 1000) goal tt)) in
  Num.geb (run (Fin 1000)) (run (Fin 2000)) = true.
Proof.
  intros run.
  apply (runSimulation_goal_monotone unit (fun g => (Fin (1 # 2), g))
           (fun x => x) (fun x => x) (fun _ => Fin 0) (Fin (314 # 100))
           (fun _ => "") "high" 5 (Fin 1000) (Fin 1000) (Fin 2000) tt).
  reflexivity.
Defined.

(** A holding whose vested count could not be read. *)
Lemma generateSuccessProbabilities_NaN_poisons_witness :
  SuccessProbability.cell
    (fst (SuccessProbability.generateSuccessProbabilities unit
            (fun g => (Fin (1 # 2), g)) (fun x => x) (fun x => x)
            (fun _ => Fin 0) (Fin (314 # 100)) (fun _ => "")
            [CsvService.processRow (fun _ => None) 0 "owner-1"
               ({[ "ticker" := "abc"; "vested" := "many" ]} : CsvService.row)]
            {| currentAge := Some (Fin 30); retirementAge := Some (Fin 60);
               investmentHorizon := None; monthlyIncome := None;
               monthlyExpenses := None |} tt))
    "lowRisk" "year5" (Fin (0 # 100)).
Proof.
  pose proof (generateSuccessProbabilities_NaN_poisons unit
                (fun g => (Fin (1 # 2), g)) (fun x => x) (fun x => x)
                (fun _ => Fin 0) (Fin (314 # 100)) (fun _ => "")
                [CsvService.processRow (fun _ => None) 0 "owner-1"
                   ({[ "ticker" := "abc"; "vested" := "many" ]} : CsvService.row)]
                {| currentAge := Some (Fin 30); retirementAge := Some (Fin 60);
                   investmentHorizon := None; monthlyIncome := None;
                   monthlyExpenses := None |} tt) as H.
  assert (Hnan : CsvService.vested
                   (CsvService.processRow (fun _ => None) 0 "owner-1"
                      ({[ "ticker" := "abc"; "vested" := "many" ]} : CsvService.row))
                 = NaN) by (vm_compute; reflexivity).
  specialize (H (or_introl (List.Exists_cons_hd _ _ _ (or_introl Hnan)))).
  apply Forall_cons in H as [H _]. apply Forall_cons in H as [H _]. exact H.
Defined.

(** ** The strategy synthesizer: allocations, examples, exceptions *)

Lemma assoc_None {A} (own : list (string * A)) key :
  Obj.assoc own key = None <-> ~ In key (map fst own).
Proof.
  induction own as [|[k a] own IH]; cbn; [tauto|].
  destruct (String.eqb_spec k key) as [-> | Hne].
  - split; [discriminate | tauto].
  - rewrite IH. tauto.
Qed.

Lemma inherited_name key :
  existsb (String.eqb key) Obj.prototype_names = true
  <-> In key Obj.prototype_names.
Proof.
  rewrite existsb_exists. split.
  - intros (x & Hin & Heq). apply String.eqb_eq in Heq. now subst.
  - intros Hin. exists key. split; [exact Hin | apply String.eqb_refl].
Qed.

(** The three outcomes of a lookup on an object literal. *)
Lemma get_cases {A} (own : list (string * A)) key :
  (In key (map fst own) /\ exists a, Obj.get own key = Obj.Own a)
  \/ (~ In key (map fst own) /\ In key Obj.prototype_names
      /\ Obj.get own key = Obj.Inherited)
  \/ (~ In key (map fst own) /\ ~ In key Obj.prototype_names
      /\ Obj.get own key = Obj.Undefined).
Proof.
  unfold Obj.get. destruct (Obj.assoc own key) as [a|] eqn:Ha.
  - left. split; [|eauto].
    destruct (in_dec String.string_dec key (map fst own)) as [|Hn];
      [assumption|]. apply assoc_None in Hn. congruence.
  - right. apply assoc_None in Ha.
    destruct (existsb (String.eqb key) Obj.prototype_names) eqn:Hp.
    + left. apply inherited_name in Hp. tauto.
    + right. split; [exact Ha|]. split; [|reflexivity].
      intros Hin. apply inherited_name in Hin. congruence.
Qed.


Lemma examples_if (b1 b2 : bool) (s1 s2 s3 : StrategyService.Strategy) :
  StrategyService.examples (if b1 then s1 else if b2 then s2 else s3)
  = if b1 then StrategyService.examples s1
    else if b2 then StrategyService.examples s2
    else StrategyService.examples s3.
Proof. destruct b1, b2; reflexivity. Qed.

Section StrategyLists.

Variable ToString_other : Q -> string.
Variable toLocaleString : number -> string.

Local Abbreviation generateDetailedStrategies :=
  (StrategyService.generateDetailedStrategies ToString_other toLocaleString).
Local Abbreviation generateDetailedStrategies_call :=
  (StrategyService.generateDetailedStrategies_call ToString_other
     toLocaleString).


(** X19.  For a recognised region and tolerance every strategy comes with
    exactly three examples, and none of them is [undefined]: no index reads
    past the end of a row of the ETF table. *)
Theorem generateDetailedStrategies_examples_defined region risk goals :
  In region ["us"; "india"] -> In risk ["low"; "medium"; "high"] ->
  exists l,
    generateDetailedStrategies region risk goals = StrategyService.Normal l
    /\ Forall (fun s =>
                 length (StrategyService.examples s) = 3%nat
                 /\ Forall is_Some (StrategyService.examples s)) l.
Proof.
  intros Hregion Hrisk.
  destruct (get_baseStrategies region risk Hrisk) as [sb Hsb].
  unfold StrategyService.generateDetailedStrategies. rewrite Hsb.
  assert (Hsome : forall (x : string), is_Some (Some x)) by eauto.
  destruct Hregion as [<- | [<- | []]];
    (change (Obj.get StrategyService.etfExamples _)
       with (Obj.Own (A := StrategyService.EtfExamples)) at 1 || idtac).
  all: match goal with
       | |- context [Obj.get StrategyService.etfExamples ?r] =>
           let etf := eval vm_compute in (Obj.get StrategyService.etfExamples r) in
           change (Obj.get StrategyService.etfExamples r) with etf
       end.
  all: eexists; (split; [reflexivity|]); cbv zeta;
    repeat (first [apply List.Forall_nil | apply List.Forall_cons]);
    rewrite ?examples_if; cbn [StrategyService.examples];
    destruct Hrisk as [<- | [<- | [<- | []]]];
    repeat match goal with
           | |- context [if ?b then _ else _] =>
               lazymatch b with
               | StrategyService.hasRetirementFocus _ => destruct b
               | Num.gtb _ _ => destruct b
               end
           end;
    (split; [reflexivity|]);
    repeat (first [apply List.Forall_nil | apply List.Forall_cons]);
    apply Hsome.
Qed.

(** On a [userGoals] that is an object, the function throws exactly when
    the region is not one of the two rows of the ETF table, or the tolerance
    is neither a row of the base table nor a name inherited from
    [Object.prototype]. *)
Lemma generateDetailedStrategies_throws_on_object region risk goals :
  generateDetailedStrategies region risk goals = StrategyService.ThrowTypeError
  <-> (~ In region ["us"; "india"]
       \/ (~ In risk ["low"; "medium"; "high"]
           /\ ~ In risk Obj.prototype_names)).
Proof.
  unfold StrategyService.generateDetailedStrategies. cbv zeta.
  destruct (get_cases (StrategyService.baseStrategies region) risk)
    as [(Hin & sb & Hsb) | [(Hn & Hp & Hsb) | (Hn & Hp & Hsb)]];
  destruct (get_cases StrategyService.etfExamples region)
    as [(Hr & etf & Hetf) | [(Hr & Hq & Hetf) | (Hr & Hq & Hetf)]];
  rewrite Hsb, ?Hetf;
  cbn [map fst StrategyService.baseStrategies StrategyService.etfExamples]
    in *;
  split; try discriminate; try tauto.
Qed.

(** X20.  For a region and a tolerance that are strings and a third
    argument that is left out, [null], or an object whose five profile
    fields are Numbers or missing, the call throws exactly when the third
    argument is [null], or the region is not one of the two rows of the ETF
    table, or the tolerance is neither a row of the base table nor a name
    inherited from [Object.prototype]. *)
Theorem generateDetailedStrategies_throws_iff region risk
    (userGoals : argument UserGoals) :
  generateDetailedStrategies_call region risk userGoals
  = StrategyService.ThrowTypeError
  <-> (userGoals = Null
       \/ ~ In region ["us"; "india"]
       \/ (~ In risk ["low"; "medium"; "high"]
           /\ ~ In risk Obj.prototype_names)).
Proof.
  destruct userGoals as [| |goals]; cbn [StrategyService.generateDetailedStrategies_call].
  - rewrite generateDetailedStrategies_throws_on_object.
    split; [tauto | intros [H | H]; [discriminate H | exact H]].
  - split; [now left | reflexivity].
  - rewrite generateDetailedStrategies_throws_on_object.
    split; [tauto | intros [H | H]; [discriminate H | exact H]].
Qed.

End StrategyLists.


(** A high tolerance in India, ten years from retirement. *)
Lemma generateDetailedStrategies_examples_defined_witness :
  exists l,
    StrategyService.generateDetailedStrategies (fun _ => "") (fun _ => "")
      "india" "high"
      {| currentAge := Some (Fin 50); retirementAge := Some (Fin 60);
         investmentHorizon := None; monthlyIncome := None;
         monthlyExpenses := None |}
    = StrategyService.Normal l
    /\ Forall (fun s =>
                 length (StrategyService.examples s) = 3%nat
                 /\ Forall is_Some (StrategyService.examples s)) l.
Proof.
  apply (generateDetailedStrategies_examples_defined (fun _ => "") (fun _ => "")
           "india" "high"); cbn; tauto.
Defined.

(** ** The downside metrics *)

Lemma or_number_truthy v d :
  Num.truthy d = true -> Num.truthy (StrategyService.or_number v d) = true.
Proof.
  intros Hd. unfold StrategyService.or_number, Num.or.
  destruct (Num.truthy (to_number v)) eqn:Hv; assumption.
Qed.

Lemma or_number_falsy v d :
  Num.truthy (to_number v) = false -> StrategyService.or_number v d = d.
Proof.
  intros Hv. unfold StrategyService.or_number, Num.or. now rewrite Hv.
Qed.

Lemma tenths_close (x : Q) :
  (0 <= x)%Q ->
  let d := (- Qfloor (x * 10 + (1 # 2)) # 10)%Q in
  (d <= 0)%Q /\ (Qabs (d + x) <= 1 # 20)%Q.
Proof.
  intros Hx d.
  pose proof (Qfloor_le (x * 10 + (1 # 2))) as Hlo.
  pose proof (Qlt_floor (x * 10 + (1 # 2))) as Hhi.
  set (f := Qfloor (x * 10 + (1 # 2))) in *.
  assert (Hd : (d == - inject_Z f * (1 # 10))%Q).
  { subst d. unfold Qeq, inject_Z. cbn. lia. }
  rewrite inject_Z_plus in Hhi. change (inject_Z 1) with 1%Q in Hhi.
  assert (Hf : (0 <= inject_Z f)%Q).
  { change 0%Q with (inject_Z 0). rewrite <- Zle_Qle. subst f.
    apply (Qfloor_resp_le 0). lra. }
  split.
  - rewrite Hd. lra.
  - apply Qabs_Qle_condition. rewrite Hd. split; lra.
Qed.

Section DownsideFacts.

Variable ToString_other : Q -> string.

Local Abbreviation calculateDownsideMetrics :=
  (StrategyService.calculateDownsideMetrics ToString_other).

Lemma get_advisories region :
  In region ["us"; "india"] ->
  exists table,
    Obj.get StrategyService.advisories region = Obj.Own table
    /\ map fst table = ["high"; "medium"; "low"]
    /\ Forall (fun row => length (snd row) = 4%nat) table.
Proof.
  intros [<- | [<- | []]]; eexists; (split; [reflexivity|]);
    (split; [reflexivity|]); repeat constructor.
Qed.

Lemma fmul_Fin x y x' y' :
  Num.double x = Fin x' -> Num.double y = Fin y' ->
  Num.fmul (Fin x) (Fin y) = Num.double (x' * y').
Proof.
  intros Hx Hy. unfold Num.fmul. cbn [Num.to_double]. rewrite Hx, Hy.
  reflexivity.
Qed.

(** The drawdown before it is printed: [-1 * volatility * multiplier] in
    binary64, for a multiplier that is 1, 1.4 or 2. *)
Lemma drawdown_product v k :
  (1 # 1000 <= v)%Q -> (v <= 1000000)%Q ->
  In k [1%Q; (14 # 10)%Q; 2%Q] ->
  exists x r : Q,
    Num.fmul (Num.fmul (Fin (-1)) (Fin v)) (Fin k) = Fin x
    /\ Num.double x = Fin r
    /\ (r < 0)%Q
    /\ (- (v * k) - (1 # 200000000) <= r)%Q
    /\ (r <= - (v * k) + (1 # 200000000))%Q.
Proof.
  intros Hlo Hhi Hk.
  pose proof pow2_normal_min as Hmin.
  assert (H53 : Num.pow2 53 = 9007199254740992%Q) by reflexivity.
  destruct (double_error v) as (v1 & E1 & A1 & B1); [lra | rewrite H53; lra |].
  rewrite (fmul_Fin (-1) v (-1) v1 ltac:(vm_compute; reflexivity) E1).
  unfold Num.half_ulp in *.
  destruct (double_error_neg (-1 * v1)) as (r1 & E2 & A2 & B2);
    [lra | rewrite H53; lra |].
  rewrite E2. unfold Num.half_ulp in *.
  destruct (double_error_neg r1) as (r1' & E3 & A3 & B3);
    [lra | rewrite H53; lra |].
  unfold Num.half_ulp in *.
  assert (Hkd : exists k', Num.double k = Fin k'
                           /\ (k - k * (1 # 9007199254740992) <= k')%Q
                           /\ (k' <= k + k * (1 # 9007199254740992))%Q
                           /\ (1 <= k)%Q /\ (k <= 2)%Q).
  { destruct Hk as [<- | [<- | [<- | []]]]; eexists;
      (split; [vm_compute; reflexivity|]); repeat split; discriminate. }
  destruct Hkd as (k' & Ek & Ak & Bk & Hk1 & Hk2).
  rewrite (fmul_Fin r1 k r1' k' E3 Ek).
  assert (Hprod : (- (r1' * k') <= v * k * (1 + (1 # 1000000000000000)))%Q
                  /\ (v * k * (1 - (1 # 1000000000000000)) <= - (r1' * k'))%Q).
  { split; nra. }
  destruct Hprod as [P1 P2].
  assert (Hvk : (1 # 1000 <= v * k)%Q /\ (v * k <= 2000000)%Q) by (split; nra).
  destruct Hvk as [Hvk1 Hvk2].
  set (vk := (v * k)%Q) in *. set (p := (r1' * k')%Q) in *.
  clearbody vk p.
  destruct (double_error_neg p) as (r2 & E4 & A4 & B4);
    [lra | rewrite H53; lra |].
  rewrite E4. unfold Num.half_ulp in *.
  destruct (double_error_neg r2) as (r3 & E5 & A5 & B5);
    [lra | rewrite H53; lra |].
  unfold Num.half_ulp in *.
  exists r2, r3. split; [reflexivity|]. split; [exact E5|].
  repeat split; lra.
Qed.

(** X21.  For a recognised region and a market volatility [v] between
    0.001 and 1000000, the reported maximum drawdown is never positive and
    lies within 0.05 (the rounding to one decimal) plus [10^-8] (the
    rounding of the binary64 products) of minus the volatility times the
    multiplier of the tolerance (2 for high, 1.4 for medium, 1
    otherwise). *)
Theorem calculateDownsideMetrics_maxDrawdown region risk v :
  In region ["us"; "india"] ->
  (1 # 1000 <= v)%Q -> (v <= 1000000)%Q ->
  exists m d,
    calculateDownsideMetrics region risk (Some (Fin v)) = StrategyService.Normal m
    /\ StrategyService.maxDrawdown m = Fin d
    /\ (d <= 0)%Q
    /\ (Qabs (d + v * StrategyService.by_risk risk 2 (14 # 10) 1)
        <= (1 # 20) + (1 # 100000000))%Q.
Proof.
  intros Hregion Hlo Hhi.
  destruct (get_advisories region Hregion) as (table & Htable & _).
  unfold StrategyService.calculateDownsideMetrics. rewrite Htable.
  assert (Hv : StrategyService.or_number (Some (Fin v))
                 (StrategyService.by_region region (Fin (142 # 10))
                    (Fin (165 # 10))) = Fin v).
  { unfold StrategyService.or_number, Num.or. cbn.
    destruct (Qeq_bool v 0) eqn:E; [|reflexivity].
    apply Qeq_bool_iff in E. lra. }
  rewrite Hv. clear Hv.
  set (k := StrategyService.by_risk risk 2%Q (14 # 10)%Q 1%Q).
  assert (Hk : In k [1%Q; (14 # 10)%Q; 2%Q]).
  { subst k. unfold StrategyService.by_risk.
    destruct (StrategyService.same risk "high");
      [|destruct (StrategyService.same risk "medium")]; cbn; tauto. }
  assert (HK : StrategyService.by_risk risk (Fin 2) (Fin (14 # 10)) (Fin 1)
               = Fin k).
  { subst k. unfold StrategyService.by_risk.
    destruct (StrategyService.same risk "high");
      [|destruct (StrategyService.same risk "medium")]; reflexivity. }
  rewrite HK. clear HK.
  destruct (drawdown_product v k Hlo Hhi Hk) as (x & r & Ex & Er & Hneg & A & B).
  rewrite Ex.
  assert (Hk12 : (1 <= k <= 2)%Q).
  { destruct Hk as [<- | [<- | [<- | []]]]; split; discriminate. }
  assert (Hvk : (v * k <= 2000000)%Q) by nra.
  assert (Habs : (Qabs r == - r)%Q) by (apply Qabs_neg; lra).
  assert (Hlt : (Qabs r < inject_Z (10 ^ 21))%Q).
  { rewrite Habs.
    change (inject_Z (10 ^ 21)) with 1000000000000000000000%Q. lra. }
  pose proof (fixed1_value ToString_other x r Er Hlt) as Hfix.
  destruct (Qlt_le_dec r 0) as [_|Hge]; [|lra].
  assert (Hfl : Qfloor (Qabs r * 10 + (1 # 2)) = Qfloor (- r * 10 + (1 # 2)))
    by (apply Qfloor_comp; rewrite Habs; reflexivity).
  rewrite Hfl in Hfix.
  replace (-1 * Qfloor (- r * 10 + (1 # 2)))
    with (- Qfloor (- r * 10 + (1 # 2))) in Hfix by lia.
  destruct (tenths_close (- r) ltac:(lra)) as [D1 D2].
  apply Qabs_Qle_condition in D2 as [D2 D3].
  destruct (Obj.get table risk);
    eexists; eexists; (split; [reflexivity|]);
    cbn [StrategyService.maxDrawdown]; (split; [exact Hfix|]);
    (split; [exact D1|]);
    apply Qabs_Qle_condition; fold k; split; lra.
Qed.

(** X22.  For a recognised region the call returns; a recognised tolerance
    gets its four advisories, while a tolerance that is neither recognised
    nor inherited from [Object.prototype] gets [undefined] advisories (no
    fallback row) together with the drawdown, worst year, stress test and
    recovery time of the low tolerance. *)
Theorem calculateDownsideMetrics_advisories region risk vol :
  In region ["us"; "india"] ->
  exists m,
    calculateDownsideMetrics region risk vol = StrategyService.Normal m
    /\ (In risk ["low"; "medium"; "high"] ->
        exists l, StrategyService.advisories_of m = StrategyService.AdvisoryList l
                  /\ length l = 4%nat)
    /\ (~ In risk ["low"; "medium"; "high"] ->
        ~ In risk Obj.prototype_names ->
        StrategyService.advisories_of m = StrategyService.AdvisoryUndefined
        /\ exists m',
             calculateDownsideMetrics region "low" vol = StrategyService.Normal m'
             /\ StrategyService.maxDrawdown m = StrategyService.maxDrawdown m'
             /\ StrategyService.worstYear m = StrategyService.worstYear m'
             /\ StrategyService.stressTest m = StrategyService.stressTest m'
             /\ StrategyService.recoveryTime m = StrategyService.recoveryTime m').
Proof.
  intros Hregion.
  destruct (get_advisories region Hregion) as (table & Htable & Hkeys & Hlen).
  unfold StrategyService.calculateDownsideMetrics. rewrite Htable.
  destruct (get_cases table risk)
    as [(Hin & l & Hl) | [(Hn & Hp & Hl) | (Hn & Hp & Hl)]];
    rewrite Hl; rewrite Hkeys in *; eexists; (split; [reflexivity|]);
    cbn [StrategyService.advisories_of].
  - split; [|intros Hno; exfalso; apply Hno; cbn in *; tauto].
    intros _. exists l. split; [reflexivity|].
    unfold Obj.get in Hl. destruct (Obj.assoc table risk) as [l'|] eqn:Ha;
      [|destruct (existsb _ _); discriminate].
    injection Hl as ->. clear - Ha Hlen.
    induction table as [|[k a] table IH]; [discriminate|].
    cbn in Ha. apply Forall_cons in Hlen as [Hk Hlen].
    destruct (String.eqb k risk); [injection Ha as <-; exact Hk | now apply IH].
  - split; [intros Hin; exfalso; apply Hn; cbn in *; tauto|].
    intros _ Hno. contradiction.
  - split; [intros Hin; exfalso; apply Hn; cbn in *; tauto|].
    intros _ _. split; [reflexivity|].
    assert (Hlow : exists l, Obj.get table "low" = Obj.Own l).
    { destruct (get_cases table "low") as [(_ & l & E) | [(H & _) | (H & _)]];
        [eauto | |]; exfalso; apply H; rewrite Hkeys; cbn; tauto. }
    destruct Hlow as [l ->]. eexists. split; [reflexivity|].
    assert (Hrisk : forall A (h m l : A),
              StrategyService.by_risk risk h m l = l).
    { intros A h m0 l0. unfold StrategyService.by_risk, StrategyService.same.
      destruct (String.eqb_spec risk "high") as [-> | _];
        [exfalso; apply Hn; cbn; tauto|].
      destruct (String.eqb_spec risk "medium") as [-> | _];
        [exfalso; apply Hn; cbn; tauto | reflexivity]. }
    cbn [StrategyService.maxDrawdown StrategyService.worstYear
         StrategyService.stressTest StrategyService.recoveryTime].
    rewrite !Hrisk. repeat split.
Qed.

(** X23.  When the market volatility is missing, zero or [NaN], the
    regional default is used (14.2 for the US, 16.5 otherwise), and the
    reported maximum drawdown is that default times the multiplier, rounded
    to one decimal: -28.4, -19.9, -14.2 for the US and -33, -23.1, -16.5
    otherwise. *)
Theorem calculateDownsideMetrics_default_volatility region risk vol :
  In region ["us"; "india"] ->
  Num.truthy (to_number vol) = false ->
  exists m,
    calculateDownsideMetrics region risk vol = StrategyService.Normal m
    /\ StrategyService.volatility m
       = StrategyService.by_region region (Fin (142 # 10)) (Fin (165 # 10))
    /\ StrategyService.maxDrawdown m
       = StrategyService.by_region region
           (StrategyService.by_risk risk
              (Fin (-284 # 10)) (Fin (-199 # 10)) (Fin (-142 # 10)))
           (StrategyService.by_risk risk
              (Fin (-330 # 10)) (Fin (-231 # 10)) (Fin (-165 # 10))).
Proof.
  intros Hregion Hvol.
  destruct (get_advisories region Hregion) as (table & Htable & _).
  unfold StrategyService.calculateDownsideMetrics. rewrite Htable.
  rewrite (or_number_falsy _ _ Hvol).
  destruct (Obj.get table risk); eexists; (split; [reflexivity|]);
    cbn [StrategyService.volatility StrategyService.maxDrawdown];
    unfold StrategyService.by_region, StrategyService.by_risk;
    destruct (StrategyService.same region "us");
    destruct (StrategyService.same risk "high");
    destruct (StrategyService.same risk "medium");
    split; vm_compute; reflexivity.
Qed.

End DownsideFacts.

(** A volatility of 17.37 and a medium tolerance. *)
Lemma calculateDownsideMetrics_maxDrawdown_witness :
  exists m d,
    StrategyService.calculateDownsideMetrics (fun _ => "") "india" "medium"
      (Some (Fin (1737 # 100))) = StrategyService.Normal m
    /\ StrategyService.maxDrawdown m = Fin d
    /\ (d <= 0)%Q
    /\ (Qabs (d + (1737 # 100) * (14 # 10)) <= (1 # 20) + (1 # 100000000))%Q.
Proof.
  apply (calculateDownsideMetrics_maxDrawdown (fun _ => "") "india" "medium"
           (1737 # 100)).
  - cbn. tauto.
  - discriminate.
  - discriminate.
Defined.

(** The tolerance ["aggressive"]: no advisories, and the worst year of the
    low tolerance. *)
Lemma calculateDownsideMetrics_advisories_witness :
  exists m,
    StrategyService.calculateDownsideMetrics (fun _ => "") "us" "aggressive"
      None = StrategyService.Normal m
    /\ StrategyService.advisories_of m = StrategyService.AdvisoryUndefined
    /\ StrategyService.worstYear m = Fin (-150 # 10).
Proof.
  destruct (calculateDownsideMetrics_advisories (fun _ => "") "us" "aggressive"
              None) as (m & Hm & _ & Hno).
  - cbn. tauto.
  - exists m. split; [exact Hm|].
    destruct Hno as (Ha & m' & Hm' & _ & Hw & _).
    + cbn. intros [H | [H | [H | []]]]; discriminate H.
    + cbn. intros H. repeat (destruct H as [H | H]; [discriminate H|]).
      exact H.
    + split; [exact Ha|]. rewrite Hw.
      injection Hm' as <-. vm_compute. reflexivity.
Defined.

(** A market volatility that is [NaN]. *)
Lemma calculateDownsideMetrics_default_volatility_witness :
  exists m,
    StrategyService.calculateDownsideMetrics (fun _ => "") "us" "medium"
      (Some NaN) = StrategyService.Normal m
    /\ StrategyService.volatility m = Fin (142 # 10)
    /\ StrategyService.maxDrawdown m = Fin (-199 # 10).
Proof.
  apply (calculateDownsideMetrics_default_volatility (fun _ => "") "us" "medium"
           (Some NaN)); [cbn; tauto | reflexivity].
Defined.

(** ** The benchmarks and the region lookups *)

Lemma utc_calendar_of_day y m d t :
  1 <= m <= 12 -> 1 <= d <= Calendar.days_in_month y m ->
  0 <= t < JSDate.msPerDay ->
  JSDate.utc_calendar (JSDate.days_from_civil y m d * JSDate.msPerDay + t)
  = (y, m, d).
Proof.
  intros Hm Hd Ht. unfold JSDate.utc_calendar.
  unfold JSDate.msPerDay in *.
  rewrite Z.add_comm, Z.div_add by lia.
  rewrite Z.div_small by lia. cbn [Z.add].
  now apply civil_round_trip.
Qed.

Lemma get_marketData region :
  In region ["us"; "india"] ->
  exists market, Obj.get StrategyService.marketData region = Obj.Own market.
Proof. intros [<- | [<- | []]]; eexists; reflexivity. Qed.

(** X24.  For a recognised region, [lastUpdated] is the UTC calendar date
    of the instant read from the clock, written [YYYY-MM-DD], whatever the
    time of day (years 0 to 9999). *)
Theorem generateDetailedBenchmarks_lastUpdated region y m d t :
  In region ["us"; "india"] ->
  0 <= y <= 9999 -> 1 <= m <= 12 -> 1 <= d <= Calendar.days_in_month y m ->
  0 <= t < JSDate.msPerDay ->
  exists r,
    StrategyService.generateDetailedBenchmarks
      (JSDate.days_from_civil y m d * JSDate.msPerDay + t) region
    = StrategyService.Normal r
    /\ StrategyService.Bench.lastUpdated r
       = Some (StrategyService.pad 4 y ++ "-" ++ StrategyService.pad 2 m
               ++ "-" ++ StrategyService.pad 2 d).
Proof.
  intros Hregion Hy Hm Hd Ht.
  destruct (get_marketData region Hregion) as [market Hmarket].
  unfold StrategyService.generateDetailedBenchmarks.
  rewrite Hmarket, lastUpdated_is_isoDate.
  eexists. split; [reflexivity|]. cbn [StrategyService.Bench.lastUpdated].
  unfold StrategyService.isoDate.
  rewrite (utc_calendar_of_day y m d t Hm Hd Ht).
  destruct (Z.leb_spec 0 y); [|lia]. destruct (Z.leb_spec y 9999); [|lia].
  reflexivity.
Qed.

(** The last millisecond of 29 February 2024. *)
Lemma generateDetailedBenchmarks_lastUpdated_witness :
  exists r,
    StrategyService.generateDetailedBenchmarks 1709251199999 "india"
    = StrategyService.Normal r
    /\ StrategyService.Bench.lastUpdated r = Some "2024-02-29".
Proof.
  apply (generateDetailedBenchmarks_lastUpdated "india" 2024 2 29 86399999);
    first [lia | reflexivity | (cbn; tauto)
          | (vm_compute; split; first [discriminate | reflexivity])].
Defined.

Section Throwing.

Variable ToString_other : Q -> string.
Variable toLocaleString : number -> string.

Lemma inherited_read_throws_iff name key :
  Obj.inherited_read_throws name key = true
  <-> name <> "__proto__" /\ In key ["caller"; "arguments"].
Proof.
  unfold Obj.inherited_read_throws.
  rewrite andb_true_iff, negb_true_iff, existsb_exists.
  split.
  - intros [Hn (x & Hin & Heq)]. apply String.eqb_eq in Heq. subst x.
    split; [|exact Hin]. now apply String.eqb_neq.
  - intros [Hn Hin]. split; [now apply String.eqb_neq|].
    exists key. split; [exact Hin | apply String.eqb_refl].
Qed.

(** X25.  On string arguments (and a market volatility and summary fields
    that are Numbers or missing), the three functions that index a table by
    the region throw as follows.  Call the region unknown when it is
    neither a row of the table (us, india) nor a name inherited from
    [Object.prototype].  [generateDetailedBenchmarks] throws exactly on an
    unknown region; [generateDetailedEsopStrategy] throws exactly on an
    unknown region or a [userGoals] argument that is [null];
    [calculateDownsideMetrics] throws exactly on an unknown region, or on a
    region that names an inherited function (any inherited name but
    [__proto__]) together with the tolerance ["caller"] or ["arguments"]. *)
Theorem region_lookup_throws_iff region :
  let unknown :=
    ~ In region ["us"; "india"] /\ ~ In region Obj.prototype_names in
  (forall now,
      StrategyService.generateDetailedBenchmarks now region
      = StrategyService.ThrowTypeError <-> unknown)
  /\ (forall risk summary userGoals,
        StrategyService.generateDetailedEsopStrategy_call ToString_other
          toLocaleString region risk summary userGoals
        = StrategyService.ThrowTypeError <-> userGoals = Null \/ unknown)
  /\ (forall risk vol,
        StrategyService.calculateDownsideMetrics ToString_other region risk vol
        = StrategyService.ThrowTypeError
        <-> unknown
            \/ (In region Obj.prototype_names /\ region <> "__proto__"
                /\ In risk ["caller"; "arguments"])).
Proof.
  intros unknown. subst unknown.
  split; [|split]; intros.
  - unfold StrategyService.generateDetailedBenchmarks.
    destruct (get_cases StrategyService.marketData region)
      as [(Hr & a & Ha) | [(Hr & Hq & Ha) | (Hr & Hq & Ha)]];
      rewrite Ha; cbn [map fst StrategyService.marketData] in *;
      (split; [intros H; try discriminate H; tauto
              | intros H; first [reflexivity | exfalso; tauto]]).
  - assert (Hbody :
      StrategyService.generateDetailedEsopStrategy ToString_other
        toLocaleString region risk summary = StrategyService.ThrowTypeError
      <-> ~ In region ["us"; "india"] /\ ~ In region Obj.prototype_names).
    { unfold StrategyService.generateDetailedEsopStrategy.
      destruct (get_cases StrategyService.taxRates region)
        as [(Hr & a & Ha) | [(Hr & Hq & Ha) | (Hr & Hq & Ha)]];
        rewrite Ha; cbn [map fst StrategyService.taxRates] in *;
        (split; [intros H; try discriminate H; tauto
                | intros H; first [reflexivity | exfalso; tauto]]). }
    destruct userGoals as [| |goals];
      cbn [StrategyService.generateDetailedEsopStrategy_call].
    + rewrite Hbody. split; [tauto | intros [H | H]; [discriminate H | exact H]].
    + split; [now left | reflexivity].
    + rewrite Hbody. split; [tauto | intros [H | H]; [discriminate H | exact H]].
  - unfold StrategyService.calculateDownsideMetrics.
    destruct (get_cases StrategyService.advisories region)
      as [(Hr & a & Ha) | [(Hr & Hq & Ha) | (Hr & Hq & Ha)]];
      rewrite Ha; cbn [map fst StrategyService.advisories] in *.
    + destruct (Obj.get a risk);
        (split; [intros H; discriminate H | intros [H | (H & _)]]);
        exfalso.
      all: try tauto.
      all: destruct Hr as [<- | [<- | []]];
        cbn in H; repeat (destruct H as [H | H]; [discriminate H|]); exact H.
    + destruct (Obj.inherited_read_throws region risk) eqn:Hthrow.
      * apply inherited_read_throws_iff in Hthrow.
        split; [intros _; right; tauto | reflexivity].
      * split; [intros H; discriminate H|].
        intros [[_ H] | (_ & Hn & Hin)]; [contradiction|].
        assert (Ht : Obj.inherited_read_throws region risk = true)
          by (apply inherited_read_throws_iff; tauto).
        congruence.
    + split; [intros _; left; tauto | reflexivity].
Qed.

End Throwing.

(** ** The ESOP strategy and the two allocation tables *)

Lemma double_not_NaN q : Num.double q <> NaN.
Proof.
  unfold Num.double.
  destruct (Z.eqb_spec (Z.abs (Qnum q)) 0) as [|Hz]; [discriminate|].
  destruct (_ && _).
  - unfold Num.Qsign. destruct (Qnum q); [lia | discriminate | discriminate].
  - destruct (_ =? 0); discriminate.
Qed.

Lemma to_double_not_NaN a : a <> NaN -> Num.to_double a <> NaN.
Proof. destruct a; cbn; try congruence. intros _. apply double_not_NaN. Qed.

Lemma round_not_NaN a : a <> NaN -> Num.round a <> NaN.
Proof. destruct a; cbn; unfold Num.of_Z; congruence. Qed.

Lemma round_fifth_defined x :
  Num.truthy x = true ->
  Num.round (Num.fmul x (Fin (2 # 10))) <> NaN
  /\ Num.round (Num.fdiv (Num.fmul x (Fin (2 # 10))) (Fin 12)) <> NaN.
Proof.
  intros Hx.
  assert (Hn : x <> NaN) by (intros ->; discriminate).
  assert (Hm : Num.fmul x (Fin (2 # 10)) <> NaN).
  { unfold Num.fmul. rewrite to_double_fifth. apply to_double_not_NaN.
    pose proof (to_double_not_NaN x Hn) as Hd.
    destruct (Num.to_double x); [congruence | | |]; discriminate. }
  split; [now apply round_not_NaN|].
  apply round_not_NaN. unfold Num.fdiv. rewrite to_double_12.
  apply to_double_not_NaN.
  pose proof (to_double_not_NaN _ Hm) as Hd.
  destruct (Num.to_double (Num.fmul x (Fin (2 # 10))));
    [congruence | | |]; discriminate.
Qed.

Section EsopFunding.

Variable ToString_other : Q -> string.
Variable toLocaleString : number -> string.

(** X26.  For a recognised region and any tolerance and summary, the
    estimated cost and the monthly savings target are never [NaN], the
    annual sell percentage is one of 10, 15, 20 and 25, and a tolerance that
    is neither medium nor high is treated as low (10, or 15 under the
    concentration flag). *)
Theorem generateDetailedEsopStrategy_funding_defined region risk summary :
  In region ["us"; "india"] ->
  exists s,
    StrategyService.generateDetailedEsopStrategy ToString_other toLocaleString
      region risk summary = StrategyService.Normal s
    /\ let funding := StrategyService.exerciseFundingStrategy s in
       StrategyService.estimatedCost funding <> NaN
       /\ StrategyService.monthlySavingsTarget funding <> NaN
       /\ In (StrategyService.annualSellPercentage funding)
            [Fin 10; Fin 15; Fin 20; Fin 25]
       /\ (~ In risk ["medium"; "high"] ->
           StrategyService.annualSellPercentage funding
           = if StrategyService.concentrationRisk_of summary
             then Fin 15 else Fin 10).
Proof.
  intros Hregion.
  destruct (get_taxRates region Hregion) as [rates Hrates].
  unfold StrategyService.generateDetailedEsopStrategy. rewrite Hrates.
  eexists. split; [reflexivity|].
  cbn [StrategyService.exerciseFundingStrategy
         StrategyService.annualSellPercentage StrategyService.estimatedCost
         StrategyService.monthlySavingsTarget].
  assert (Ht : Num.truthy (StrategyService.esopValue_of summary) = true)
    by (apply or_number_truthy; reflexivity).
  destruct (round_fifth_defined _ Ht) as [H1 H2].
  split; [exact H1|]. split; [exact H2|].
  unfold StrategyService.liquidationRecommendation_of, StrategyService.by_risk,
    StrategyService.same.
  split.
  - destruct (StrategyService.concentrationRisk_of summary),
             (String.eqb risk "high"), (String.eqb risk "medium");
      cbn; tauto.
  - intros Hno.
    destruct (String.eqb_spec risk "high") as [-> | _];
      [exfalso; apply Hno; cbn; tauto|].
    destruct (String.eqb_spec risk "medium") as [-> | _];
      [exfalso; apply Hno; cbn; tauto|].
    now destruct (StrategyService.concentrationRisk_of summary).
Qed.

End EsopFunding.

(** X27.  The two allocation tables of the service never agree: for each
    recognised tolerance the equity share of [getRiskAdjustedAllocation]
    is that of the core strategy's table plus 10 for the US and plus 5
    otherwise, and the bond share is lower by the same amount. *)
Theorem allocation_tables_diverge region risk :
  In risk ["low"; "medium"; "high"] ->
  exists sb a,
    Obj.get (StrategyService.baseStrategies region) risk = Obj.Own sb
    /\ StrategyService.getRiskAdjustedAllocation region risk = Obj.Own a
    /\ StrategyService.Alloc.equity a
       = (StrategyService.equityAllocation sb
          + StrategyService.by_region region (Fin 10) (Fin 5))%num
    /\ StrategyService.Alloc.bonds a
       = (StrategyService.bondAllocation sb
          - StrategyService.by_region region (Fin 10) (Fin 5))%num
    /\ StrategyService.Alloc.equity a <> StrategyService.equityAllocation sb.
Proof.
  intros [<- | [<- | [<- | []]]]; do 2 eexists;
    (split; [reflexivity|]); (split; [reflexivity|]);
    cbn; unfold StrategyService.by_region;
    destruct (StrategyService.same region "us");
    repeat split; discriminate.
Qed.

(** A total value that is [NaN] and the tolerance ["aggressive"]. *)
Lemma generateDetailedEsopStrategy_funding_defined_witness :
  exists s,
    StrategyService.generateDetailedEsopStrategy (fun _ => "") (fun _ => "")
      "us" "aggressive"
      {| StrategyService.esopOverview :=
           Some {| StrategyService.totalValue := Some NaN;
                   StrategyService.totalUnvestedShares := None;
                   StrategyService.totalVestedShares := None;
                   StrategyService.percentOfPortfolio := None |};
         StrategyService.riskFlags := None |}
    = StrategyService.Normal s
    /\ StrategyService.estimatedCost
         (StrategyService.exerciseFundingStrategy s) <> NaN
    /\ StrategyService.annualSellPercentage
         (StrategyService.exerciseFundingStrategy s) = Fin 10.
Proof.
  destruct (generateDetailedEsopStrategy_funding_defined (fun _ => "")
              (fun _ => "") "us" "aggressive"
              {| StrategyService.esopOverview :=
                   Some {| StrategyService.totalValue := Some NaN;
                           StrategyService.totalUnvestedShares := None;
                           StrategyService.totalVestedShares := None;
                           StrategyService.percentOfPortfolio := None |};
                 StrategyService.riskFlags := None |})
    as (s & Hs & Hc & _ & _ & Hp).
  - cbn. tauto.
  - exists s. split; [exact Hs|]. split; [exact Hc|].
    apply Hp. cbn. intros [H | [H | []]]; discriminate H.
Defined.

(** High tolerance in India: 70 in one table, 75 in the other. *)
Lemma allocation_tables_diverge_witness :
  exists sb a,
    Obj.get (StrategyService.baseStrategies "india") "high" = Obj.Own sb
    /\ StrategyService.getRiskAdjustedAllocation "india" "high" = Obj.Own a
    /\ StrategyService.equityAllocation sb = Fin 70
    /\ StrategyService.Alloc.equity a = Fin 75.
Proof.
  destruct (allocation_tables_diverge "india" "high")
    as (sb & a & Hsb & Ha & He & _).
  - cbn. tauto.
  - exists sb, a. split; [exact Hsb|]. split; [exact Ha|].
    injection Hsb as <-. injection Ha as <-. split; reflexivity.
Defined.

(** ** The response transformer *)

Section TransformerFacts.

Import DataTransformer.

Variable O : Type.
Variable ToNumber_object : O -> number.

Local Abbreviation transformRecord :=
  (DataTransformer.transformRecord O ToNumber_object).
Local Abbreviation Number_or_0 :=
  (DataTransformer.Number_or_0 O ToNumber_object).

Lemma transformRecord_field record key :
  key ∈ numericFields ->
  toObject O (transformRecord record) !! key
  = Some (Number_or_0 (toObject O record) key).
Proof.
  intros Hk. unfold DataTransformer.transformRecord. cbn [toObject].
  unfold numericFields in Hk.
  repeat (apply elem_of_cons in Hk as [-> | Hk]);
    [ | | | | | now apply elem_of_nil in Hk];
    repeat first [ apply lookup_insert_eq
                 | rewrite lookup_insert_ne by discriminate ].
Qed.

(** X28.  Each of the five numeric fields is served as a Number, whatever
    the record holds there.  A field that is missing or [null] is served as
    exactly 0; a field that holds a Number is served as that number, except
    that 0 and [NaN] are served as 0, so that it is never [NaN]. *)
Theorem transformRecord_numbers record key :
  key ∈ numericFields ->
  exists n,
    toObject O (transformRecord record) !! key = Some (VNumber n)
    /\ (get O (toObject O record) key = VUndefined
        \/ get O (toObject O record) key = VNull -> n = Fin 0)
    /\ (forall x, get O (toObject O record) key = VNumber x ->
        n = (if Num.truthy x then x else Fin 0) /\ n <> NaN).
Proof.
  intros Hk. rewrite (transformRecord_field record key Hk).
  unfold DataTransformer.Number_or_0.
  eexists. split; [reflexivity|]. split.
  - intros [-> | ->]; reflexivity.
  - intros x ->. cbn [truthy ToNumber]. split.
    + now destruct (Num.truthy x).
    + destruct x; cbn; try discriminate.
      destruct (Qeq_bool q 0); discriminate.
Qed.

(** X29.  Every property of a record other than the five numeric fields is
    served as it is; a successful response keeps the number and the order of
    its records; and a response that is not a successful list of records is
    passed on unchanged. *)
Theorem transformEsopData_frame :
  (forall record key,
      key ∉ numericFields ->
      toObject O (transformRecord record) !! key = toObject O record !! key)
  /\ (forall status l,
        is_success O status = true ->
        exists l',
          transformEsopData O ToNumber_object (Body status (Records l))
          = Body status (Records l')
          /\ length l' = length l
          /\ forall i record, l !! i = Some record ->
               l' !! i = Some (transformRecord record))
  /\ (forall data,
        (forall status l, data = Body status (Records l) ->
                          is_success O status = false) ->
        transformEsopData O ToNumber_object data = data).
Proof.
  split; [|split].
  - intros record key Hk. unfold DataTransformer.transformRecord.
    cbn [toObject]. unfold numericFields in Hk.
    rewrite !lookup_insert_ne; [reflexivity|..];
      intros <-; apply Hk; repeat constructor.
  - intros status l Hs. cbn [transformEsopData]. rewrite Hs.
    eexists. split; [reflexivity|]. split; [apply length_map|].
    intros i record Hi. rewrite list_lookup_fmap, Hi. reflexivity.
  - intros data H. destruct data as [status [l|v]|v]; try reflexivity.
    cbn [transformEsopData]. now rewrite (H status l eq_refl).
Qed.

(** X30.  A numeric field stored as the string of the decimal digits of a
    natural number below [2^53] is served as that number. *)
Theorem transformRecord_digit_strings record key n :
  key ∈ numericFields -> 0 <= n < 2 ^ 53 ->
  get O (toObject O record) key = VString (Show.digits n) ->
  toObject O (transformRecord record) !! key
  = Some (VNumber (Num.of_Z n)).
Proof.
  intros Hk Hn Hv. rewrite (transformRecord_field record key Hk).
  unfold DataTransformer.Number_or_0. rewrite Hv. cbn [truthy].
  destruct (digits_spec n (proj1 Hn)) as (ds & Heq & _ & Hne & _).
  assert (Ht : Str.truthy (Show.digits n) = true).
  { rewrite Heq. destruct ds; [congruence | reflexivity]. }
  rewrite Ht. cbn [ToNumber]. now rewrite ToNumber_digits.
Qed.

End TransformerFacts.

(** A stored [null] and a stored [NaN] are both served as 0. *)
Lemma transformRecord_numbers_witness :
  let record :=
    DataTransformer.Document (O := unit)
      {[ "ticker" := DataTransformer.VString "ABC";
         "vested" := DataTransformer.VNumber NaN;
         "unvested" := DataTransformer.VNull ]} in
  let served key :=
    DataTransformer.toObject unit
      (DataTransformer.transformRecord unit (fun _ => NaN) record) !! key in
  served "vested" = Some (DataTransformer.VNumber (Fin 0))
  /\ served "unvested" = Some (DataTransformer.VNumber (Fin 0)).
Proof.
  intros record served. split.
  - destruct (transformRecord_numbers unit (fun _ => NaN) record "vested")
      as (n & Hn & _ & Hx).
    + unfold DataTransformer.numericFields. apply list_elem_of_In. cbn. tauto.
    + unfold served. rewrite Hn. do 2 f_equal.
      apply (Hx NaN). vm_compute. reflexivity.
  - destruct (transformRecord_numbers unit (fun _ => NaN) record "unvested")
      as (n & Hn & H0 & _).
    + unfold DataTransformer.numericFields. apply list_elem_of_In. cbn. tauto.
    + unfold served. rewrite Hn. do 2 f_equal.
      apply H0. right. vm_compute. reflexivity.
Defined.

(** An error response is passed on as it is. *)
Lemma transformEsopData_frame_witness :
  DataTransformer.transformEsopData unit (fun _ => NaN)
    (DataTransformer.Body (DataTransformer.VString "error")
       (DataTransformer.Records
          [DataTransformer.Plain
             {[ "vested" := DataTransformer.VString "40" ]}]))
  = DataTransformer.Body (DataTransformer.VString "error")
      (DataTransformer.Records
         [DataTransformer.Plain
            {[ "vested" := DataTransformer.VString "40" ]}]).
Proof.
  apply (proj2 (proj2 (transformEsopData_frame unit (fun _ => NaN)))).
  intros status l [= <- _]. reflexivity.
Defined.

(** The string ["1200"]. *)
Lemma transformRecord_digit_strings_witness :
  DataTransformer.toObject unit
    (DataTransformer.transformRecord unit (fun _ => NaN)
       (DataTransformer.Plain
          {[ "ticker" := DataTransformer.VString "ABC";
             "totalGrants" := DataTransformer.VString "1200" ]}))
  !! "totalGrants" = Some (DataTransformer.VNumber (Num.of_Z 1200)).
Proof.
  apply (transformRecord_digit_strings unit (fun _ => NaN)
           (DataTransformer.Plain
              {[ "ticker" := DataTransformer.VString "ABC";
                 "totalGrants" := DataTransformer.VString "1200" ]})
           "totalGrants" 1200).
  - unfold DataTransformer.numericFields. apply list_elem_of_In. cbn. tauto.
  - lia.
  - vm_compute. reflexivity.
Defined.
